(** * OCI MCP server: dispatch, envelopes and error classification

    A shallow embedding of the TypeScript sources of the OCI MCP server
    (the four domain dispatchers, the top-level tool router, the reduced
    single-tool server and the OCI client helpers), followed by the
    properties of the natural-language specification and by further
    properties read off the sources.

    Conventions of the embedding:
    - JavaScript values are the type [JVal]; objects are association lists
      in key order, a key bound to [JUndef] being a property whose value is
      [undefined].  Numbers are integers ([Z]): the sources only handle
      counts, limits, sizes and status codes; the cap of [getAllPages],
      which any caller chooses, is a [JsNumber].  A string is the Rocq
      string of its UTF-8 encoding; [string_length] is its JavaScript
      length, in UTF-16 code units.
    - [async] functions are programs of type [Prog A]: a tree of backend
      calls whose leaves return or throw.  [run] executes a program against
      a [World] (the OCI SDK clients and the clock) and records every
      backend call, with its settlement, in a trace.
    - The SDK is typed as its TypeScript declarations type it: a call
      rejects with an error object ([JsError]) or resolves with a response
      from which the sources read an array of items, a resource object, a
      string or nothing ([Shape]).  Likewise a payload property that the
      schemas type as an array is read as an array ([elements]).
    - zod schemas are terms of type [Schema]; [parse] is zod's [parse]:
      objects are stripped to their declared keys and a union answers with
      its first member that accepts the value.  The text of a [ZodError]
      and zod's e-mail pattern are left to zod.
    - The constructor of the client manager runs against a [Host]: the
      file system and the constructors of the OCI SDK, each of which may
      throw. *)

From Stdlib Require Import ZArith QArith Qround String List Ascii DecimalString.
From Stdlib Require Import Lia Bool.
From stdpp Require Import base option list gmap strings.

Set Warnings "-register-all".

Open Scope string_scope.
Open Scope list_scope.
Open Scope Z_scope.

(** ** JavaScript values *)

Module Js.

Inductive JVal : Type :=
| JUndef
| JNull
| JBool (b : bool)
| JNum (n : Z)
| JStr (s : string)
| JArr (xs : list JVal)
| JObj (fields : list (string * JVal)).

Definition JObject : Type := list (string * JVal).

(** [o[k]] on an association list: the first binding of [k]. *)
Fixpoint obj_get (k : string) (fields : JObject) : JVal :=
  match fields with
  | [] => JUndef
  | (k', v) :: rest => if String.eqb k' k then v else obj_get k rest
  end.

Fixpoint obj_has (k : string) (fields : JObject) : bool :=
  match fields with
  | [] => false
  | (k', _) :: rest => String.eqb k' k || obj_has k rest
  end.

(** [o[k] = v]: an existing key keeps its place, a new key goes last. *)
Fixpoint obj_set (k : string) (v : JVal) (fields : JObject) : JObject :=
  match fields with
  | [] => [(k, v)]
  | (k', v') :: rest =>
      if String.eqb k' k then (k', v) :: rest else (k', v') :: obj_set k v rest
  end.

(** [{...a, ...b}] *)
Definition obj_spread (a b : JObject) : JObject :=
  fold_left (fun acc kv => obj_set kv.1 kv.2 acc) b a.

(** Property read [v.k] for a [v] that is neither [undefined] nor [null];
    see [reading] for those. *)
Definition prop (v : JVal) (k : string) : JVal :=
  match v with
  | JObj fields => obj_get k fields
  | _ => JUndef
  end.

Definition has_prop (v : JVal) (k : string) : bool :=
  match v with
  | JObj fields => obj_has k fields
  | _ => false
  end.

(** The fields spread by [...v]: nothing for [undefined]. *)
Definition fields_of (v : JVal) : JObject :=
  match v with
  | JObj fields => fields
  | _ => []
  end.

(** ToBoolean *)
Definition truthy (v : JVal) : bool :=
  match v with
  | JUndef | JNull => false
  | JBool b => b
  | JNum n => negb (n =? 0)
  | JStr s => negb (String.eqb s EmptyString)
  | JArr _ | JObj _ => true
  end.

(** [a || b] and friends *)
Definition js_or (a b : JVal) : JVal := if truthy a then a else b.

(** [v === s] for a string literal [s], as in [case 's':]. *)
Definition is_str (v : JVal) (s : string) : bool :=
  match v with
  | JStr t => String.eqb t s
  | _ => false
  end.

(** [v] is [undefined] or [null] *)
Definition nullish (v : JVal) : bool :=
  match v with
  | JUndef | JNull => true
  | _ => false
  end.

(** [v === undefined] *)
Definition is_undefined (v : JVal) : bool :=
  match v with
  | JUndef => true
  | _ => false
  end.

(** [v === s] for one of several string literals (grouped [case] labels). *)
Definition is_any (v : JVal) (labels : list string) : bool :=
  match v with
  | JStr t => existsb (String.eqb t) labels
  | _ => false
  end.

(** The elements of an array.  The schemas type every value the sources
    iterate or join as an array (or [undefined]). *)
Definition elements (v : JVal) : list JVal :=
  match v with
  | JArr xs => xs
  | _ => []
  end.

(** [xs.length] *)
Definition js_length (xs : list JVal) : JVal := JNum (Z.of_nat (length xs)).

(** [v !== false] *)
Definition not_false (v : JVal) : bool :=
  match v with
  | JBool false => false
  | _ => true
  end.

Definition string_of_Z (n : Z) : string := NilZero.string_of_int (Z.to_int n).

(** ToString, as performed by a template literal. *)
Fixpoint to_string (v : JVal) : string :=
  match v with
  | JUndef => "undefined"
  | JNull => "null"
  | JBool true => "true"
  | JBool false => "false"
  | JNum n => string_of_Z n
  | JStr s => s
  | JArr xs =>
      String.concat ","
        (map (fun x => match x with
                       | JUndef | JNull => EmptyString
                       | _ => to_string x
                       end) xs)
  | JObj _ => "[object Object]"
  end.

(** [xs.join(sep)] *)
Definition join (sep : string) (xs : list JVal) : string :=
  String.concat sep
    (map (fun x => match x with
                   | JUndef | JNull => EmptyString
                   | _ => to_string x
                   end) xs).

(** [new Date(v)], kept as an opaque wrapper around its argument. *)
Definition new_Date (v : JVal) : JVal := JObj [("Date", v)].

(** *** JSON.stringify(value, null, 2) *)

Definition hex_digit (n : nat) : string :=
  match n with
  | 0%nat => "0" | 1%nat => "1" | 2%nat => "2" | 3%nat => "3"
  | 4%nat => "4" | 5%nat => "5" | 6%nat => "6" | 7%nat => "7"
  | 8%nat => "8" | 9%nat => "9" | 10%nat => "a" | 11%nat => "b"
  | 12%nat => "c" | 13%nat => "d" | 14%nat => "e" | _ => "f"
  end.

Definition escape_char (c : ascii) : string :=
  let n := nat_of_ascii c in
  if Nat.eqb n 34 then "\" +:+ String c EmptyString
  else if Nat.eqb n 92 then "\\"
  else if Nat.eqb n 8 then "\b"
  else if Nat.eqb n 9 then "\t"
  else if Nat.eqb n 10 then "\n"
  else if Nat.eqb n 12 then "\f"
  else if Nat.eqb n 13 then "\r"
  else if Nat.ltb n 32 then
    "\u00" +:+ hex_digit (Nat.div n 16) +:+ hex_digit (Nat.modulo n 16)
  else String c EmptyString.

Fixpoint escape (s : string) : string :=
  match s with
  | EmptyString => EmptyString
  | String c rest => escape_char c +:+ escape rest
  end.

Definition dquote : string := String (ascii_of_nat 34) EmptyString.
Definition newline : string := String (ascii_of_nat 10) EmptyString.

Definition quote (s : string) : string := dquote +:+ escape s +:+ dquote.

Fixpoint stringify (indent : string) (v : JVal) : string :=
  let inner := indent +:+ "  " in
  match v with
  | JUndef | JNull => "null"
  | JBool true => "true"
  | JBool false => "false"
  | JNum n => string_of_Z n
  | JStr s => quote s
  | JArr [] => "[]"
  | JArr xs =>
      "[" +:+ newline +:+ inner
      +:+ String.concat ("," +:+ newline +:+ inner) (map (stringify inner) xs)
      +:+ newline +:+ indent +:+ "]"
  | JObj fields =>
      let members :=
        (fix go (fs : list (string * JVal)) : list string :=
           match fs with
           | [] => []
           | (k, JUndef) :: rest => go rest
           | (k, x) :: rest => (quote k +:+ ": " +:+ stringify inner x) :: go rest
           end) fields in
      match members with
      | [] => "{}"
      | _ => "{" +:+ newline +:+ inner
             +:+ String.concat ("," +:+ newline +:+ inner) members
             +:+ newline +:+ indent +:+ "}"
      end
  end.

Definition JSON_stringify (v : JVal) : string := stringify EmptyString v.

(** *** Strings and numbers as JavaScript measures them *)

(** [s.length]: the number of UTF-16 code units of the text whose UTF-8
    encoding [s] is.  A byte below 128 or a stray continuation byte is one
    unit; the lead byte of a two- or three-byte sequence is one unit and
    the lead byte of a four-byte sequence two (a surrogate pair), their
    continuation bytes none. *)
Fixpoint utf16_units (pending : nat) (s : string) : nat :=
  match s with
  | EmptyString => O
  | String c rest =>
      let n := nat_of_ascii c in
      match pending with
      | S pending' =>
          if Nat.leb 128 n && Nat.ltb n 192 then utf16_units pending' rest
          else if Nat.ltb n 192 then S (utf16_units 0 rest)
          else if Nat.ltb n 224 then S (utf16_units 1 rest)
          else if Nat.ltb n 240 then S (utf16_units 2 rest)
          else S (S (utf16_units 3 rest))
      | O =>
          if Nat.ltb n 192 then S (utf16_units 0 rest)
          else if Nat.ltb n 224 then S (utf16_units 1 rest)
          else if Nat.ltb n 240 then S (utf16_units 2 rest)
          else S (S (utf16_units 3 rest))
      end
  end.

Definition string_length (s : string) : nat := utf16_units 0 s.

(** A value of type [number] that is compared with a length: a finite
    number, an infinity or [NaN]. *)
Inductive JsNumber :=
| Finite (q : Q)
| PlusInfinity
| MinusInfinity
| NaN.

(** [n >= m], for the length [n] of an array *)
Definition length_ge (n : nat) (m : JsNumber) : bool :=
  match m with
  | Finite q => Qle_bool q (inject_Z (Z.of_nat n))
  | PlusInfinity => false
  | MinusInfinity => true
  | NaN => false
  end.

End Js.

Export Js.

Notation "v '!.' k" := (prop v k) (at level 2, left associativity, format "v !. k").
Infix "|||" := js_or (at level 50, left associativity).

(** ** Thrown values *)

Module Errors.

(** The JSON-RPC error codes of the MCP SDK used by the server. *)
Inductive ErrorCode := MethodNotFound | InvalidParams | InternalError.

Definition code_number (c : ErrorCode) : Z :=
  match c with
  | MethodNotFound => -32601
  | InvalidParams => -32602
  | InternalError => -32603
  end.

(** A thrown value, as far as the sources inspect one: whether it is an
    [McpError] (and with which code), whether it is an [Error], its
    [statusCode], [code] and [message] properties and its [toString()]. *)
Record JsError := mkError {
  err_mcp : option ErrorCode;
  err_isError : bool;
  err_statusCode : JVal;
  err_code : JVal;
  err_message : JVal;
  err_toString : string
}.

(** [new Error(msg)] *)
Definition new_Error (msg : string) : JsError :=
  {| err_mcp := None;
     err_isError := true;
     err_statusCode := JUndef;
     err_code := JUndef;
     err_message := JStr msg;
     err_toString := if String.eqb msg EmptyString then "Error" else "Error: " +:+ msg |}.

(** The [TypeError] of a property read on [undefined] or [null]. *)
Definition new_TypeError (msg : string) : JsError :=
  {| err_mcp := None;
     err_isError := true;
     err_statusCode := JUndef;
     err_code := JUndef;
     err_message := JStr msg;
     err_toString := "TypeError: " +:+ msg |}.

(** [new McpError(code, msg)]; the SDK's constructor prefixes the message. *)
Definition new_McpError (c : ErrorCode) (msg : string) : JsError :=
  let text := "MCP error " +:+ string_of_Z (code_number c) +:+ ": " +:+ msg in
  {| err_mcp := Some c;
     err_isError := true;
     err_statusCode := JUndef;
     err_code := JNum (code_number c);
     err_message := JStr text;
     err_toString := "McpError: " +:+ text |}.

(** [error instanceof Error ? error.message : 'Unknown error'] *)
Definition message_or_unknown (e : JsError) : string :=
  if err_isError e then to_string (err_message e) else "Unknown error".

End Errors.

Export Errors.

(** ** Asynchronous programs over the OCI SDK *)

Module Async.

(** A page of a list operation: [response.items] and
    [response.opcNextPage]. *)
Record Page := {
  items : list JVal;
  opcNextPage : JVal
}.

(** What the sources read from the response of an SDK method:
    - [SPage]: [response.items], an array, and [response.opcNextPage];
    - [SResource]: the resource object carried by the response
      ([response.instance], [response.dbSystem], ...), or the response
      object itself where its own properties are read ([getObject]);
    - [SObjects]: [response.listObjects.objects], possibly [undefined];
    - [SValue]: [response.value], a string ([getNamespace]);
    - [SVoid]: nothing, the response is dropped. *)
Inductive Shape := SPage | SResource | SObjects | SValue | SVoid.

Definition Resp (sh : Shape) : Type :=
  match sh with
  | SPage => Page
  | SResource => JObject
  | SObjects => option (list JVal)
  | SValue => string
  | SVoid => unit
  end.

(** A program performs SDK calls and clock reads, and ends by returning or
    throwing.  The continuation of a call receives its settlement: the
    rejection reason or the response. *)
Inductive Prog (A : Type) : Type :=
| Ret (a : A)
| Throw (e : JsError)
| Call (sh : Shape) (client method : string) (request : JVal)
       (k : JsError + Resp sh -> Prog A)
| DateNow (k : Z -> Prog A).

Arguments Ret {A} a.
Arguments Throw {A} e.
Arguments Call {A} sh client method request k.
Arguments DateNow {A} k.

Fixpoint bind {A B} (p : Prog A) (f : A -> Prog B) : Prog B :=
  match p with
  | Ret a => f a
  | Throw e => Throw e
  | Call sh c m req k => Call sh c m req (fun r => bind (k r) f)
  | DateNow k => DateNow (fun t => bind (k t) f)
  end.

#[global] Instance Prog_ret : MRet Prog := fun A a => Ret a.
#[global] Instance Prog_bind : MBind Prog := fun A B f p => bind p f.

(** [await client.method(request)]: a rejection is rethrown. *)
Definition await (sh : Shape) (client method : string) (request : JVal)
  : Prog (Resp sh) :=
  Call sh client method request
    (fun r => match r with
              | inl e => Throw e
              | inr x => Ret x
              end).

(** [try { p } catch (error) { h error }] *)
Fixpoint try_catch {A} (p : Prog A) (h : JsError -> Prog A) : Prog A :=
  match p with
  | Ret a => Ret a
  | Throw e => h e
  | Call sh c m req k => Call sh c m req (fun r => try_catch (k r) h)
  | DateNow k => DateNow (fun t => try_catch (k t) h)
  end.

(** A property read [v.k] at the head of [p]: a [TypeError] when [v] is
    [undefined] or [null]; [p] then reads the properties of [v] with
    [prop]. *)
Definition reading {A} (v : JVal) (k : string) (p : Prog A) : Prog A :=
  if nullish v
  then Throw (new_TypeError ("Cannot read properties of " +:+ to_string v
                             +:+ " (reading '" +:+ k +:+ "')"))
  else p.

(** [Date.now()] *)
Definition date_now : Prog Z := DateNow (fun t => Ret t).

(** [v || e], where evaluating [e] reads the clock or calls the backend *)
Definition or_else (v : JVal) (e : Prog JVal) : Prog JVal :=
  if truthy v then Ret v else e.

(** [for (const x of xs) { await body(x) }] *)
Fixpoint for_of {X} (xs : list X) (body : X -> Prog unit) : Prog unit :=
  match xs with
  | [] => Ret tt
  | x :: rest => bind (body x) (fun _ => for_of rest body)
  end.

(** The SDK clients and the clock: every call settles once, with a
    rejection or a response of the method's shape. *)
Record World (W : Type) := {
  respond : forall sh : Shape, string -> string -> JVal -> W -> (JsError + Resp sh) * W;
  now : W -> Z * W
}.

Arguments respond {W} w sh client method request st.
Arguments now {W} w st.

(** One backend call of a run, with its settlement. *)
Record Entry := {
  e_shape : Shape;
  e_client : string;
  e_method : string;
  e_request : JVal;
  e_settled : JsError + Resp e_shape
}.

Definition entry_of {sh} (c m : string) (req : JVal) (r : JsError + Resp sh) : Entry :=
  {| e_shape := sh;
     e_client := c;
     e_method := m;
     e_request := req;
     e_settled := r |}.

Definition e_error (e : Entry) : option JsError :=
  match e_settled e with
  | inl x => Some x
  | inr _ => None
  end.

Definition resolved (e : Entry) : Prop := e_error e = None.

(** The page a list call resolved with. *)
Definition e_page (e : Entry) : option Page :=
  match e with
  | {| e_shape := SPage; e_settled := inr p |} => Some p
  | _ => None
  end.

(** Running a program: the outcome, the final world and the backend calls
    performed, oldest first. *)
Fixpoint run {W A} (w : World W) (p : Prog A) (st : W) (tr : list Entry)
  : (JsError + A) * W * list Entry :=
  match p with
  | Ret a => (inr a, st, tr)
  | Throw e => (inl e, st, tr)
  | Call sh c m req k =>
      let '(r, st') := respond w sh c m req st in
      run w (k r) st' (tr ++ [entry_of c m req r])
  | DateNow k =>
      let '(t, st') := now w st in
      run w (k t) st' tr
  end.

End Async.

Export Async.

(** ** zod schemas *)

Module Zod.

Inductive Schema : Type :=
| z_string (min : nat) (refine : option (string -> bool))
| z_number (min max : option Z)
| z_boolean
| z_literal (s : string)
| z_enum (options : list string)
| z_array (elem : Schema) (min : nat)
| z_record (value : Schema)
| z_optional (inner : Schema)
| z_object (shape : list (string * Schema))
| z_union (options : list Schema).

(** [z.string()], [z.string().min(n)], [z.number()], [z.array(s)] *)
Definition zstring : Schema := z_string 0 None.
Definition zstring_min (n : nat) : Schema := z_string n None.
Definition znumber : Schema := z_number None None.
Definition zarray (s : Schema) : Schema := z_array s 0.

Definition string_in (s : string) (l : list string) : bool :=
  existsb (String.eqb s) l.

Definition Z_in (n : Z) (lo hi : option Z) : bool :=
  match lo with Some l => l <=? n | None => true end
  && match hi with Some h => n <=? h | None => true end.

(** [schema.parse(v)]: [Some] of the parsed value, [None] where zod throws
    a [ZodError]. *)
Fixpoint parse (s : Schema) (v : JVal) {struct s} : option JVal :=
  match s with
  | z_string min refine =>
      match v with
      | JStr t =>
          if Nat.leb min (string_length t)
             && match refine with Some ok => ok t | None => true end
          then Some v else None
      | _ => None
      end
  | z_number lo hi =>
      match v with
      | JNum n => if Z_in n lo hi then Some v else None
      | _ => None
      end
  | z_boolean =>
      match v with
      | JBool _ => Some v
      | _ => None
      end
  | z_literal l => if is_str v l then Some v else None
  | z_enum options =>
      match v with
      | JStr t => if string_in t options then Some v else None
      | _ => None
      end
  | z_array elem min =>
      match v with
      | JArr xs =>
          match (fix each (xs : list JVal) : option (list JVal) :=
                   match xs with
                   | [] => Some []
                   | x :: rest =>
                       match parse elem x, each rest with
                       | Some x', Some rest' => Some (x' :: rest')
                       | _, _ => None
                       end
                   end) xs with
          | Some xs' => if Nat.leb min (length xs') then Some (JArr xs') else None
          | None => None
          end
      | _ => None
      end
  | z_record value =>
      match v with
      | JObj fields =>
          match (fix each (fs : JObject) : option JObject :=
                   match fs with
                   | [] => Some []
                   | (k, x) :: rest =>
                       match parse value x, each rest with
                       | Some x', Some rest' => Some ((k, x') :: rest')
                       | _, _ => None
                       end
                   end) fields with
          | Some fields' => Some (JObj fields')
          | None => None
          end
      | _ => None
      end
  | z_optional inner =>
      match v with
      | JUndef => Some JUndef
      | _ => parse inner v
      end
  | z_object shape =>
      match v with
      | JObj fields =>
          match (fix each (sh : list (string * Schema)) : option JObject :=
                   match sh with
                   | [] => Some []
                   | (k, sk) :: rest =>
                       match parse sk (obj_get k fields), each rest with
                       | Some x, Some rest' =>
                           Some (match x with
                                 | JUndef => if obj_has k fields then (k, x) :: rest' else rest'
                                 | _ => (k, x) :: rest'
                                 end)
                       | _, _ => None
                       end
                   end) shape with
          | Some out => Some (JObj out)
          | None => None
          end
      | _ => None
      end
  | z_union options =>
      (fix first (os : list Schema) : option JVal :=
         match os with
         | [] => None
         | o :: rest =>
             match parse o v with
             | Some x => Some x
             | None => first rest
             end
         end) options
  end.

(** The value passes the schema. *)
Definition accepts (s : Schema) (v : JVal) : Prop := is_Some (parse s v).

(** The [ZodError] thrown by a failed [parse]; the text of its message is
    zod's rendering of the issue list, which the sources only forward. *)
Definition ZodError : JsError := new_Error "ZodError".

(** [schema.parse(v)] inside an [async] function *)
Definition parse_or_throw (s : Schema) (v : JVal) : Prog JVal :=
  match parse s v with
  | Some x => Ret x
  | None => Throw ZodError
  end.

End Zod.

Export Zod.

(** ** The OCI client manager ([utils/oci-client.ts]) *)

Module OciClient.

(** [OCIAuthConfigSchema] ([types/oci.ts]) *)
Definition OCIAuthConfigSchema : Schema :=
  z_object
    [("tenancyId", zstring_min 1);
     ("userId", zstring_min 1);
     ("keyFingerprint", zstring_min 1);
     ("privateKeyPath", zstring_min 1);
     ("region", zstring_min 1);
     ("compartmentId", z_optional zstring)].

(** [process.env[name]] *)
Definition env_get (env : gmap string string) (name : string) : JVal :=
  match env !! name with
  | Some v => JStr v
  | None => JUndef
  end.

(** The arguments [oci.common.SimpleAuthenticationDetailsProvider] is
    constructed with (the passphrase is [null]); the region is the
    identifier handed to [oci.common.Region.fromRegionId]. *)
Record Provider := {
  provider_tenancyId : JVal;
  provider_userId : JVal;
  provider_keyFingerprint : JVal;
  provider_privateKey : string;
  provider_region : JVal
}.

(** The manager: its validated configuration and its provider, which the
    ten service clients are built on. *)
Record OCIClientManager := {
  authConfig : JVal;
  provider : Provider
}.

Definition privateKey (c : OCIClientManager) : string :=
  provider_privateKey (provider c).

(** What the constructor uses of the process and of the OCI SDK:
    [readFileSync(path, 'utf8')], with the error it throws or the content of
    the file; the construction of the provider, and of a service client of
    a given class on a provider, each with the error it throws, if any. *)
Record Host := {
  readFileSync : string -> JsError + string;
  new_provider : Provider -> option JsError;
  new_client : string -> Provider -> option JsError
}.

(** The client classes [initializeClients] instantiates, in its order. *)
Definition client_classes : list string :=
  ["oci.core.ComputeClient"; "oci.core.VirtualNetworkClient";
   "oci.core.BlockstorageClient"; "oci.identity.IdentityClient";
   "oci.objectstorage.ObjectStorageClient"; "oci.database.DatabaseClient";
   "oci.monitoring.MonitoringClient"; "oci.logging.LoggingManagementClient";
   "oci.loadbalancer.LoadBalancerClient";
   "oci.networkloadbalancer.NetworkLoadBalancerClient"].

(** [initializeAuthConfig(config)] *)
Definition initializeAuthConfig (env : gmap string string) (host : Host)
    (config : JVal)
  : JsError + OCIClientManager :=
  let envConfig : JObject :=
    [("tenancyId", env_get env "OCI_TENANCY_ID");
     ("userId", env_get env "OCI_USER_ID");
     ("keyFingerprint", env_get env "OCI_KEY_FINGERPRINT");
     ("privateKeyPath", env_get env "OCI_PRIVATE_KEY_PATH");
     ("region", env_get env "OCI_REGION");
     ("compartmentId", env_get env "OCI_COMPARTMENT_ID")] in
  let mergedConfig := obj_spread envConfig (fields_of config) in
  let filteredConfig :=
    List.filter (fun kv => negb (is_undefined kv.2)) mergedConfig in
  match parse OCIAuthConfigSchema (JObj filteredConfig) with
  | None =>
      inl (new_Error ("Invalid OCI configuration: " +:+ message_or_unknown ZodError))
  | Some cfg =>
      let failed error :=
        new_Error ("Failed to create OCI authentication provider: "
                   +:+ message_or_unknown error) in
      match readFileSync host (to_string cfg!."privateKeyPath") with
      | inl error => inl (failed error)
      | inr key =>
          let p := {| provider_tenancyId := cfg!."tenancyId";
                      provider_userId := cfg!."userId";
                      provider_keyFingerprint := cfg!."keyFingerprint";
                      provider_privateKey := key;
                      provider_region := cfg!."region" |} in
          match new_provider host p with
          | Some error => inl (failed error)
          | None => inr {| authConfig := cfg; provider := p |}
          end
      end
  end.

(** [initializeClients()]: the clients are constructed one after the other;
    the first constructor that throws ends it. *)
Fixpoint construct_clients (host : Host) (p : Provider) (classes : list string)
  : option JsError :=
  match classes with
  | [] => None
  | class :: rest =>
      match new_client host class p with
      | Some error => Some error
      | None => construct_clients host p rest
      end
  end.

Definition initializeClients (host : Host) (c : OCIClientManager)
  : JsError + OCIClientManager :=
  match construct_clients host (provider c) client_classes with
  | Some error =>
      inl (new_Error ("Failed to initialize OCI clients: "
                      +:+ message_or_unknown error))
  | None => inr c
  end.

(** [new OCIClientManager(config)] *)
Definition new_OCIClientManager (env : gmap string string) (host : Host)
    (config : JVal)
  : JsError + OCIClientManager :=
  match initializeAuthConfig env host config with
  | inl e => inl e
  | inr c => initializeClients host c
  end.

(** [getOCIClient(config)] over the module-level singleton
    [ociClientInstance]: the outcome and the new value of the singleton. *)
Definition getOCIClient (ociClientInstance : option OCIClientManager)
    (env : gmap string string) (host : Host) (config : JVal)
  : (JsError + OCIClientManager) * option OCIClientManager :=
  match ociClientInstance with
  | Some c => (inr c, Some c)
  | None =>
      match new_OCIClientManager env host config with
      | inl e => (inl e, None)
      | inr c => (inr c, Some c)
      end
  end.

Definition getDefaultCompartmentId (c : OCIClientManager) : JVal :=
  (authConfig c)!."compartmentId" ||| (authConfig c)!."tenancyId".

(** [handleOCIError(error)] *)
Definition handleOCIError (error : JsError) : string :=
  if truthy (err_statusCode error) then
    "OCI API Error (" +:+ to_string (err_statusCode error) +:+ "): "
    +:+ to_string (err_message error ||| JStr "Unknown error")
  else if truthy (err_code error) then
    "OCI Error (" +:+ to_string (err_code error) +:+ "): "
    +:+ to_string (err_message error ||| JStr "Unknown error")
  else
    "OCI Error: " +:+ to_string (err_message error ||| JStr (err_toString error)).

(** [getAllPages(apiCall, request, maxItems)].  The [do ... while] loop is
    unrolled [fuel] times; [None] is returned when the fuel runs out before
    the loop ends.  [maxItems] is whatever number the caller passes. *)
Fixpoint getAllPages_loop (fuel : nat) (apiCall : JVal -> Prog Page)
    (request : JVal) (maxItems : JsNumber) (allItems : list JVal) (nextPage : JVal)
  : Prog (option (list JVal)) :=
  match fuel with
  | O => Ret None
  | S fuel' =>
      let requestWithPage :=
        if truthy nextPage
        then JObj (obj_spread (fields_of request) [("page", nextPage)])
        else request in
      response ← apiCall requestWithPage;
      let allItems := allItems ++ items response in
      let nextPage := opcNextPage response in
      if length_ge (length allItems) maxItems then Ret (Some allItems)
      else if truthy nextPage
           then getAllPages_loop fuel' apiCall request maxItems allItems nextPage
           else Ret (Some allItems)
  end.

Definition getAllPages (fuel : nat) (apiCall : JVal -> Prog Page)
    (request : JVal) (maxItems : JsNumber) : Prog (option (list JVal)) :=
  getAllPages_loop fuel apiCall request maxItems [] JUndef.

Definition default_maxItems : JsNumber := Finite (inject_Z 1000).

(** [getRegion()], [getTenancyId()] *)
Definition getRegion (c : OCIClientManager) : JVal := (authConfig c)!."region".

Definition getTenancyId (c : OCIClientManager) : JVal := (authConfig c)!."tenancyId".

(** [testConnection()]: one [listCompartments] call on the tenancy, whose
    response is dropped.  Logging to the console is left out. *)
Definition testConnection (c : OCIClientManager) : Prog bool :=
  try_catch
    (let request := JObj [("compartmentId", getTenancyId c)] in
     _ ← await SVoid "identityClient" "listCompartments" request;
     mret true)
    (fun error => mret false).

(** [resetOCIClient()]: the new value of the singleton. *)
Definition resetOCIClient (ociClientInstance : option OCIClientManager)
  : option OCIClientManager := None.

End OciClient.

Export OciClient.

(** ** The database and analytics dispatcher ([tools/database-analytics.ts]) *)

Module DatabaseAnalytics.

Definition DatabaseAnalyticsListInputSchema : Schema :=
  z_object
    [("action", z_literal "list");
     ("resourceType",
      z_enum ["db-systems"; "databases"; "autonomous-databases"; "db-homes";
              "db-nodes"; "backups"; "data-safe-targets"; "analytics-instances"]);
     ("compartmentId", z_optional zstring);
     ("dbSystemId", z_optional zstring);
     ("dbHomeId", z_optional zstring);
     ("limit", z_optional (z_number (Some 1) (Some 100)));
     ("displayName", z_optional zstring);
     ("lifecycleState", z_optional zstring)].

Definition DatabaseAnalyticsGetInputSchema : Schema :=
  z_object
    [("action", z_literal "get");
     ("resourceType",
      z_enum ["db-system"; "database"; "autonomous-database"; "db-home";
              "backup"; "data-safe-target"; "analytics-instance"]);
     ("resourceId", zstring_min 1)].

Definition DatabaseAnalyticsCreateInputSchema : Schema :=
  z_object
    [("action", z_literal "create");
     ("resourceType", z_enum ["autonomous-database"; "database"; "backup"]);
     ("data",
      z_union
        [z_object
           [("compartmentId", zstring_min 1);
            ("dbName", zstring_min 1);
            ("cpuCoreCount", z_number (Some 1) None);
            ("dataStorageSizeInTBs", z_number (Some 1) None);
            ("adminPassword", zstring_min 12);
            ("displayName", z_optional zstring);
            ("dbVersion", z_optional zstring);
            ("dbWorkload", z_optional (z_enum ["OLTP"; "DW"]));
            ("isAutoScalingEnabled", z_optional z_boolean);
            ("isFreeTier", z_optional z_boolean);
            ("licenseModel",
             z_optional (z_enum ["LICENSE_INCLUDED"; "BRING_YOUR_OWN_LICENSE"]));
            ("subnetId", z_optional zstring);
            ("nsgIds", z_optional (zarray zstring))];
         z_object
           [("dbSystemId", zstring_min 1);
            ("dbName", zstring_min 1);
            ("adminPassword", zstring_min 12);
            ("dbVersion", z_optional zstring);
            ("characterSet", z_optional zstring);
            ("ncharacterSet", z_optional zstring);
            ("pdbName", z_optional zstring)];
         z_object
           [("databaseId", zstring_min 1);
            ("displayName", zstring_min 1);
            ("type", z_optional (z_enum ["INCREMENTAL"; "FULL"]))]])].

Definition DatabaseAnalyticsManageInputSchema : Schema :=
  z_object
    [("action",
      z_enum ["start-database"; "stop-database"; "restart-database";
              "start-autonomous-db"; "stop-autonomous-db"; "scale-autonomous-db";
              "restore-database"; "clone-database"; "delete-backup"]);
     ("resourceType", z_enum ["database"; "autonomous-database"; "backup"]);
     ("resourceId", zstring_min 1);
     ("cpuCoreCount", z_optional znumber);
     ("dataStorageSizeInTBs", z_optional znumber);
     ("timestamp", z_optional zstring);
     ("backupId", z_optional zstring);
     ("cloneName", z_optional zstring);
     ("targetCompartmentId", z_optional zstring)].

Definition DatabaseAnalyticsToolInputSchema : Schema :=
  z_union
    [DatabaseAnalyticsListInputSchema;
     DatabaseAnalyticsGetInputSchema;
     DatabaseAnalyticsCreateInputSchema;
     DatabaseAnalyticsManageInputSchema].

Section Manager.

Variable ociClient : OCIClientManager.

Definition listResources (input : JVal) : Prog JVal :=
  let compartmentId := input!."compartmentId" ||| getDefaultCompartmentId ociClient in
  let resourceType := input!."resourceType" in
  if is_str resourceType "db-systems" then
    let dbSystemsRequest :=
      JObj [("compartmentId", compartmentId);
            ("limit", input!."limit" ||| JNum 50);
            ("displayName", input!."displayName");
            ("lifecycleState", input!."lifecycleState")] in
    dbSystemsResponse ← await SPage "databaseClient" "listDbSystems" dbSystemsRequest;
    mret (JObj [("success", JBool true);
                ("data", JArr (items dbSystemsResponse));
                ("count", js_length (items dbSystemsResponse));
                ("message",
                 JStr ("Found " +:+ to_string (js_length (items dbSystemsResponse))
                       +:+ " DB systems"))])
  else if is_str resourceType "autonomous-databases" then
    let adbRequest :=
      JObj [("compartmentId", compartmentId);
            ("limit", input!."limit" ||| JNum 50);
            ("displayName", input!."displayName");
            ("lifecycleState", input!."lifecycleState")] in
    adbResponse ← await SPage "databaseClient" "listAutonomousDatabases" adbRequest;
    mret (JObj [("success", JBool true);
                ("data", JArr (items adbResponse));
                ("count", js_length (items adbResponse));
                ("message",
                 JStr ("Found " +:+ to_string (js_length (items adbResponse))
                       +:+ " autonomous databases"))])
  else if is_str resourceType "databases" then
    if negb (truthy input!."dbSystemId") && negb (truthy input!."dbHomeId") then
      Throw (new_Error "Either dbSystemId or dbHomeId is required for listing databases")
    else
      let databasesRequest :=
        if truthy input!."dbSystemId"
        then JObj [("compartmentId", compartmentId);
                   ("dbSystemId", input!."dbSystemId");
                   ("limit", input!."limit" ||| JNum 50)]
        else JObj [("compartmentId", compartmentId);
                   ("dbHomeId", input!."dbHomeId");
                   ("limit", input!."limit" ||| JNum 50)] in
      databasesResponse ← await SPage "databaseClient" "listDatabases" databasesRequest;
      mret (JObj [("success", JBool true);
                  ("data", JArr (items databasesResponse));
                  ("count", js_length (items databasesResponse));
                  ("message",
                   JStr ("Found " +:+ to_string (js_length (items databasesResponse))
                         +:+ " databases"))])
  else if is_str resourceType "db-homes" then
    if negb (truthy input!."dbSystemId") then
      Throw (new_Error "dbSystemId is required for listing DB homes")
    else
      let dbHomesRequest :=
        JObj [("compartmentId", compartmentId);
              ("dbSystemId", input!."dbSystemId");
              ("limit", input!."limit" ||| JNum 50);
              ("displayName", input!."displayName");
              ("lifecycleState", input!."lifecycleState")] in
      dbHomesResponse ← await SPage "databaseClient" "listDbHomes" dbHomesRequest;
      mret (JObj [("success", JBool true);
                  ("data", JArr (items dbHomesResponse));
                  ("count", js_length (items dbHomesResponse));
                  ("message",
                   JStr ("Found " +:+ to_string (js_length (items dbHomesResponse))
                         +:+ " DB homes"))])
  else if is_str resourceType "db-nodes" then
    if negb (truthy input!."dbSystemId") then
      Throw (new_Error "dbSystemId is required for listing DB nodes")
    else
      let dbNodesRequest :=
        JObj [("compartmentId", compartmentId);
              ("dbSystemId", input!."dbSystemId");
              ("limit", input!."limit" ||| JNum 50);
              ("lifecycleState", input!."lifecycleState")] in
      dbNodesResponse ← await SPage "databaseClient" "listDbNodes" dbNodesRequest;
      mret (JObj [("success", JBool true);
                  ("data", JArr (items dbNodesResponse));
                  ("count", js_length (items dbNodesResponse));
                  ("message",
                   JStr ("Found " +:+ to_string (js_length (items dbNodesResponse))
                         +:+ " DB nodes"))])
  else if is_str resourceType "backups" then
    let backupsRequest :=
      JObj [("compartmentId", compartmentId);
            ("limit", input!."limit" ||| JNum 50);
            ("lifecycleState", input!."lifecycleState")] in
    backupsResponse ← await SPage "databaseClient" "listBackups" backupsRequest;
    mret (JObj [("success", JBool true);
                ("data", JArr (items backupsResponse));
                ("count", js_length (items backupsResponse));
                ("message",
                 JStr ("Found " +:+ to_string (js_length (items backupsResponse))
                       +:+ " database backups"))])
  else
    Throw (new_Error ("Unsupported resource type: " +:+ to_string resourceType)).

Definition getResource (input : JVal) : Prog JVal :=
  let resourceType := input!."resourceType" in
  let resourceId := input!."resourceId" in
  if is_str resourceType "db-system" then
    dbSystemResponse ←
      await SResource "databaseClient" "getDbSystem" (JObj [("dbSystemId", resourceId)]);
    mret (JObj [("success", JBool true);
                ("data", JObj dbSystemResponse);
                ("message",
                 JStr ("Retrieved DB system details for " +:+ to_string resourceId))])
  else if is_str resourceType "autonomous-database" then
    adbResponse ←
      await SResource "databaseClient" "getAutonomousDatabase"
        (JObj [("autonomousDatabaseId", resourceId)]);
    mret (JObj [("success", JBool true);
                ("data", JObj adbResponse);
                ("message",
                 JStr ("Retrieved autonomous database details for "
                       +:+ to_string resourceId))])
  else if is_str resourceType "database" then
    databaseResponse ←
      await SResource "databaseClient" "getDatabase" (JObj [("databaseId", resourceId)]);
    mret (JObj [("success", JBool true);
                ("data", JObj databaseResponse);
                ("message",
                 JStr ("Retrieved database details for " +:+ to_string resourceId))])
  else if is_str resourceType "db-home" then
    dbHomeResponse ←
      await SResource "databaseClient" "getDbHome" (JObj [("dbHomeId", resourceId)]);
    mret (JObj [("success", JBool true);
                ("data", JObj dbHomeResponse);
                ("message",
                 JStr ("Retrieved DB home details for " +:+ to_string resourceId))])
  else if is_str resourceType "backup" then
    backupResponse ←
      await SResource "databaseClient" "getBackup" (JObj [("backupId", resourceId)]);
    mret (JObj [("success", JBool true);
                ("data", JObj backupResponse);
                ("message",
                 JStr ("Retrieved backup details for " +:+ to_string resourceId))])
  else
    Throw (new_Error ("Unsupported resource type: " +:+ to_string resourceType)).

Definition createResource (input : JVal) : Prog JVal :=
  let resourceType := input!."resourceType" in
  if is_str resourceType "autonomous-database" then
    let adbData := input!."data" in
    reading adbData "compartmentId" (
    let createAdbRequest :=
      JObj [("createAutonomousDatabaseDetails",
             JObj [("compartmentId", adbData!."compartmentId");
                   ("dbName", adbData!."dbName");
                   ("cpuCoreCount", adbData!."cpuCoreCount");
                   ("dataStorageSizeInTBs", adbData!."dataStorageSizeInTBs");
                   ("adminPassword", adbData!."adminPassword");
                   ("displayName", adbData!."displayName" ||| adbData!."dbName");
                   ("dbVersion", adbData!."dbVersion");
                   ("dbWorkload", adbData!."dbWorkload" ||| JStr "OLTP");
                   ("isAutoScalingEnabled", adbData!."isAutoScalingEnabled" ||| JBool false);
                   ("isFreeTier", adbData!."isFreeTier" ||| JBool false);
                   ("licenseModel", adbData!."licenseModel" ||| JStr "LICENSE_INCLUDED");
                   ("subnetId", adbData!."subnetId");
                   ("nsgIds", adbData!."nsgIds")])] in
    adbResult ← await SResource "databaseClient" "createAutonomousDatabase" createAdbRequest;
    mret (JObj [("success", JBool true);
                ("data", JObj adbResult);
                ("message",
                 JStr ("Autonomous database creation initiated: "
                       +:+ to_string (obj_get "displayName" adbResult)));
                ("operationId", obj_get "id" adbResult)]))
  else if is_str resourceType "database" then
    let dbData := input!."data" in
    reading dbData "dbName" (
    let createDbRequest :=
      JObj [("createDatabaseDetails",
             JObj [("dbName", dbData!."dbName");
                   ("adminPassword", dbData!."adminPassword");
                   ("dbVersion", dbData!."dbVersion");
                   ("characterSet", dbData!."characterSet" ||| JStr "AL32UTF8");
                   ("ncharacterSet", dbData!."ncharacterSet" ||| JStr "AL16UTF16");
                   ("pdbName", dbData!."pdbName")]);
            ("dbHomeId", dbData!."dbSystemId")] in
    dbResult ← await SResource "databaseClient" "createDatabase" createDbRequest;
    mret (JObj [("success", JBool true);
                ("data", JObj dbResult);
                ("message",
                 JStr ("Database creation initiated: "
                       +:+ to_string (obj_get "dbName" dbResult)));
                ("operationId", obj_get "id" dbResult)]))
  else if is_str resourceType "backup" then
    let backupData := input!."data" in
    reading backupData "databaseId" (
    let createBackupRequest :=
      JObj [("createBackupDetails",
             JObj [("databaseId", backupData!."databaseId");
                   ("displayName", backupData!."displayName");
                   ("type", backupData!."type" ||| JStr "INCREMENTAL")])] in
    backupResult ← await SResource "databaseClient" "createBackup" createBackupRequest;
    mret (JObj [("success", JBool true);
                ("data", JObj backupResult);
                ("message",
                 JStr ("Database backup creation initiated: "
                       +:+ to_string (obj_get "displayName" backupResult)));
                ("operationId", obj_get "id" backupResult)]))
  else
    Throw (new_Error ("Unsupported resource type: " +:+ to_string resourceType)).

Definition manageResource (input : JVal) : Prog JVal :=
  let action := input!."action" in
  let resourceId := input!."resourceId" in
  if is_str action "start-autonomous-db" then
    let startAdbRequest := JObj [("autonomousDatabaseId", resourceId)] in
    startAdbResult ←
      await SResource "databaseClient" "startAutonomousDatabase" startAdbRequest;
    mret (JObj [("success", JBool true);
                ("data", JObj startAdbResult);
                ("message",
                 JStr ("Autonomous database start initiated: " +:+ to_string resourceId));
                ("operationId", resourceId)])
  else if is_str action "stop-autonomous-db" then
    let stopAdbRequest := JObj [("autonomousDatabaseId", resourceId)] in
    stopAdbResult ←
      await SResource "databaseClient" "stopAutonomousDatabase" stopAdbRequest;
    mret (JObj [("success", JBool true);
                ("data", JObj stopAdbResult);
                ("message",
                 JStr ("Autonomous database stop initiated: " +:+ to_string resourceId));
                ("operationId", resourceId)])
  else if is_str action "scale-autonomous-db" then
    if negb (truthy input!."cpuCoreCount") && negb (truthy input!."dataStorageSizeInTBs") then
      Throw (new_Error "Either cpuCoreCount or dataStorageSizeInTBs is required for scaling")
    else
      let scaleAdbRequest :=
        JObj [("autonomousDatabaseId", resourceId);
              ("updateAutonomousDatabaseDetails",
               JObj [("cpuCoreCount", input!."cpuCoreCount");
                     ("dataStorageSizeInTBs", input!."dataStorageSizeInTBs")])] in
      scaleAdbResult ←
        await SResource "databaseClient" "updateAutonomousDatabase" scaleAdbRequest;
      mret (JObj [("success", JBool true);
                  ("data", JObj scaleAdbResult);
                  ("message",
                   JStr ("Autonomous database scaling initiated: "
                         +:+ to_string resourceId));
                  ("operationId", resourceId)])
  else if is_str action "clone-database" then
    if is_str input!."resourceType" "autonomous-database" then
      displayName ←
        or_else input!."cloneName"
          (t ← date_now; mret (JStr ("clone-" +:+ string_of_Z t)));
      let cloneAdbRequest :=
        JObj [("createAutonomousDatabaseCloneDetails",
               JObj [("sourceId", resourceId);
                     ("cloneType", JStr "FULL");
                     ("displayName", displayName);
                     ("compartmentId",
                      input!."targetCompartmentId"
                      ||| getDefaultCompartmentId ociClient)])] in
      cloneAdbResult ←
        await SResource "databaseClient" "createAutonomousDatabaseClone" cloneAdbRequest;
      mret (JObj [("success", JBool true);
                  ("data", JObj cloneAdbResult);
                  ("message",
                   JStr ("Autonomous database clone initiated: "
                         +:+ to_string (obj_get "displayName" cloneAdbResult)));
                  ("operationId", obj_get "id" cloneAdbResult)])
    else
      Throw (new_Error "Clone operation only supported for autonomous databases")
  else if is_str action "delete-backup" then
    let deleteBackupRequest := JObj [("backupId", resourceId)] in
    _ ← await SVoid "databaseClient" "deleteBackup" deleteBackupRequest;
    mret (JObj [("success", JBool true);
                ("message", JStr ("Backup deletion initiated: " +:+ to_string resourceId));
                ("operationId", resourceId)])
  else
    Throw (new_Error ("Unsupported management action: " +:+ to_string action)).

Definition execute (input : JVal) : Prog JVal :=
  try_catch
    (reading input "action"
       (let action := input!."action" in
        if is_str action "list" then listResources input
        else if is_str action "get" then getResource input
        else if is_str action "create" then createResource input
        else if is_any action
                  ["start-database"; "stop-database"; "restart-database";
                   "start-autonomous-db"; "stop-autonomous-db"; "scale-autonomous-db";
                   "restore-database"; "clone-database"; "delete-backup"]
             then manageResource input
        else Throw (new_Error ("Unsupported action: " +:+ to_string action))))
    (fun error =>
       let errorMessage := handleOCIError error in
       mret (JObj [("success", JBool false); ("message", JStr errorMessage)])).

End Manager.

End DatabaseAnalytics.

(** ** The compute dispatcher ([tools/compute.ts]) *)

Module Compute.

(** [CreateInstanceRequestSchema] ([types/oci.ts]) *)
Definition CreateInstanceRequestSchema : Schema :=
  z_object
    [("availabilityDomain", zstring_min 1);
     ("compartmentId", zstring_min 1);
     ("shape", zstring_min 1);
     ("imageId", zstring_min 1);
     ("displayName", z_optional zstring);
     ("metadata", z_optional (z_record zstring));
     ("subnetId", z_optional zstring);
     ("sshAuthorizedKeys", z_optional (zarray zstring))].

Definition ComputeListInputSchema : Schema :=
  z_object
    [("action", z_literal "list");
     ("resourceType",
      z_enum ["instances"; "images"; "shapes"; "volumes"; "volume-attachments"]);
     ("compartmentId", z_optional zstring);
     ("availabilityDomain", z_optional zstring);
     ("limit", z_optional (z_number (Some 1) (Some 100)));
     ("displayName", z_optional zstring);
     ("lifecycleState", z_optional zstring)].

Definition ComputeGetInputSchema : Schema :=
  z_object
    [("action", z_literal "get");
     ("resourceType", z_enum ["instance"; "image"; "volume"; "volume-attachment"]);
     ("resourceId", zstring_min 1)].

Definition ComputeCreateInputSchema : Schema :=
  z_object
    [("action", z_literal "create");
     ("resourceType", z_enum ["instance"; "volume"]);
     ("data",
      z_union
        [CreateInstanceRequestSchema;
         z_object
           [("availabilityDomain", zstring_min 1);
            ("compartmentId", zstring_min 1);
            ("sizeInGBs", z_number (Some 50) None);
            ("displayName", z_optional zstring);
            ("volumeType", z_optional (z_enum ["iscsi"; "paravirtualized"]))]])].

Definition ComputeManageInputSchema : Schema :=
  z_object
    [("action",
      z_enum ["start"; "stop"; "reboot"; "terminate"; "attach-volume"; "detach-volume"]);
     ("resourceType", z_enum ["instance"; "volume"]);
     ("resourceId", zstring_min 1);
     ("instanceId", z_optional zstring);
     ("volumeId", z_optional zstring)].

Definition ComputeToolInputSchema : Schema :=
  z_union
    [ComputeListInputSchema;
     ComputeGetInputSchema;
     ComputeCreateInputSchema;
     ComputeManageInputSchema].

Section Manager.

Variable ociClient : OCIClientManager.

Definition listResources (input : JVal) : Prog JVal :=
  let compartmentId := input!."compartmentId" ||| getDefaultCompartmentId ociClient in
  let resourceType := input!."resourceType" in
  if is_str resourceType "instances" then
    let instancesRequest :=
      JObj [("compartmentId", compartmentId);
            ("availabilityDomain", input!."availabilityDomain");
            ("limit", input!."limit" ||| JNum 50);
            ("displayName", input!."displayName");
            ("lifecycleState", input!."lifecycleState")] in
    instancesResponse ← await SPage "computeClient" "listInstances" instancesRequest;
    mret (JObj [("success", JBool true);
                ("data", JArr (items instancesResponse));
                ("count", js_length (items instancesResponse));
                ("message",
                 JStr ("Found " +:+ to_string (js_length (items instancesResponse))
                       +:+ " compute instances"))])
  else if is_str resourceType "images" then
    let imagesRequest :=
      JObj [("compartmentId", compartmentId);
            ("limit", input!."limit" ||| JNum 50);
            ("lifecycleState", input!."lifecycleState")] in
    imagesResponse ← await SPage "computeClient" "listImages" imagesRequest;
    mret (JObj [("success", JBool true);
                ("data", JArr (items imagesResponse));
                ("count", js_length (items imagesResponse));
                ("message",
                 JStr ("Found " +:+ to_string (js_length (items imagesResponse))
                       +:+ " compute images"))])
  else if is_str resourceType "shapes" then
    let shapesRequest :=
      JObj [("compartmentId", compartmentId);
            ("availabilityDomain", input!."availabilityDomain");
            ("limit", input!."limit" ||| JNum 50)] in
    shapesResponse ← await SPage "computeClient" "listShapes" shapesRequest;
    mret (JObj [("success", JBool true);
                ("data", JArr (items shapesResponse));
                ("count", js_length (items shapesResponse));
                ("message",
                 JStr ("Found " +:+ to_string (js_length (items shapesResponse))
                       +:+ " compute shapes"))])
  else if is_str resourceType "volumes" then
    let volumesRequest :=
      JObj [("compartmentId", compartmentId);
            ("availabilityDomain", input!."availabilityDomain");
            ("limit", input!."limit" ||| JNum 50);
            ("displayName", input!."displayName");
            ("lifecycleState", input!."lifecycleState")] in
    volumesResponse ← await SPage "blockstorageClient" "listVolumes" volumesRequest;
    mret (JObj [("success", JBool true);
                ("data", JArr (items volumesResponse));
                ("count", js_length (items volumesResponse));
                ("message",
                 JStr ("Found " +:+ to_string (js_length (items volumesResponse))
                       +:+ " block volumes"))])
  else if is_str resourceType "volume-attachments" then
    let attachmentsRequest :=
      JObj [("compartmentId", compartmentId);
            ("availabilityDomain", input!."availabilityDomain");
            ("limit", input!."limit" ||| JNum 50)] in
    attachmentsResponse ←
      await SPage "computeClient" "listVolumeAttachments" attachmentsRequest;
    mret (JObj [("success", JBool true);
                ("data", JArr (items attachmentsResponse));
                ("count", js_length (items attachmentsResponse));
                ("message",
                 JStr ("Found " +:+ to_string (js_length (items attachmentsResponse))
                       +:+ " volume attachments"))])
  else
    Throw (new_Error ("Unsupported resource type: " +:+ to_string resourceType)).

Definition getResource (input : JVal) : Prog JVal :=
  let resourceType := input!."resourceType" in
  let resourceId := input!."resourceId" in
  if is_str resourceType "instance" then
    instanceResponse ←
      await SResource "computeClient" "getInstance" (JObj [("instanceId", resourceId)]);
    mret (JObj [("success", JBool true);
                ("data", JObj instanceResponse);
                ("message",
                 JStr ("Retrieved instance details for " +:+ to_string resourceId))])
  else if is_str resourceType "image" then
    imageResponse ←
      await SResource "computeClient" "getImage" (JObj [("imageId", resourceId)]);
    mret (JObj [("success", JBool true);
                ("data", JObj imageResponse);
                ("message",
                 JStr ("Retrieved image details for " +:+ to_string resourceId))])
  else if is_str resourceType "volume" then
    volumeResponse ←
      await SResource "blockstorageClient" "getVolume" (JObj [("volumeId", resourceId)]);
    mret (JObj [("success", JBool true);
                ("data", JObj volumeResponse);
                ("message",
                 JStr ("Retrieved volume details for " +:+ to_string resourceId))])
  else if is_str resourceType "volume-attachment" then
    attachmentResponse ←
      await SResource "computeClient" "getVolumeAttachment"
        (JObj [("volumeAttachmentId", resourceId)]);
    mret (JObj [("success", JBool true);
                ("data", JObj attachmentResponse);
                ("message",
                 JStr ("Retrieved volume attachment details for "
                       +:+ to_string resourceId))])
  else
    Throw (new_Error ("Unsupported resource type: " +:+ to_string resourceType)).

Definition createResource (input : JVal) : Prog JVal :=
  let resourceType := input!."resourceType" in
  if is_str resourceType "instance" then
    let instanceData := input!."data" in
    reading instanceData "availabilityDomain" (
    displayName ←
      or_else instanceData!."displayName"
        (t ← date_now; mret (JStr ("instance-" +:+ string_of_Z t)));
    let createInstanceRequest :=
      JObj [("launchInstanceDetails",
             JObj [("availabilityDomain", instanceData!."availabilityDomain");
                   ("compartmentId", instanceData!."compartmentId");
                   ("shape", instanceData!."shape");
                   ("displayName", displayName);
                   ("sourceDetails",
                    JObj [("sourceType", JStr "image");
                          ("imageId", instanceData!."imageId")]);
                   ("createVnicDetails",
                    if truthy instanceData!."subnetId"
                    then JObj [("subnetId", instanceData!."subnetId")]
                    else JUndef);
                   ("metadata",
                    JObj (obj_spread (fields_of instanceData!."metadata")
                            (if truthy instanceData!."sshAuthorizedKeys"
                             then [("ssh_authorized_keys",
                                    JStr (join newline
                                            (elements instanceData!."sshAuthorizedKeys")))]
                             else [])))])] in
    instanceResult ← await SResource "computeClient" "launchInstance" createInstanceRequest;
    mret (JObj [("success", JBool true);
                ("data", JObj instanceResult);
                ("message",
                 JStr ("Instance creation initiated: "
                       +:+ to_string (obj_get "displayName" instanceResult)));
                ("operationId", obj_get "id" instanceResult)]))
  else if is_str resourceType "volume" then
    let volumeData := input!."data" in
    reading volumeData "availabilityDomain" (
    displayName ←
      or_else volumeData!."displayName"
        (t ← date_now; mret (JStr ("volume-" +:+ string_of_Z t)));
    let createVolumeRequest :=
      JObj [("createVolumeDetails",
             JObj [("availabilityDomain", volumeData!."availabilityDomain");
                   ("compartmentId", volumeData!."compartmentId");
                   ("sizeInGBs", volumeData!."sizeInGBs");
                   ("displayName", displayName);
                   ("volumeType", volumeData!."volumeType" ||| JStr "iscsi")])] in
    volumeResult ← await SResource "blockstorageClient" "createVolume" createVolumeRequest;
    mret (JObj [("success", JBool true);
                ("data", JObj volumeResult);
                ("message",
                 JStr ("Volume creation initiated: "
                       +:+ to_string (obj_get "displayName" volumeResult)));
                ("operationId", obj_get "id" volumeResult)]))
  else
    Throw (new_Error ("Unsupported resource type: " +:+ to_string resourceType)).

Definition manageInstance (input : JVal) : Prog JVal :=
  let request : JObject := [("instanceId", input!."resourceId")] in
  let action := input!."action" in
  let resourceId := input!."resourceId" in
  if is_str action "start" then
    startResult ←
      await SResource "computeClient" "instanceAction"
        (JObj (obj_spread request [("action", JStr "START")]));
    mret (JObj [("success", JBool true);
                ("data", JObj startResult);
                ("message", JStr ("Instance start initiated: " +:+ to_string resourceId));
                ("operationId", resourceId)])
  else if is_str action "stop" then
    stopResult ←
      await SResource "computeClient" "instanceAction"
        (JObj (obj_spread request [("action", JStr "STOP")]));
    mret (JObj [("success", JBool true);
                ("data", JObj stopResult);
                ("message", JStr ("Instance stop initiated: " +:+ to_string resourceId));
                ("operationId", resourceId)])
  else if is_str action "reboot" then
    rebootResult ←
      await SResource "computeClient" "instanceAction"
        (JObj (obj_spread request [("action", JStr "RESET")]));
    mret (JObj [("success", JBool true);
                ("data", JObj rebootResult);
                ("message", JStr ("Instance reboot initiated: " +:+ to_string resourceId));
                ("operationId", resourceId)])
  else if is_str action "terminate" then
    _ ← await SVoid "computeClient" "terminateInstance" (JObj request);
    mret (JObj [("success", JBool true);
                ("message",
                 JStr ("Instance termination initiated: " +:+ to_string resourceId));
                ("operationId", resourceId)])
  else
    Throw (new_Error ("Unsupported instance action: " +:+ to_string action)).

Definition manageVolume (input : JVal) : Prog JVal :=
  let action := input!."action" in
  if is_str action "attach-volume" then
    if negb (truthy input!."instanceId") || negb (truthy input!."volumeId") then
      Throw (new_Error "Both instanceId and volumeId are required for volume attachment")
    else
      let attachRequest :=
        JObj [("attachVolumeDetails",
               JObj [("instanceId", input!."instanceId");
                     ("type", JStr "iscsi");
                     ("volumeId", input!."volumeId")])] in
      attachResult ← await SResource "computeClient" "attachVolume" attachRequest;
      mret (JObj [("success", JBool true);
                  ("data", JObj attachResult);
                  ("message",
                   JStr ("Volume attachment initiated: " +:+ to_string input!."volumeId"
                         +:+ " to " +:+ to_string input!."instanceId"));
                  ("operationId", obj_get "id" attachResult)])
  else if is_str action "detach-volume" then
    let detachRequest := JObj [("volumeAttachmentId", input!."resourceId")] in
    _ ← await SVoid "computeClient" "detachVolume" detachRequest;
    mret (JObj [("success", JBool true);
                ("message",
                 JStr ("Volume detachment initiated: " +:+ to_string input!."resourceId"));
                ("operationId", input!."resourceId")])
  else
    Throw (new_Error ("Unsupported volume action: " +:+ to_string action)).

Definition execute (input : JVal) : Prog JVal :=
  try_catch
    (reading input "action"
       (let action := input!."action" in
        if is_str action "list" then listResources input
        else if is_str action "get" then getResource input
        else if is_str action "create" then createResource input
        else if is_any action ["start"; "stop"; "reboot"; "terminate"]
             then manageInstance input
        else if is_any action ["attach-volume"; "detach-volume"]
             then manageVolume input
        else Throw (new_Error ("Unsupported action: " +:+ to_string action))))
    (fun error =>
       let errorMessage := handleOCIError error in
       mret (JObj [("success", JBool false); ("message", JStr errorMessage)])).

End Manager.

End Compute.

(** ** The monitoring and security dispatcher ([tools/monitoring-security.ts]) *)

Module MonitoringSecurity.

Section Schemas.

(** zod's e-mail pattern, the check behind [z.string().email()]. *)
Variable is_email : string -> bool.

Definition MonitoringSecurityListInputSchema : Schema :=
  z_object
    [("action", z_literal "list");
     ("resourceType",
      z_enum ["alarms"; "metrics"; "metric-data"; "notifications"; "events";
              "log-groups"; "logs"; "network-security-groups"; "security-lists";
              "vault-secrets"; "certificates"; "policies"; "users"; "groups"]);
     ("compartmentId", z_optional zstring);
     ("metricNamespace", z_optional zstring);
     ("logGroupId", z_optional zstring);
     ("vcnId", z_optional zstring);
     ("vaultId", z_optional zstring);
     ("startTime", z_optional zstring);
     ("endTime", z_optional zstring);
     ("limit", z_optional (z_number (Some 1) (Some 100)));
     ("displayName", z_optional zstring)].

Definition MonitoringSecurityGetInputSchema : Schema :=
  z_object
    [("action", z_literal "get");
     ("resourceType",
      z_enum ["alarm"; "metric"; "notification-topic"; "log-group"; "log";
              "network-security-group"; "security-list"; "vault"; "secret";
              "certificate"; "policy"; "user"; "group"]);
     ("resourceId", zstring_min 1);
     ("logGroupId", z_optional zstring);
     ("secretName", z_optional zstring)].

Definition MonitoringSecurityCreateInputSchema : Schema :=
  z_object
    [("action", z_literal "create");
     ("resourceType",
      z_enum ["alarm"; "notification-topic"; "log-group"; "network-security-group";
              "vault"; "secret"; "policy"; "user"; "group"]);
     ("data",
      z_union
        [z_object
           [("compartmentId", zstring_min 1);
            ("displayName", zstring_min 1);
            ("metricCompartmentId", zstring_min 1);
            ("namespace", zstring_min 1);
            ("query", zstring_min 1);
            ("severity", z_enum ["CRITICAL"; "ERROR"; "WARNING"; "INFO"]);
            ("destinations", z_array zstring 1);
            ("isEnabled", z_optional z_boolean);
            ("body", z_optional zstring);
            ("pendingDuration", z_optional zstring)];
         z_object
           [("compartmentId", zstring_min 1);
            ("name", zstring_min 1);
            ("description", z_optional zstring)];
         z_object
           [("compartmentId", zstring_min 1);
            ("displayName", zstring_min 1);
            ("description", z_optional zstring)];
         z_object
           [("compartmentId", zstring_min 1);
            ("vcnId", zstring_min 1);
            ("displayName", zstring_min 1);
            ("securityRules",
             z_optional
               (zarray
                  (z_object
                     [("direction", z_enum ["INGRESS"; "EGRESS"]);
                      ("protocol", zstring);
                      ("source", z_optional zstring);
                      ("destination", z_optional zstring);
                      ("sourceType", z_optional zstring);
                      ("destinationType", z_optional zstring);
                      ("isStateless", z_optional z_boolean)])))];
         z_object
           [("compartmentId", zstring_min 1);
            ("displayName", zstring_min 1);
            ("vaultType", z_optional (z_enum ["DEFAULT"; "VIRTUAL_PRIVATE"]))];
         z_object
           [("compartmentId", zstring_min 1);
            ("name", zstring_min 1);
            ("description", zstring_min 1);
            ("statements", z_optional (zarray zstring));
            ("email", z_optional (z_string 0 (Some is_email)));
            ("members", z_optional (zarray zstring))]])].

Definition MonitoringSecurityManageInputSchema : Schema :=
  z_object
    [("action",
      z_enum ["enable-alarm"; "disable-alarm"; "update-alarm"; "delete-alarm";
              "add-security-rule"; "remove-security-rule"; "update-secret";
              "rotate-secret"; "add-user-to-group"; "remove-user-from-group";
              "attach-policy"; "detach-policy"]);
     ("resourceType",
      z_enum ["alarm"; "network-security-group"; "secret"; "group"; "policy"]);
     ("resourceId", zstring_min 1);
     ("securityRule",
      z_optional
        (z_object
           [("direction", z_enum ["INGRESS"; "EGRESS"]);
            ("protocol", zstring);
            ("source", z_optional zstring);
            ("destination", z_optional zstring);
            ("isStateless", z_optional z_boolean)]));
     ("secretContent", z_optional zstring);
     ("userId", z_optional zstring);
     ("groupId", z_optional zstring);
     ("policyId", z_optional zstring);
     ("query", z_optional zstring);
     ("severity", z_optional (z_enum ["CRITICAL"; "ERROR"; "WARNING"; "INFO"]));
     ("isEnabled", z_optional z_boolean)].

Definition MonitoringSecurityToolInputSchema : Schema :=
  z_union
    [MonitoringSecurityListInputSchema;
     MonitoringSecurityGetInputSchema;
     MonitoringSecurityCreateInputSchema;
     MonitoringSecurityManageInputSchema].

End Schemas.

Section Manager.

Variable ociClient : OCIClientManager.

Definition listResources (input : JVal) : Prog JVal :=
  let compartmentId := input!."compartmentId" ||| getDefaultCompartmentId ociClient in
  let resourceType := input!."resourceType" in
  if is_str resourceType "alarms" then
    let alarmsRequest :=
      JObj [("compartmentId", compartmentId);
            ("limit", input!."limit" ||| JNum 50);
            ("displayName", input!."displayName")] in
    alarmsResponse ← await SPage "monitoringClient" "listAlarms" alarmsRequest;
    mret (JObj [("success", JBool true);
                ("data", JArr (items alarmsResponse));
                ("count", js_length (items alarmsResponse));
                ("message",
                 JStr ("Found " +:+ to_string (js_length (items alarmsResponse))
                       +:+ " alarms"))])
  else if is_str resourceType "metrics" then
    if negb (truthy input!."metricNamespace") then
      Throw (new_Error "Metric namespace is required for listing metrics")
    else
      let metricsRequest :=
        JObj [("compartmentId", compartmentId);
              ("namespace", input!."metricNamespace");
              ("limit", input!."limit" ||| JNum 50)] in
      metricsResponse ← await SPage "monitoringClient" "listMetrics" metricsRequest;
      mret (JObj [("success", JBool true);
                  ("data", JArr (items metricsResponse));
                  ("count", js_length (items metricsResponse));
                  ("message",
                   JStr ("Found " +:+ to_string (js_length (items metricsResponse))
                         +:+ " metrics in namespace "
                         +:+ to_string input!."metricNamespace"))])
  else if is_str resourceType "metric-data" then
    if negb (truthy input!."metricNamespace")
       || negb (truthy input!."startTime")
       || negb (truthy input!."endTime") then
      Throw (new_Error
               "Metric namespace, start time, and end time are required for metric data")
    else
      let metricDataRequest :=
        JObj [("compartmentId", compartmentId);
              ("query", JStr (to_string input!."metricNamespace" +:+ "[]"));
              ("startTime", new_Date input!."startTime");
              ("endTime", new_Date input!."endTime")] in
      metricDataResponse ←
        await SPage "monitoringClient" "summarizeMetricsData" metricDataRequest;
      mret (JObj [("success", JBool true);
                  ("data", JArr (items metricDataResponse));
                  ("count", js_length (items metricDataResponse));
                  ("message",
                   JStr ("Retrieved metric data for "
                         +:+ to_string input!."metricNamespace"))])
  else if is_str resourceType "log-groups" then
    let logGroupsRequest :=
      JObj [("compartmentId", compartmentId);
            ("limit", input!."limit" ||| JNum 50);
            ("displayName", input!."displayName")] in
    logGroupsResponse ← await SPage "loggingClient" "listLogGroups" logGroupsRequest;
    mret (JObj [("success", JBool true);
                ("data", JArr (items logGroupsResponse));
                ("count", js_length (items logGroupsResponse));
                ("message",
                 JStr ("Found " +:+ to_string (js_length (items logGroupsResponse))
                       +:+ " log groups"))])
  else if is_str resourceType "network-security-groups" then
    let nsgRequest :=
      JObj [("compartmentId", compartmentId);
            ("vcnId", input!."vcnId");
            ("limit", input!."limit" ||| JNum 50);
            ("displayName", input!."displayName")] in
    nsgResponse ←
      await SPage "virtualNetworkClient" "listNetworkSecurityGroups" nsgRequest;
    mret (JObj [("success", JBool true);
                ("data", JArr (items nsgResponse));
                ("count", js_length (items nsgResponse));
                ("message",
                 JStr ("Found " +:+ to_string (js_length (items nsgResponse))
                       +:+ " network security groups"))])
  else if is_str resourceType "security-lists" then
    let securityListsRequest :=
      JObj [("compartmentId", compartmentId);
            ("vcnId", input!."vcnId");
            ("limit", input!."limit" ||| JNum 50);
            ("displayName", input!."displayName")] in
    securityListsResponse ←
      await SPage "virtualNetworkClient" "listSecurityLists" securityListsRequest;
    mret (JObj [("success", JBool true);
                ("data", JArr (items securityListsResponse));
                ("count", js_length (items securityListsResponse));
                ("message",
                 JStr ("Found " +:+ to_string (js_length (items securityListsResponse))
                       +:+ " security lists"))])
  else if is_str resourceType "users" then
    let usersRequest :=
      JObj [("compartmentId", compartmentId);
            ("limit", input!."limit" ||| JNum 50)] in
    usersResponse ← await SPage "identityClient" "listUsers" usersRequest;
    mret (JObj [("success", JBool true);
                ("data", JArr (items usersResponse));
                ("count", js_length (items usersResponse));
                ("message",
                 JStr ("Found " +:+ to_string (js_length (items usersResponse))
                       +:+ " users"))])
  else if is_str resourceType "groups" then
    let groupsRequest :=
      JObj [("compartmentId", compartmentId);
            ("limit", input!."limit" ||| JNum 50)] in
    groupsResponse ← await SPage "identityClient" "listGroups" groupsRequest;
    mret (JObj [("success", JBool true);
                ("data", JArr (items groupsResponse));
                ("count", js_length (items groupsResponse));
                ("message",
                 JStr ("Found " +:+ to_string (js_length (items groupsResponse))
                       +:+ " groups"))])
  else if is_str resourceType "policies" then
    let policiesRequest :=
      JObj [("compartmentId", compartmentId);
            ("limit", input!."limit" ||| JNum 50)] in
    policiesResponse ← await SPage "identityClient" "listPolicies" policiesRequest;
    mret (JObj [("success", JBool true);
                ("data", JArr (items policiesResponse));
                ("count", js_length (items policiesResponse));
                ("message",
                 JStr ("Found " +:+ to_string (js_length (items policiesResponse))
                       +:+ " policies"))])
  else
    Throw (new_Error ("Unsupported resource type: " +:+ to_string resourceType)).

Definition getResource (input : JVal) : Prog JVal :=
  let resourceType := input!."resourceType" in
  let resourceId := input!."resourceId" in
  if is_str resourceType "alarm" then
    alarmResponse ←
      await SResource "monitoringClient" "getAlarm" (JObj [("alarmId", resourceId)]);
    mret (JObj [("success", JBool true);
                ("data", JObj alarmResponse);
                ("message",
                 JStr ("Retrieved alarm details for " +:+ to_string resourceId))])
  else if is_str resourceType "log-group" then
    logGroupResponse ←
      await SResource "loggingClient" "getLogGroup" (JObj [("logGroupId", resourceId)]);
    mret (JObj [("success", JBool true);
                ("data", JObj logGroupResponse);
                ("message",
                 JStr ("Retrieved log group details for " +:+ to_string resourceId))])
  else if is_str resourceType "network-security-group" then
    nsgResponse ←
      await SResource "virtualNetworkClient" "getNetworkSecurityGroup"
        (JObj [("networkSecurityGroupId", resourceId)]);
    mret (JObj [("success", JBool true);
                ("data", JObj nsgResponse);
                ("message",
                 JStr ("Retrieved network security group details for "
                       +:+ to_string resourceId))])
  else if is_str resourceType "security-list" then
    securityListResponse ←
      await SResource "virtualNetworkClient" "getSecurityList"
        (JObj [("securityListId", resourceId)]);
    mret (JObj [("success", JBool true);
                ("data", JObj securityListResponse);
                ("message",
                 JStr ("Retrieved security list details for " +:+ to_string resourceId))])
  else if is_str resourceType "user" then
    userResponse ←
      await SResource "identityClient" "getUser" (JObj [("userId", resourceId)]);
    mret (JObj [("success", JBool true);
                ("data", JObj userResponse);
                ("message",
                 JStr ("Retrieved user details for " +:+ to_string resourceId))])
  else if is_str resourceType "group" then
    groupResponse ←
      await SResource "identityClient" "getGroup" (JObj [("groupId", resourceId)]);
    mret (JObj [("success", JBool true);
                ("data", JObj groupResponse);
                ("message",
                 JStr ("Retrieved group details for " +:+ to_string resourceId))])
  else if is_str resourceType "policy" then
    policyResponse ←
      await SResource "identityClient" "getPolicy" (JObj [("policyId", resourceId)]);
    mret (JObj [("success", JBool true);
                ("data", JObj policyResponse);
                ("message",
                 JStr ("Retrieved policy details for " +:+ to_string resourceId))])
  else
    Throw (new_Error ("Unsupported resource type: " +:+ to_string resourceType)).

Definition createResource (input : JVal) : Prog JVal :=
  let resourceType := input!."resourceType" in
  if is_str resourceType "alarm" then
    let alarmData := input!."data" in
    reading alarmData "compartmentId" (
    let createAlarmRequest :=
      JObj [("createAlarmDetails",
             JObj [("compartmentId", alarmData!."compartmentId");
                   ("displayName", alarmData!."displayName");
                   ("metricCompartmentId", alarmData!."metricCompartmentId");
                   ("namespace", alarmData!."namespace");
                   ("query", alarmData!."query");
                   ("severity", alarmData!."severity");
                   ("destinations", alarmData!."destinations");
                   ("isEnabled", JBool (not_false alarmData!."isEnabled"));
                   ("body", alarmData!."body");
                   ("pendingDuration", alarmData!."pendingDuration" ||| JStr "PT5M")])] in
    alarmResult ← await SResource "monitoringClient" "createAlarm" createAlarmRequest;
    mret (JObj [("success", JBool true);
                ("data", JObj alarmResult);
                ("message",
                 JStr ("Alarm created successfully: "
                       +:+ to_string (obj_get "displayName" alarmResult)));
                ("operationId", obj_get "id" alarmResult)]))
  else if is_str resourceType "log-group" then
    let logGroupData := input!."data" in
    reading logGroupData "compartmentId" (
    let createLogGroupRequest :=
      JObj [("createLogGroupDetails",
             JObj [("compartmentId", logGroupData!."compartmentId");
                   ("displayName", logGroupData!."displayName");
                   ("description", logGroupData!."description")])] in
    logGroupResult ← await SResource "loggingClient" "createLogGroup" createLogGroupRequest;
    mret (JObj [("success", JBool true);
                ("data", JObj logGroupResult);
                ("message",
                 JStr ("Log group created successfully: "
                       +:+ to_string (obj_get "displayName" logGroupResult)));
                ("operationId", obj_get "id" logGroupResult)]))
  else if is_str resourceType "network-security-group" then
    let nsgData := input!."data" in
    reading nsgData "compartmentId" (
    let createNsgRequest :=
      JObj [("createNetworkSecurityGroupDetails",
             JObj [("compartmentId", nsgData!."compartmentId");
                   ("vcnId", nsgData!."vcnId");
                   ("displayName", nsgData!."displayName")])] in
    nsgResult ←
      await SResource "virtualNetworkClient" "createNetworkSecurityGroup" createNsgRequest;
    _ ← (if truthy nsgData!."securityRules"
            && (0 <? Z.of_nat (length (elements nsgData!."securityRules")))
         then
           for_of (elements nsgData!."securityRules")
             (fun rule =>
                await SVoid "virtualNetworkClient" "addNetworkSecurityGroupSecurityRules"
                  (JObj [("networkSecurityGroupId", obj_get "id" nsgResult);
                         ("addNetworkSecurityGroupSecurityRulesDetails",
                          JObj [("securityRules", JArr [rule])])]))
         else mret tt);
    mret (JObj [("success", JBool true);
                ("data", JObj nsgResult);
                ("message",
                 JStr ("Network security group created successfully: "
                       +:+ to_string (obj_get "displayName" nsgResult)));
                ("operationId", obj_get "id" nsgResult)]))
  else if is_str resourceType "user" then
    let userData := input!."data" in
    reading userData "compartmentId" (
    let createUserRequest :=
      JObj [("createUserDetails",
             JObj [("compartmentId", userData!."compartmentId");
                   ("name", userData!."name");
                   ("description", userData!."description");
                   ("email", userData!."email")])] in
    userResult ← await SResource "identityClient" "createUser" createUserRequest;
    mret (JObj [("success", JBool true);
                ("data", JObj userResult);
                ("message",
                 JStr ("User created successfully: "
                       +:+ to_string (obj_get "name" userResult)));
                ("operationId", obj_get "id" userResult)]))
  else if is_str resourceType "group" then
    let groupData := input!."data" in
    reading groupData "compartmentId" (
    let createGroupRequest :=
      JObj [("createGroupDetails",
             JObj [("compartmentId", groupData!."compartmentId");
                   ("name", groupData!."name");
                   ("description", groupData!."description")])] in
    groupResult ← await SResource "identityClient" "createGroup" createGroupRequest;
    mret (JObj [("success", JBool true);
                ("data", JObj groupResult);
                ("message",
                 JStr ("Group created successfully: "
                       +:+ to_string (obj_get "name" groupResult)));
                ("operationId", obj_get "id" groupResult)]))
  else if is_str resourceType "policy" then
    let policyData := input!."data" in
    reading policyData "compartmentId" (
    let createPolicyRequest :=
      JObj [("createPolicyDetails",
             JObj [("compartmentId", policyData!."compartmentId");
                   ("name", policyData!."name");
                   ("description", policyData!."description");
                   ("statements", policyData!."statements" ||| JArr [])])] in
    policyResult ← await SResource "identityClient" "createPolicy" createPolicyRequest;
    mret (JObj [("success", JBool true);
                ("data", JObj policyResult);
                ("message",
                 JStr ("Policy created successfully: "
                       +:+ to_string (obj_get "name" policyResult)));
                ("operationId", obj_get "id" policyResult)]))
  else
    Throw (new_Error ("Unsupported resource type: " +:+ to_string resourceType)).

Definition manageResource (input : JVal) : Prog JVal :=
  let action := input!."action" in
  let resourceId := input!."resourceId" in
  if is_str action "enable-alarm" then
    let enableAlarmRequest :=
      JObj [("alarmId", resourceId);
            ("updateAlarmDetails", JObj [("isEnabled", JBool true)])] in
    enabledAlarm ← await SResource "monitoringClient" "updateAlarm" enableAlarmRequest;
    mret (JObj [("success", JBool true);
                ("data", JObj enabledAlarm);
                ("message", JStr ("Alarm enabled: " +:+ to_string resourceId));
                ("operationId", resourceId)])
  else if is_str action "disable-alarm" then
    let disableAlarmRequest :=
      JObj [("alarmId", resourceId);
            ("updateAlarmDetails", JObj [("isEnabled", JBool false)])] in
    disabledAlarm ← await SResource "monitoringClient" "updateAlarm" disableAlarmRequest;
    mret (JObj [("success", JBool true);
                ("data", JObj disabledAlarm);
                ("message", JStr ("Alarm disabled: " +:+ to_string resourceId));
                ("operationId", resourceId)])
  else if is_str action "update-alarm" then
    let updateAlarmRequest :=
      JObj [("alarmId", resourceId);
            ("updateAlarmDetails",
             JObj [("query", input!."query");
                   ("severity", input!."severity");
                   ("isEnabled", input!."isEnabled")])] in
    updatedAlarm ← await SResource "monitoringClient" "updateAlarm" updateAlarmRequest;
    mret (JObj [("success", JBool true);
                ("data", JObj updatedAlarm);
                ("message", JStr ("Alarm updated: " +:+ to_string resourceId));
                ("operationId", resourceId)])
  else if is_str action "delete-alarm" then
    let deleteAlarmRequest := JObj [("alarmId", resourceId)] in
    _ ← await SVoid "monitoringClient" "deleteAlarm" deleteAlarmRequest;
    mret (JObj [("success", JBool true);
                ("message", JStr ("Alarm deletion initiated: " +:+ to_string resourceId));
                ("operationId", resourceId)])
  else if is_str action "add-security-rule" then
    if negb (truthy input!."securityRule") then
      Throw (new_Error "Security rule is required for adding security rule")
    else
      let addRuleRequest :=
        JObj [("networkSecurityGroupId", resourceId);
              ("addNetworkSecurityGroupSecurityRulesDetails",
               JObj [("securityRules", JArr [input!."securityRule"])])] in
      _ ← await SVoid "virtualNetworkClient" "addNetworkSecurityGroupSecurityRules"
            addRuleRequest;
      mret (JObj [("success", JBool true);
                  ("message",
                   JStr ("Security rule added to NSG: " +:+ to_string resourceId));
                  ("operationId", resourceId)])
  else if is_str action "add-user-to-group" then
    if negb (truthy input!."userId") || negb (truthy input!."groupId") then
      Throw (new_Error "Both userId and groupId are required for adding user to group")
    else
      let addUserRequest :=
        JObj [("addUserToGroupDetails",
               JObj [("userId", input!."userId");
                     ("groupId", input!."groupId")])] in
      membershipResult ← await SResource "identityClient" "addUserToGroup" addUserRequest;
      mret (JObj [("success", JBool true);
                  ("data", JObj membershipResult);
                  ("message",
                   JStr ("User " +:+ to_string input!."userId" +:+ " added to group "
                         +:+ to_string input!."groupId"));
                  ("operationId", obj_get "id" membershipResult)])
  else if is_str action "remove-user-from-group" then
    let removeUserRequest := JObj [("userGroupMembershipId", resourceId)] in
    _ ← await SVoid "identityClient" "removeUserFromGroup" removeUserRequest;
    mret (JObj [("success", JBool true);
                ("message", JStr ("User removed from group: " +:+ to_string resourceId));
                ("operationId", resourceId)])
  else
    Throw (new_Error ("Unsupported management action: " +:+ to_string action)).

Definition execute (input : JVal) : Prog JVal :=
  try_catch
    (reading input "action"
       (let action := input!."action" in
        if is_str action "list" then listResources input
        else if is_str action "get" then getResource input
        else if is_str action "create" then createResource input
        else if is_any action
                  ["enable-alarm"; "disable-alarm"; "update-alarm"; "delete-alarm";
                   "add-security-rule"; "remove-security-rule"; "update-secret";
                   "rotate-secret"; "add-user-to-group"; "remove-user-from-group";
                   "attach-policy"; "detach-policy"]
             then manageResource input
        else Throw (new_Error ("Unsupported action: " +:+ to_string action))))
    (fun error =>
       let errorMessage := handleOCIError error in
       mret (JObj [("success", JBool false); ("message", JStr errorMessage)])).

End Manager.

End MonitoringSecurity.

(** ** The storage and network dispatcher ([tools/storage-network.ts]) *)

Module StorageNetwork.

(** [CreateBucketRequestSchema] ([types/oci.ts]) *)
Definition CreateBucketRequestSchema : Schema :=
  z_object
    [("name", zstring_min 1);
     ("compartmentId", zstring_min 1);
     ("namespace", zstring_min 1);
     ("storageTier", z_optional (z_enum ["Standard"; "InfrequentAccess"; "Archive"]));
     ("publicAccessType",
      z_optional (z_enum ["NoPublicAccess"; "ObjectRead"; "ObjectReadWithoutList"]))].

Definition StorageNetworkListInputSchema : Schema :=
  z_object
    [("action", z_literal "list");
     ("resourceType",
      z_enum ["buckets"; "objects"; "vcns"; "subnets"; "security-lists";
              "route-tables"; "internet-gateways"; "nat-gateways"; "load-balancers"]);
     ("compartmentId", z_optional zstring);
     ("namespaceName", z_optional zstring);
     ("bucketName", z_optional zstring);
     ("vcnId", z_optional zstring);
     ("limit", z_optional (z_number (Some 1) (Some 100)));
     ("displayName", z_optional zstring)].

Definition StorageNetworkGetInputSchema : Schema :=
  z_object
    [("action", z_literal "get");
     ("resourceType",
      z_enum ["bucket"; "object"; "vcn"; "subnet"; "security-list";
              "route-table"; "internet-gateway"; "nat-gateway"; "load-balancer"]);
     ("resourceId", zstring_min 1);
     ("namespaceName", z_optional zstring);
     ("bucketName", z_optional zstring);
     ("objectName", z_optional zstring)].

Definition StorageNetworkCreateInputSchema : Schema :=
  z_object
    [("action", z_literal "create");
     ("resourceType",
      z_enum ["bucket"; "vcn"; "subnet"; "security-list"; "route-table";
              "internet-gateway"; "nat-gateway"]);
     ("data",
      z_union
        [CreateBucketRequestSchema;
         z_object
           [("compartmentId", zstring_min 1);
            ("cidrBlock", zstring_min 1);
            ("displayName", z_optional zstring);
            ("dnsLabel", z_optional zstring)];
         z_object
           [("compartmentId", zstring_min 1);
            ("vcnId", zstring_min 1);
            ("cidrBlock", zstring_min 1);
            ("availabilityDomain", z_optional zstring);
            ("displayName", z_optional zstring);
            ("routeTableId", z_optional zstring);
            ("securityListIds", z_optional (zarray zstring));
            ("prohibitPublicIpOnVnic", z_optional z_boolean)];
         z_object
           [("compartmentId", zstring_min 1);
            ("vcnId", zstring_min 1);
            ("displayName", z_optional zstring);
            ("isEnabled", z_optional z_boolean)]])].

Definition StorageNetworkManageInputSchema : Schema :=
  z_object
    [("action",
      z_enum ["upload-object"; "download-object"; "delete-object"; "delete-bucket";
              "delete-vcn"; "update-security-list"]);
     ("resourceType", z_enum ["object"; "bucket"; "vcn"; "security-list"]);
     ("resourceId", z_optional zstring);
     ("namespaceName", z_optional zstring);
     ("bucketName", z_optional zstring);
     ("objectName", z_optional zstring);
     ("objectContent", z_optional zstring);
     ("contentType", z_optional zstring);
     ("securityRules",
      z_optional
        (zarray
           (z_object
              [("direction", z_enum ["ingress"; "egress"]);
               ("protocol", zstring);
               ("source", z_optional zstring);
               ("destination", z_optional zstring);
               ("isStateless", z_optional z_boolean)])))].

Definition StorageNetworkToolInputSchema : Schema :=
  z_union
    [StorageNetworkListInputSchema;
     StorageNetworkGetInputSchema;
     StorageNetworkCreateInputSchema;
     StorageNetworkManageInputSchema].

Section Manager.

Variable ociClient : OCIClientManager.

Definition getNamespace : Prog JVal :=
  response ← await SValue "objectStorageClient" "getNamespace" (JObj []);
  mret (JStr response).

(** [objects] and [objects?.length], for [objects] an array or [undefined] *)
Definition objects_value (objects : option (list JVal)) : JVal :=
  match objects with
  | Some xs => JArr xs
  | None => JUndef
  end.

Definition objects_length (objects : option (list JVal)) : JVal :=
  match objects with
  | Some xs => js_length xs
  | None => JUndef
  end.

Definition listResources (input : JVal) : Prog JVal :=
  let compartmentId := input!."compartmentId" ||| getDefaultCompartmentId ociClient in
  let resourceType := input!."resourceType" in
  if is_str resourceType "buckets" then
    namespaceName ← or_else input!."namespaceName" getNamespace;
    let bucketsRequest :=
      JObj [("namespaceName", namespaceName);
            ("compartmentId", compartmentId);
            ("limit", input!."limit" ||| JNum 50)] in
    bucketsResponse ← await SPage "objectStorageClient" "listBuckets" bucketsRequest;
    mret (JObj [("success", JBool true);
                ("data", JArr (items bucketsResponse));
                ("count", js_length (items bucketsResponse));
                ("message",
                 JStr ("Found " +:+ to_string (js_length (items bucketsResponse))
                       +:+ " buckets"))])
  else if is_str resourceType "objects" then
    if negb (truthy input!."bucketName") then
      Throw (new_Error "Bucket name is required for listing objects")
    else
      objectsNamespace ← or_else input!."namespaceName" getNamespace;
      let objectsRequest :=
        JObj [("namespaceName", objectsNamespace);
              ("bucketName", input!."bucketName");
              ("limit", input!."limit" ||| JNum 50)] in
      objects ← await SObjects "objectStorageClient" "listObjects" objectsRequest;
      mret (JObj [("success", JBool true);
                  ("data", objects_value objects ||| JArr []);
                  ("count", objects_length objects ||| JNum 0);
                  ("message",
                   JStr ("Found " +:+ to_string (objects_length objects ||| JNum 0)
                         +:+ " objects in bucket " +:+ to_string input!."bucketName"))])
  else if is_str resourceType "vcns" then
    let vcnsRequest :=
      JObj [("compartmentId", compartmentId);
            ("limit", input!."limit" ||| JNum 50);
            ("displayName", input!."displayName")] in
    vcnsResponse ← await SPage "virtualNetworkClient" "listVcns" vcnsRequest;
    mret (JObj [("success", JBool true);
                ("data", JArr (items vcnsResponse));
                ("count", js_length (items vcnsResponse));
                ("message",
                 JStr ("Found " +:+ to_string (js_length (items vcnsResponse))
                       +:+ " VCNs"))])
  else if is_str resourceType "subnets" then
    let subnetsRequest :=
      JObj [("compartmentId", compartmentId);
            ("vcnId", input!."vcnId");
            ("limit", input!."limit" ||| JNum 50);
            ("displayName", input!."displayName")] in
    subnetsResponse ← await SPage "virtualNetworkClient" "listSubnets" subnetsRequest;
    mret (JObj [("success", JBool true);
                ("data", JArr (items subnetsResponse));
                ("count", js_length (items subnetsResponse));
                ("message",
                 JStr ("Found " +:+ to_string (js_length (items subnetsResponse))
                       +:+ " subnets"))])
  else if is_str resourceType "security-lists" then
    let securityListsRequest :=
      JObj [("compartmentId", compartmentId);
            ("vcnId", input!."vcnId");
            ("limit", input!."limit" ||| JNum 50);
            ("displayName", input!."displayName")] in
    securityListsResponse ←
      await SPage "virtualNetworkClient" "listSecurityLists" securityListsRequest;
    mret (JObj [("success", JBool true);
                ("data", JArr (items securityListsResponse));
                ("count", js_length (items securityListsResponse));
                ("message",
                 JStr ("Found " +:+ to_string (js_length (items securityListsResponse))
                       +:+ " security lists"))])
  else if is_str resourceType "route-tables" then
    let routeTablesRequest :=
      JObj [("compartmentId", compartmentId);
            ("vcnId", input!."vcnId");
            ("limit", input!."limit" ||| JNum 50);
            ("displayName", input!."displayName")] in
    routeTablesResponse ←
      await SPage "virtualNetworkClient" "listRouteTables" routeTablesRequest;
    mret (JObj [("success", JBool true);
                ("data", JArr (items routeTablesResponse));
                ("count", js_length (items routeTablesResponse));
                ("message",
                 JStr ("Found " +:+ to_string (js_length (items routeTablesResponse))
                       +:+ " route tables"))])
  else if is_str resourceType "internet-gateways" then
    let igwRequest :=
      JObj [("compartmentId", compartmentId);
            ("vcnId", input!."vcnId");
            ("limit", input!."limit" ||| JNum 50);
            ("displayName", input!."displayName")] in
    igwResponse ← await SPage "virtualNetworkClient" "listInternetGateways" igwRequest;
    mret (JObj [("success", JBool true);
                ("data", JArr (items igwResponse));
                ("count", js_length (items igwResponse));
                ("message",
                 JStr ("Found " +:+ to_string (js_length (items igwResponse))
                       +:+ " internet gateways"))])
  else if is_str resourceType "nat-gateways" then
    let natGwRequest :=
      JObj [("compartmentId", compartmentId);
            ("vcnId", input!."vcnId");
            ("limit", input!."limit" ||| JNum 50);
            ("displayName", input!."displayName")] in
    natGwResponse ← await SPage "virtualNetworkClient" "listNatGateways" natGwRequest;
    mret (JObj [("success", JBool true);
                ("data", JArr (items natGwResponse));
                ("count", js_length (items natGwResponse));
                ("message",
                 JStr ("Found " +:+ to_string (js_length (items natGwResponse))
                       +:+ " NAT gateways"))])
  else if is_str resourceType "load-balancers" then
    let lbRequest :=
      JObj [("compartmentId", compartmentId);
            ("limit", input!."limit" ||| JNum 50);
            ("displayName", input!."displayName")] in
    lbResponse ← await SPage "loadBalancerClient" "listLoadBalancers" lbRequest;
    mret (JObj [("success", JBool true);
                ("data", JArr (items lbResponse));
                ("count", js_length (items lbResponse));
                ("message",
                 JStr ("Found " +:+ to_string (js_length (items lbResponse))
                       +:+ " load balancers"))])
  else
    Throw (new_Error ("Unsupported resource type: " +:+ to_string resourceType)).

Definition getResource (input : JVal) : Prog JVal :=
  let resourceType := input!."resourceType" in
  let resourceId := input!."resourceId" in
  if is_str resourceType "bucket" then
    namespaceName ← or_else input!."namespaceName" getNamespace;
    bucketResponse ←
      await SResource "objectStorageClient" "getBucket"
        (JObj [("namespaceName", namespaceName); ("bucketName", resourceId)]);
    mret (JObj [("success", JBool true);
                ("data", JObj bucketResponse);
                ("message",
                 JStr ("Retrieved bucket details for " +:+ to_string resourceId))])
  else if is_str resourceType "object" then
    if negb (truthy input!."bucketName") || negb (truthy input!."objectName") then
      Throw (new_Error "Bucket name and object name are required")
    else
      objectNamespace ← or_else input!."namespaceName" getNamespace;
      objectResponse ←
        await SResource "objectStorageClient" "getObject"
          (JObj [("namespaceName", objectNamespace);
                 ("bucketName", input!."bucketName");
                 ("objectName", input!."objectName")]);
      mret (JObj [("success", JBool true);
                  ("data",
                   JObj [("objectName", input!."objectName");
                         ("contentLength", obj_get "contentLength" objectResponse);
                         ("contentType", obj_get "contentType" objectResponse);
                         ("etag", obj_get "etag" objectResponse);
                         ("lastModified", obj_get "lastModified" objectResponse)]);
                  ("message",
                   JStr ("Retrieved object details for "
                         +:+ to_string input!."objectName"))])
  else if is_str resourceType "vcn" then
    vcnResponse ←
      await SResource "virtualNetworkClient" "getVcn" (JObj [("vcnId", resourceId)]);
    mret (JObj [("success", JBool true);
                ("data", JObj vcnResponse);
                ("message",
                 JStr ("Retrieved VCN details for " +:+ to_string resourceId))])
  else if is_str resourceType "subnet" then
    subnetResponse ←
      await SResource "virtualNetworkClient" "getSubnet" (JObj [("subnetId", resourceId)]);
    mret (JObj [("success", JBool true);
                ("data", JObj subnetResponse);
                ("message",
                 JStr ("Retrieved subnet details for " +:+ to_string resourceId))])
  else if is_str resourceType "security-list" then
    securityListResponse ←
      await SResource "virtualNetworkClient" "getSecurityList"
        (JObj [("securityListId", resourceId)]);
    mret (JObj [("success", JBool true);
                ("data", JObj securityListResponse);
                ("message",
                 JStr ("Retrieved security list details for " +:+ to_string resourceId))])
  else
    Throw (new_Error ("Unsupported resource type: " +:+ to_string resourceType)).

Definition createResource (input : JVal) : Prog JVal :=
  let resourceType := input!."resourceType" in
  if is_str resourceType "bucket" then
    let bucketData := input!."data" in
    reading bucketData "namespace" (
    let createBucketRequest :=
      JObj [("namespaceName", bucketData!."namespace");
            ("createBucketDetails",
             JObj [("name", bucketData!."name");
                   ("compartmentId", bucketData!."compartmentId");
                   ("storageTier", bucketData!."storageTier" ||| JStr "Standard");
                   ("publicAccessType",
                    bucketData!."publicAccessType" ||| JStr "NoPublicAccess")])] in
    bucketResult ← await SResource "objectStorageClient" "createBucket" createBucketRequest;
    mret (JObj [("success", JBool true);
                ("data", JObj bucketResult);
                ("message",
                 JStr ("Bucket created successfully: " +:+ to_string bucketData!."name"));
                ("operationId", bucketData!."name")]))
  else if is_str resourceType "vcn" then
    let vcnData := input!."data" in
    reading vcnData "compartmentId" (
    displayName ←
      or_else vcnData!."displayName"
        (t ← date_now; mret (JStr ("vcn-" +:+ string_of_Z t)));
    let createVcnRequest :=
      JObj [("createVcnDetails",
             JObj [("compartmentId", vcnData!."compartmentId");
                   ("cidrBlock", vcnData!."cidrBlock");
                   ("displayName", displayName);
                   ("dnsLabel", vcnData!."dnsLabel")])] in
    vcnResult ← await SResource "virtualNetworkClient" "createVcn" createVcnRequest;
    mret (JObj [("success", JBool true);
                ("data", JObj vcnResult);
                ("message",
                 JStr ("VCN created successfully: "
                       +:+ to_string (obj_get "displayName" vcnResult)));
                ("operationId", obj_get "id" vcnResult)]))
  else if is_str resourceType "subnet" then
    let subnetData := input!."data" in
    reading subnetData "compartmentId" (
    displayName ←
      or_else subnetData!."displayName"
        (t ← date_now; mret (JStr ("subnet-" +:+ string_of_Z t)));
    let createSubnetRequest :=
      JObj [("createSubnetDetails",
             JObj [("compartmentId", subnetData!."compartmentId");
                   ("vcnId", subnetData!."vcnId");
                   ("cidrBlock", subnetData!."cidrBlock");
                   ("availabilityDomain", subnetData!."availabilityDomain");
                   ("displayName", displayName);
                   ("routeTableId", subnetData!."routeTableId");
                   ("securityListIds", subnetData!."securityListIds");
                   ("prohibitPublicIpOnVnic", subnetData!."prohibitPublicIpOnVnic")])] in
    subnetResult ← await SResource "virtualNetworkClient" "createSubnet" createSubnetRequest;
    mret (JObj [("success", JBool true);
                ("data", JObj subnetResult);
                ("message",
                 JStr ("Subnet created successfully: "
                       +:+ to_string (obj_get "displayName" subnetResult)));
                ("operationId", obj_get "id" subnetResult)]))
  else if is_str resourceType "internet-gateway" then
    let igwData := input!."data" in
    reading igwData "compartmentId" (
    displayName ←
      or_else igwData!."displayName"
        (t ← date_now; mret (JStr ("igw-" +:+ string_of_Z t)));
    let createIgwRequest :=
      JObj [("createInternetGatewayDetails",
             JObj [("compartmentId", igwData!."compartmentId");
                   ("vcnId", igwData!."vcnId");
                   ("displayName", displayName);
                   ("isEnabled", JBool (not_false igwData!."isEnabled"))])] in
    igwResult ←
      await SResource "virtualNetworkClient" "createInternetGateway" createIgwRequest;
    mret (JObj [("success", JBool true);
                ("data", JObj igwResult);
                ("message",
                 JStr ("Internet Gateway created successfully: "
                       +:+ to_string (obj_get "displayName" igwResult)));
                ("operationId", obj_get "id" igwResult)]))
  else
    Throw (new_Error ("Unsupported resource type: " +:+ to_string resourceType)).

Definition manageObject (input : JVal) : Prog JVal :=
  namespaceName ← or_else input!."namespaceName" getNamespace;
  let action := input!."action" in
  if is_str action "upload-object" then
    if negb (truthy input!."bucketName")
       || negb (truthy input!."objectName")
       || negb (truthy input!."objectContent") then
      Throw (new_Error "Bucket name, object name, and content are required for upload")
    else
      let uploadRequest :=
        JObj [("namespaceName", namespaceName);
              ("bucketName", input!."bucketName");
              ("objectName", input!."objectName");
              ("putObjectBody", input!."objectContent");
              ("contentType", input!."contentType" ||| JStr "application/octet-stream")] in
      _ ← await SVoid "objectStorageClient" "putObject" uploadRequest;
      mret (JObj [("success", JBool true);
                  ("message",
                   JStr ("Object uploaded successfully: "
                         +:+ to_string input!."objectName"));
                  ("operationId", input!."objectName")])
  else if is_str action "delete-object" then
    if negb (truthy input!."bucketName") || negb (truthy input!."objectName") then
      Throw (new_Error "Bucket name and object name are required for deletion")
    else
      let deleteObjectRequest :=
        JObj [("namespaceName", namespaceName);
              ("bucketName", input!."bucketName");
              ("objectName", input!."objectName")] in
      _ ← await SVoid "objectStorageClient" "deleteObject" deleteObjectRequest;
      mret (JObj [("success", JBool true);
                  ("message",
                   JStr ("Object deleted successfully: "
                         +:+ to_string input!."objectName"));
                  ("operationId", input!."objectName")])
  else
    Throw (new_Error ("Unsupported object action: " +:+ to_string action)).

Definition manageResource (input : JVal) : Prog JVal :=
  let action := input!."action" in
  if is_str action "delete-bucket" then
    if negb (truthy input!."bucketName") then
      Throw (new_Error "Bucket name is required for deletion")
    else
      namespaceName ← or_else input!."namespaceName" getNamespace;
      let deleteBucketRequest :=
        JObj [("namespaceName", namespaceName);
              ("bucketName", input!."bucketName")] in
      _ ← await SVoid "objectStorageClient" "deleteBucket" deleteBucketRequest;
      mret (JObj [("success", JBool true);
                  ("message",
                   JStr ("Bucket deleted successfully: "
                         +:+ to_string input!."bucketName"));
                  ("operationId", input!."bucketName")])
  else if is_str action "delete-vcn" then
    if negb (truthy input!."resourceId") then
      Throw (new_Error "VCN ID is required for deletion")
    else
      let deleteVcnRequest := JObj [("vcnId", input!."resourceId")] in
      _ ← await SVoid "virtualNetworkClient" "deleteVcn" deleteVcnRequest;
      mret (JObj [("success", JBool true);
                  ("message",
                   JStr ("VCN deletion initiated: " +:+ to_string input!."resourceId"));
                  ("operationId", input!."resourceId")])
  else
    Throw (new_Error ("Unsupported management action: " +:+ to_string action)).

Definition execute (input : JVal) : Prog JVal :=
  try_catch
    (reading input "action"
       (let action := input!."action" in
        if is_str action "list" then listResources input
        else if is_str action "get" then getResource input
        else if is_str action "create" then createResource input
        else if is_any action ["upload-object"; "download-object"; "delete-object"]
             then manageObject input
        else if is_any action ["delete-bucket"; "delete-vcn"; "update-security-list"]
             then manageResource input
        else Throw (new_Error ("Unsupported action: " +:+ to_string action))))
    (fun error =>
       let errorMessage := handleOCIError error in
       mret (JObj [("success", JBool false); ("message", JStr errorMessage)])).

End Manager.

End StorageNetwork.

(** ** The tool catalog and top-level server ([index.ts]) *)

Module Server.

(** The names advertised by the [ListTools] handler. *)
Definition declared_tools : list string :=
  ["oci-compute"; "oci-storage-network"; "oci-database-analytics";
   "oci-monitoring-security"].

(** [{ content: [{ type: 'text', text }] }] *)
Definition text_content (text : string) : JVal :=
  JObj [("content", JArr [JObj [("type", JStr "text"); ("text", JStr text)]])].

Section Handlers.

Variable is_email : string -> bool.

(** The four managers hold the one client of [getOCIClient()]. *)
Variable ociClient : OCIClientManager.

Definition handleComputeTool (args : JVal) : Prog JVal :=
  try_catch
    (validatedInput ← parse_or_throw Compute.ComputeToolInputSchema args;
     result ← Compute.execute ociClient validatedInput;
     mret (text_content (JSON_stringify result)))
    (fun error =>
       Throw (new_McpError InvalidParams
                ("Invalid compute tool input: " +:+ message_or_unknown error))).

Definition handleStorageNetworkTool (args : JVal) : Prog JVal :=
  try_catch
    (validatedInput ← parse_or_throw StorageNetwork.StorageNetworkToolInputSchema args;
     result ← StorageNetwork.execute ociClient validatedInput;
     mret (text_content (JSON_stringify result)))
    (fun error =>
       Throw (new_McpError InvalidParams
                ("Invalid storage/network tool input: " +:+ message_or_unknown error))).

Definition handleDatabaseAnalyticsTool (args : JVal) : Prog JVal :=
  try_catch
    (validatedInput ←
       parse_or_throw DatabaseAnalytics.DatabaseAnalyticsToolInputSchema args;
     result ← DatabaseAnalytics.execute ociClient validatedInput;
     mret (text_content (JSON_stringify result)))
    (fun error =>
       Throw (new_McpError InvalidParams
                ("Invalid database/analytics tool input: " +:+ message_or_unknown error))).

Definition handleMonitoringSecurityTool (args : JVal) : Prog JVal :=
  try_catch
    (validatedInput ←
       parse_or_throw (MonitoringSecurity.MonitoringSecurityToolInputSchema is_email) args;
     result ← MonitoringSecurity.execute ociClient validatedInput;
     mret (text_content (JSON_stringify result)))
    (fun error =>
       Throw (new_McpError InvalidParams
                ("Invalid monitoring/security tool input: "
                 +:+ message_or_unknown error))).

(** The [CallToolRequestSchema] handler, for [request.params] =
    [{ name, arguments: args }].  Logging to the console is left out. *)
Definition callTool (name : string) (args : JVal) : Prog JVal :=
  try_catch
    (if String.eqb name "oci-compute" then handleComputeTool args
     else if String.eqb name "oci-storage-network" then handleStorageNetworkTool args
     else if String.eqb name "oci-database-analytics" then handleDatabaseAnalyticsTool args
     else if String.eqb name "oci-monitoring-security" then handleMonitoringSecurityTool args
     else Throw (new_McpError MethodNotFound ("Unknown tool: " +:+ name)))
    (fun error =>
       match err_mcp error with
       | Some _ => Throw error
       | None =>
           Throw (new_McpError InternalError
                    ("Tool execution failed: " +:+ message_or_unknown error))
       end).

(** The four domains, to speak of the dispatchers uniformly. *)
Inductive Domain := compute | storage_network | database_analytics | monitoring_security.

Definition tool_name (d : Domain) : string :=
  match d with
  | compute => "oci-compute"
  | storage_network => "oci-storage-network"
  | database_analytics => "oci-database-analytics"
  | monitoring_security => "oci-monitoring-security"
  end.

Definition input_schema (d : Domain) : Schema :=
  match d with
  | compute => Compute.ComputeToolInputSchema
  | storage_network => StorageNetwork.StorageNetworkToolInputSchema
  | database_analytics => DatabaseAnalytics.DatabaseAnalyticsToolInputSchema
  | monitoring_security => MonitoringSecurity.MonitoringSecurityToolInputSchema is_email
  end.

Definition execute (d : Domain) (input : JVal) : Prog JVal :=
  match d with
  | compute => Compute.execute ociClient input
  | storage_network => StorageNetwork.execute ociClient input
  | database_analytics => DatabaseAnalytics.execute ociClient input
  | monitoring_security => MonitoringSecurity.execute ociClient input
  end.

End Handlers.

(** The four managers of the server: each [new ...Manager()] initialises
    its field [ociClient] with [getOCIClient()]. *)
Record OCIMCPServer := {
  computeManager : OCIClientManager;
  storageNetworkManager : OCIClientManager;
  databaseAnalyticsManager : OCIClientManager;
  monitoringSecurityManager : OCIClientManager
}.

(** [new OCIMCPServer()], over the singleton of the client module: the
    outcome and the new value of the singleton.  An exception of a manager's
    constructor leaves the constructor of the server. *)
Definition new_OCIMCPServer (ociClientInstance : option OCIClientManager)
    (env : gmap string string) (host : Host)
  : (JsError + OCIMCPServer) * option OCIClientManager :=
  match getOCIClient ociClientInstance env host JUndef with
  | (inl e, instance) => (inl e, instance)
  | (inr c1, instance) =>
      match getOCIClient instance env host JUndef with
      | (inl e, instance) => (inl e, instance)
      | (inr c2, instance) =>
          match getOCIClient instance env host JUndef with
          | (inl e, instance) => (inl e, instance)
          | (inr c3, instance) =>
              match getOCIClient instance env host JUndef with
              | (inl e, instance) => (inl e, instance)
              | (inr c4, instance) =>
                  (inr {| computeManager := c1;
                          storageNetworkManager := c2;
                          databaseAnalyticsManager := c3;
                          monitoringSecurityManager := c4 |}, instance)
              end
          end
      end
  end.


End Server.

(** ** The reduced single-tool server ([simple-index.ts]) *)

Module SimpleServer.

Definition declared_tools : list string := ["oci-manage"].

Definition requiredEnvVars : list string :=
  ["OCI_TENANCY_ID"; "OCI_USER_ID"; "OCI_KEY_FINGERPRINT"; "OCI_PRIVATE_KEY_PATH";
   "OCI_REGION"].

Section Handlers.

(** [process.env] *)
Variable env : gmap string string.

(** The payload returned while credentials are missing. *)
Definition guidance (missingVars : list string) : JVal :=
  JObj [("success", JBool false);
        ("message",
         JStr ("OCI credentials not configured. Please set the following environment variables: "
               +:+ String.concat ", " missingVars));
        ("help",
         JObj [("setup",
                JStr "Configure OCI authentication by setting environment variables");
               ("variables",
                JObj [("OCI_TENANCY_ID", JStr "Your OCI tenancy OCID");
                      ("OCI_USER_ID", JStr "Your OCI user OCID");
                      ("OCI_KEY_FINGERPRINT", JStr "Your API key fingerprint");
                      ("OCI_PRIVATE_KEY_PATH", JStr "Path to your private key file");
                      ("OCI_REGION",
                       JStr "Your preferred OCI region (e.g., us-ashburn-1)")]);
               ("example",
                JObj [("service", JStr "compute");
                      ("action", JStr "list");
                      ("resourceType", JStr "instances");
                      ("compartmentId", JStr "ocid1.compartment.oc1..aaaaaaaa...")])])].

Definition handleOCIManage (args : JVal) : Prog JVal :=
  reading args "service"
    (if negb (truthy args!."service")
        || negb (truthy args!."action")
        || negb (truthy args!."resourceType") then
       Throw (new_McpError InvalidParams
                "Missing required parameters: service, action, resourceType")
     else
       let missingVars :=
         List.filter (fun varName => negb (truthy (env_get env varName)))
           requiredEnvVars in
       if (0 <? Z.of_nat (length missingVars)) then
         mret (Server.text_content (JSON_stringify (guidance missingVars)))
       else
         let response :=
           JObj [("success", JBool true);
                 ("service", args!."service");
                 ("action", args!."action");
                 ("resourceType", args!."resourceType");
                 ("resourceId", args!."resourceId");
                 ("compartmentId",
                  args!."compartmentId" ||| env_get env "OCI_COMPARTMENT_ID"
                  ||| env_get env "OCI_TENANCY_ID");
                 ("message",
                  JStr ("Would " +:+ to_string args!."action" +:+ " "
                        +:+ to_string args!."resourceType" +:+ " in "
                        +:+ to_string args!."service" +:+ " service"));
                 ("note",
                  JStr "This is a placeholder response. Full OCI integration requires the complete implementation.");
                 ("credentials_configured", JBool true);
                 ("region", env_get env "OCI_REGION")] in
         mret (Server.text_content (JSON_stringify response))).

Definition callTool (name : string) (args : JVal) : Prog JVal :=
  try_catch
    (if String.eqb name "oci-manage" then handleOCIManage args
     else Throw (new_McpError MethodNotFound ("Unknown tool: " +:+ name)))
    (fun error =>
       match err_mcp error with
       | Some _ => Throw error
       | None =>
           Throw (new_McpError InternalError
                    ("Tool execution failed: " +:+ message_or_unknown error))
       end).

End Handlers.

End SimpleServer.

(** * Vocabulary of the specification *)

(** ** Programs that let every rejection through

    [Body P p]: in [p] every rejected call is rethrown at once, and every
    value [p] returns satisfies [P].  The dispatchers' [listResources],
    [getResource], ... are such programs; [execute] wraps them in the one
    [try]/[catch]. *)

Fixpoint Body {A} (P : A -> Prop) (p : Prog A) : Prop :=
  match p with
  | Ret a => P a
  | Throw _ => True
  | Call sh c m req k =>
      (forall e, k (inl e) = Throw e) /\ (forall x, Body P (k (inr x)))
  | DateNow k => forall t, Body P (k t)
  end.

(** What a run of such a program looks like: a normal return means every
    call resolved; a throw is either the program's own, after calls that
    all resolved, or the rejection of its last call. *)
Definition thrown_by (e : JsError) (new : list Entry) : Prop :=
  Forall resolved new \/
  exists init last, new = init ++ [last] /\ Forall resolved init /\ e_error last = Some e.

(** ** Response envelopes *)

Definition succeeded (env : JVal) : Prop := env!."success" = JBool true.

(** The envelope [execute] answers with from its [catch] block. *)
Definition failure (message : string) : JVal :=
  JObj [("success", JBool false); ("message", JStr message)].

(** A list envelope whose [count] is the length of its [data]. *)
Definition counted (env : JVal) : Prop :=
  succeeded env /\
  exists data, env!."data" = JArr data /\ env!."count" = JNum (Z.of_nat (length data)).

(** The [catch] block shared by the four [execute] methods. *)
Definition catch_envelope (error : JsError) : Prog JVal :=
  Ret (failure (handleOCIError error)).

(** [q] is [try { p } catch (error) { ... }] for a body [p] that lets every
    rejection through and returns values satisfying [P] only. *)
Definition guarded (P : JVal -> Prop) (q : Prog JVal) : Prop :=
  exists p, q = try_catch p catch_envelope /\ Body P p.

(** ** Outcomes of a tool call *)

(** The member ["success": false] of a serialized payload. *)
Definition success_false : string :=
  dquote +:+ "success" +:+ dquote +:+ ": false".

(** The call was aborted with the RPC-level error [code]. *)
Definition rpc_error (code : ErrorCode) (res : JsError + JVal) : Prop :=
  exists e, res = inl e /\ err_mcp e = Some code.

Definition tool_of_name (name : string) : option Server.Domain :=
  if String.eqb name "oci-compute" then Some Server.compute
  else if String.eqb name "oci-storage-network" then Some Server.storage_network
  else if String.eqb name "oci-database-analytics" then Some Server.database_analytics
  else if String.eqb name "oci-monitoring-security" then Some Server.monitoring_security
  else None.

(** The three kinds of inbound call: an undeclared tool, a declared tool
    with arguments its input union rejects, a well-formed call. *)
Inductive CallClass :=
| UnknownTool
| InvalidArguments (d : Server.Domain)
| WellFormed (d : Server.Domain) (input : JVal).

Definition classify (is_email : string -> bool) (name : string) (args : JVal)
  : CallClass :=
  match tool_of_name name with
  | None => UnknownTool
  | Some d =>
      match parse (Server.input_schema is_email d) args with
      | None => InvalidArguments d
      | Some input => WellFormed d input
      end
  end.

(** ** A small backend for the examples

    Its state counts the calls made so far.  Call number [fail_at]
    (counting from 0) is rejected with [error]; every other call resolves
    with a fixed response of the expected shape. *)

Definition sample_response (sh : Shape) : Resp sh :=
  match sh with
  | SPage => {| items := [JStr "item-a"; JStr "item-b"]; opcNextPage := JUndef |}
  | SResource => [("id", JStr "ocid1.resource"); ("displayName", JStr "sample")]
  | SObjects => None
  | SValue => "namespace"
  | SVoid => tt
  end.

Definition sample_world (fail_at : option nat) (error : JsError) : World nat :=
  {| respond := fun sh _ _ _ n =>
       (if bool_decide (fail_at = Some n) then inl error else inr (sample_response sh),
        S n);
     now := fun n => (1700000000000, n) |}.

Definition sample_client : OCIClientManager :=
  {| authConfig := JObj [("tenancyId", JStr "ocid1.tenancy"); ("region", JStr "us-ashburn-1")];
     provider := {| provider_tenancyId := JStr "ocid1.tenancy";
                    provider_userId := JStr "ocid1.user";
                    provider_keyFingerprint := JStr "aa:bb";
                    provider_privateKey := "key";
                    provider_region := JStr "us-ashburn-1" |} |}.

(** The rejection [{ statusCode: 404, message: 'NotFound' }]. *)
Definition not_found : JsError :=
  {| err_mcp := None;
     err_isError := true;
     err_statusCode := JNum 404;
     err_code := JUndef;
     err_message := JStr "NotFound";
     err_toString := "Error: NotFound" |}.

(** The handler the router selects for a domain. *)
Definition handler (is_email : string -> bool) (c : OCIClientManager)
    (d : Server.Domain) (args : JVal) : Prog JVal :=
  match d with
  | Server.compute => Server.handleComputeTool c args
  | Server.storage_network => Server.handleStorageNetworkTool c args
  | Server.database_analytics => Server.handleDatabaseAnalyticsTool c args
  | Server.monitoring_security => Server.handleMonitoringSecurityTool is_email c args
  end.

(** ** The error classifier as the specification words it

    "If the error carries a statusCode, the result is
    [OCI API Error ({statusCode}): {message}]; else if it carries a code,
    [OCI Error ({code}): {message}]; else [OCI Error: {message}] using the
    error's message or its string form." *)
Definition classification_as_stated (e : JsError) : string :=
  if negb (is_undefined (err_statusCode e)) then
    "OCI API Error (" +:+ to_string (err_statusCode e) +:+ "): "
    +:+ to_string (err_message e)
  else if negb (is_undefined (err_code e)) then
    "OCI Error (" +:+ to_string (err_code e) +:+ "): " +:+ to_string (err_message e)
  else
    "OCI Error: " +:+ to_string (err_message e ||| JStr (err_toString e)).

(** An HTTP failure without a message: [{ statusCode: 502, message: '' }]. *)
Definition bad_gateway : JsError :=
  {| err_mcp := None;
     err_isError := true;
     err_statusCode := JNum 502;
     err_code := JUndef;
     err_message := JStr EmptyString;
     err_toString := "Error" |}.

(** The text of an error's message, or ['Unknown error'] when the message
    is empty or absent. *)
Definition message_text (e : JsError) : string :=
  if truthy (err_message e) then to_string (err_message e) else "Unknown error".

(** [word] occurs in [text]. *)
Definition mentions (text word : string) : bool :=
  match String.index 0 word text with
  | Some _ => true
  | None => false
  end.

(** ** Requests the specification spells out *)

(** The request of [createAutonomousDatabase] for a payload [data] that
    supplies none of the optional fields. *)
Definition createAdbRequest_defaults (data : JVal) : JVal :=
  JObj [("createAutonomousDatabaseDetails",
         JObj [("compartmentId", data!."compartmentId");
               ("dbName", data!."dbName");
               ("cpuCoreCount", data!."cpuCoreCount");
               ("dataStorageSizeInTBs", data!."dataStorageSizeInTBs");
               ("adminPassword", data!."adminPassword");
               ("displayName", data!."dbName");
               ("dbVersion", JUndef);
               ("dbWorkload", JStr "OLTP");
               ("isAutoScalingEnabled", JBool false);
               ("isFreeTier", JBool false);
               ("licenseModel", JStr "LICENSE_INCLUDED");
               ("subnetId", JUndef);
               ("nsgIds", JUndef)])].

(** The call a trace entry records. *)
Definition call_of (e : Entry) : string * string * JVal :=
  (e_client e, e_method e, e_request e).

(** The environment of a host that only sets a region. *)
Definition region_only : gmap string string := {[ "OCI_REGION" := "us-ashburn-1" ]}.

(** The two requests of a network security group creation. *)
Definition createNsgRequest (data : JVal) : JVal :=
  JObj [("createNetworkSecurityGroupDetails",
         JObj [("compartmentId", data!."compartmentId");
               ("vcnId", data!."vcnId");
               ("displayName", data!."displayName")])].

Definition addRuleRequest (id rule : JVal) : JVal :=
  JObj [("networkSecurityGroupId", id);
        ("addNetworkSecurityGroupSecurityRulesDetails",
         JObj [("securityRules", JArr [rule])])].

Definition create_nsg_call (data : JVal) : string * string * JVal :=
  ("virtualNetworkClient", "createNetworkSecurityGroup", createNsgRequest data).

Definition add_rule_call (id rule : JVal) : string * string * JVal :=
  ("virtualNetworkClient", "addNetworkSecurityGroupSecurityRules",
   addRuleRequest id rule).

(** A creation payload with three inline rules. *)
Definition ingress (protocol : string) : JVal :=
  JObj [("direction", JStr "INGRESS"); ("protocol", JStr protocol)].

Definition sample_nsg_data : JVal :=
  JObj [("compartmentId", JStr "ocid1.compartment");
        ("vcnId", JStr "ocid1.vcn");
        ("displayName", JStr "web");
        ("securityRules", JArr [ingress "6"; ingress "17"; ingress "1"])].

Definition sample_nsg_input : JVal :=
  JObj [("action", JStr "create");
        ("resourceType", JStr "network-security-group");
        ("data", sample_nsg_data)].

(** ** Pagination *)

(** The pages fetched by the calls of a trace, oldest first. *)
Definition pages_of (new : list Entry) : list Page := omap e_page new.

(** The items of a sequence of pages. *)
Definition items_of (pages : list Page) : list JVal := concat (map items pages).

(** Every page the list operation [client.method] can answer with holds at
    least one item. *)
Definition nonempty_pages {W} (w : World W) (client method : string) : Prop :=
  forall request st page st',
    respond w SPage client method request st = (inr page, st') ->
    items page <> [].

(** A backend whose list operations answer with an empty page and a
    next-page token, forever. *)
Definition empty_pages_world : World unit :=
  {| respond := fun sh _ _ _ st =>
       (match sh as s return JsError + Resp s with
        | SPage => inr {| items := []; opcNextPage := JStr "next" |}
        | SResource => inr (sample_response SResource)
        | SObjects => inr (sample_response SObjects)
        | SValue => inr (sample_response SValue)
        | SVoid => inr (sample_response SVoid)
        end, st);
     now := fun st => (0, st) |}.

(** A backend whose list operations answer with a page of one item and a
    next-page token, forever. *)
Definition endless_pages_world : World unit :=
  {| respond := fun sh _ _ _ st =>
       (match sh as s return JsError + Resp s with
        | SPage => inr {| items := [JStr "item"]; opcNextPage := JStr "next" |}
        | SResource => inr (sample_response SResource)
        | SObjects => inr (sample_response SObjects)
        | SValue => inr (sample_response SValue)
        | SVoid => inr (sample_response SVoid)
        end, st);
     now := fun st => (0, st) |}.

(** A backend with three pages of one item each: the state is the number
    of the next page; the first two pages carry a next-page token. *)
Definition three_pages_world : World nat :=
  {| respond := fun sh _ _ _ n =>
       (match sh as s return JsError + Resp s with
        | SPage =>
            inr {| items := [JNum (Z.of_nat n)];
                   opcNextPage := if Nat.ltb n 2
                                  then JStr ("page-" +:+ string_of_Z (Z.of_nat (S n)))
                                  else JUndef |}
        | SResource => inr (sample_response SResource)
        | SObjects => inr (sample_response SObjects)
        | SValue => inr (sample_response SValue)
        | SVoid => inr (sample_response SVoid)
        end, S n);
     now := fun n => (0, n) |}.

(** * Vocabulary of the further properties *)

(** ** Validation *)

(** The members a [z.object] schema keeps: the loop of [parse] over the
    shape, as a function of its own. *)
Fixpoint parse_shape (shape : list (string * Schema)) (fields : JObject)
  : option JObject :=
  match shape with
  | [] => Some []
  | (k, sk) :: rest =>
      match parse sk (obj_get k fields), parse_shape rest fields with
      | Some x, Some rest' =>
          Some (match x with
                | JUndef => if obj_has k fields then (k, x) :: rest' else rest'
                | _ => (k, x) :: rest'
                end)
      | _, _ => None
      end
  end.

(** [k] is one of the keys a shape declares. *)
Definition declares (shape : list (string * Schema)) (k : string) : bool :=
  existsb (String.eqb k) (map fst shape).

(** [undefined] or a string: the values [z.string().optional()] accepts. *)
Definition optional_string (v : JVal) : Prop :=
  v = JUndef \/ exists s, v = JStr s.

(** A string of at least one character: the values [z.string().min(1)]
    accepts. *)
Definition nonempty_string (v : JVal) : Prop :=
  exists s, v = JStr s /\ s <> EmptyString.

(** ** The backend calls of a program *)

(** Every call [p] can perform, whatever the backend answers, satisfies
    [Q]. *)
Fixpoint Calls {A} (Q : string -> string -> JVal -> Prop) (p : Prog A) : Prop :=
  match p with
  | Ret _ => True
  | Throw _ => True
  | Call sh c m req k => Q c m req /\ forall r, Calls Q (k r)
  | DateNow k => forall t, Calls Q (k t)
  end.

(** [p] performs at most [n] calls, whatever the backend answers. *)
Fixpoint AtMost {A} (n : nat) (p : Prog A) : Prop :=
  match p with
  | Ret _ => True
  | Throw _ => True
  | Call sh c m req k =>
      match n with
      | O => False
      | S n' => forall r, AtMost n' (k r)
      end
  | DateNow k => forall t, AtMost n (k t)
  end.

(** The SDK methods that only read: [list...], [get...] and
    [summarizeMetricsData]. *)
Definition read_only (method : string) : bool :=
  String.prefix "list" method || String.prefix "get" method
  || String.prefix "summarize" method.

(** The resource a call resolved with. *)
Definition e_resource (e : Entry) : option JObject :=
  match e with
  | {| e_shape := SResource; e_settled := inr r |} => Some r
  | _ => None
  end.

(** The largest number of backend calls one [execute] can perform. *)
Definition call_bound (d : Server.Domain) (input : JVal) : nat :=
  match d with
  | Server.compute => 1
  | Server.database_analytics => 1
  | Server.storage_network => 2
  | Server.monitoring_security =>
      S (length (elements input!."data"!."securityRules"))
  end.

(** ** Declared but not implemented

    The management verbs an input schema accepts and [execute] routes to a
    [switch] that has no [case] for them. *)
Definition unimplemented_actions (d : Server.Domain) : list string :=
  match d with
  | Server.compute => []
  | Server.storage_network => ["update-security-list"]
  | Server.database_analytics =>
      ["start-database"; "stop-database"; "restart-database"; "restore-database"]
  | Server.monitoring_security =>
      ["remove-security-rule"; "update-secret"; "rotate-secret"; "attach-policy";
       "detach-policy"]
  end.

(** The resource types the schema of [action] accepts and the [switch] of
    that action has no [case] for. *)
Definition unsupported_types (d : Server.Domain) (action : string) : list string :=
  match d with
  | Server.compute => []
  | Server.storage_network =>
      if String.eqb action "get"
      then ["route-table"; "internet-gateway"; "nat-gateway"; "load-balancer"]
      else if String.eqb action "create"
      then ["security-list"; "route-table"; "nat-gateway"]
      else []
  | Server.database_analytics =>
      if String.eqb action "list" then ["data-safe-targets"; "analytics-instances"]
      else if String.eqb action "get" then ["data-safe-target"; "analytics-instance"]
      else []
  | Server.monitoring_security =>
      if String.eqb action "list"
      then ["notifications"; "events"; "logs"; "vault-secrets"; "certificates"]
      else if String.eqb action "get"
      then ["metric"; "notification-topic"; "log"; "vault"; "secret"; "certificate"]
      else if String.eqb action "create"
      then ["notification-topic"; "vault"; "secret"]
      else []
  end.

(** A smallest call of [action] on [resourceType]. *)
Definition bare_call (action resourceType : string) : JVal :=
  JObj [("action", JStr action); ("resourceType", JStr resourceType);
        ("resourceId", JStr "ocid1.resource")].

(** ** Pagination requests *)

(** The request of the call that follows a page with token [token]. *)
Definition with_page (request token : JVal) : JVal :=
  JObj (obj_spread (fields_of request) [("page", token)]).


(** A creation payload that the storage and the monitoring creation
    unions accept (as a VCN, as a notification topic). *)
Definition sample_payload : JVal :=
  JObj [("compartmentId", JStr "ocid1.compartment");
        ("name", JStr "sample");
        ("cidrBlock", JStr "10.0.0.0/16")].

(** A smallest call of [action] on [resourceType] that passes the input
    union of a tool. *)
Definition sample_call (action resourceType : string) : JVal :=
  JObj [("action", JStr action); ("resourceType", JStr resourceType);
        ("resourceId", JStr "ocid1.resource"); ("data", sample_payload)].

(** [objectStorageClient.getNamespace({})] *)
Definition namespace_call : string * string * JVal :=
  ("objectStorageClient", "getNamespace", JObj []).


(** ** Requests of the list actions *)

(** A list request of [input] carries the defaulted compartment and page
    size wherever it carries a compartment and a page size. *)
Definition defaulted (c : OCIClientManager) (input request : JVal) : Prop :=
  (has_prop request "compartmentId" = true ->
   request!."compartmentId" = input!."compartmentId" ||| getDefaultCompartmentId c) /\
  (has_prop request "limit" = true ->
   request!."limit" = input!."limit" ||| JNum 50).

(** The calls of a run. *)
Definition calls_of {A W} (r : (JsError + A) * W * list Entry) : list Entry := r.2.

(** The outcome of a run. *)
Definition outcome_of {A W} (r : (JsError + A) * W * list Entry) : JsError + A := r.1.1.


(** ** Creation calls for the examples *)

(** A policy with one statement. *)
Definition sample_policy_args : JVal :=
  JObj [("action", JStr "create");
        ("resourceType", JStr "policy");
        ("data",
         JObj [("compartmentId", JStr "ocid1.compartment");
               ("name", JStr "admins");
               ("description", JStr "administrators");
               ("statements",
                JArr [JStr "Allow group Admins to manage all-resources in tenancy"])])].

(** A subnet of a VCN. *)
Definition sample_subnet_args : JVal :=
  JObj [("action", JStr "create");
        ("resourceType", JStr "subnet");
        ("data",
         JObj [("compartmentId", JStr "ocid1.compartment");
               ("vcnId", JStr "ocid1.vcn");
               ("cidrBlock", JStr "10.0.1.0/24");
               ("displayName", JStr "web")])].


(** ** Client configuration *)

(** The object [initializeAuthConfig] validates when no configuration is
    passed in: the six environment values, the unset ones left out. *)
Definition env_config (env : gmap string string) : JObject :=
  List.filter (fun kv => negb (is_undefined kv.2))
    [("tenancyId", env_get env "OCI_TENANCY_ID");
     ("userId", env_get env "OCI_USER_ID");
     ("keyFingerprint", env_get env "OCI_KEY_FINGERPRINT");
     ("privateKeyPath", env_get env "OCI_PRIVATE_KEY_PATH");
     ("region", env_get env "OCI_REGION");
     ("compartmentId", env_get env "OCI_COMPARTMENT_ID")].

(** The variables are set to non-empty values. *)
Definition configured (env : gmap string string) : Prop :=
  Forall (fun var => truthy (env_get env var) = true) SimpleServer.requiredEnvVars.

(** A host with the five required variables. *)
Definition sample_env : gmap string string :=
  list_to_map [("OCI_TENANCY_ID", "ocid1.tenancy"); ("OCI_USER_ID", "ocid1.user");
               ("OCI_KEY_FINGERPRINT", "aa:bb"); ("OCI_PRIVATE_KEY_PATH", "/key.pem");
               ("OCI_REGION", "us-ashburn-1")].

(** A file system holding the key file only. *)
Definition sample_fs (path : string) : JsError + string :=
  if String.eqb path "/key.pem" then inr "PRIVATE KEY"
  else inl (new_Error ("ENOENT: no such file or directory, open '" +:+ path +:+ "'")).

(** A host with that file system whose SDK constructs every provider and
    client. *)
Definition sample_host : Host :=
  {| readFileSync := sample_fs;
     new_provider := fun _ => None;
     new_client := fun _ _ => None |}.

(** A host whose file system holds a key the SDK refuses. *)
Definition unusable_key_host : Host :=
  {| readFileSync := sample_fs;
     new_provider := fun _ => Some (new_Error "Invalid private key");
     new_client := fun _ _ => None |}.

(** The provider [initializeAuthConfig] constructs from the environment
    and the key it has read. *)
Definition provider_of (env : gmap string string) (key : string) : Provider :=
  {| provider_tenancyId := env_get env "OCI_TENANCY_ID";
     provider_userId := env_get env "OCI_USER_ID";
     provider_keyFingerprint := env_get env "OCI_KEY_FINGERPRINT";
     provider_privateKey := key;
     provider_region := env_get env "OCI_REGION" |}.

(** The SDK constructs the provider and every client on it. *)
Definition sdk_accepts (host : Host) (p : Provider) : Prop :=
  new_provider host p = None /\
  Forall (fun class => new_client host class p = None) client_classes.


(** ** Requests refused before any backend call

    The checks the dispatchers make on a validated input before they call
    the backend, with the message of the error they throw ([databases] and
    [attach-volume], stated on their own, apart). *)
Inductive Refused (input : JVal) : Server.Domain -> string -> Prop :=
| refused_db_homes :
    input!."action" = JStr "list" ->
    input!."resourceType" = JStr "db-homes" ->
    truthy input!."dbSystemId" = false ->
    Refused input Server.database_analytics "dbSystemId is required for listing DB homes"
| refused_db_nodes :
    input!."action" = JStr "list" ->
    input!."resourceType" = JStr "db-nodes" ->
    truthy input!."dbSystemId" = false ->
    Refused input Server.database_analytics "dbSystemId is required for listing DB nodes"
| refused_scale :
    input!."action" = JStr "scale-autonomous-db" ->
    truthy input!."cpuCoreCount" = false ->
    truthy input!."dataStorageSizeInTBs" = false ->
    Refused input Server.database_analytics
      "Either cpuCoreCount or dataStorageSizeInTBs is required for scaling"
| refused_clone :
    input!."action" = JStr "clone-database" ->
    is_str input!."resourceType" "autonomous-database" = false ->
    Refused input Server.database_analytics
      "Clone operation only supported for autonomous databases"
| refused_metrics :
    input!."action" = JStr "list" ->
    input!."resourceType" = JStr "metrics" ->
    truthy input!."metricNamespace" = false ->
    Refused input Server.monitoring_security
      "Metric namespace is required for listing metrics"
| refused_metric_data :
    input!."action" = JStr "list" ->
    input!."resourceType" = JStr "metric-data" ->
    truthy input!."metricNamespace" && truthy input!."startTime"
    && truthy input!."endTime" = false ->
    Refused input Server.monitoring_security
      "Metric namespace, start time, and end time are required for metric data"
| refused_add_rule :
    input!."action" = JStr "add-security-rule" ->
    truthy input!."securityRule" = false ->
    Refused input Server.monitoring_security
      "Security rule is required for adding security rule"
| refused_add_user :
    input!."action" = JStr "add-user-to-group" ->
    truthy input!."userId" && truthy input!."groupId" = false ->
    Refused input Server.monitoring_security
      "Both userId and groupId are required for adding user to group"
| refused_objects :
    input!."action" = JStr "list" ->
    input!."resourceType" = JStr "objects" ->
    truthy input!."bucketName" = false ->
    Refused input Server.storage_network "Bucket name is required for listing objects"
| refused_object :
    input!."action" = JStr "get" ->
    input!."resourceType" = JStr "object" ->
    truthy input!."bucketName" && truthy input!."objectName" = false ->
    Refused input Server.storage_network "Bucket name and object name are required"
| refused_delete_bucket :
    input!."action" = JStr "delete-bucket" ->
    truthy input!."bucketName" = false ->
    Refused input Server.storage_network "Bucket name is required for deletion"
| refused_delete_vcn :
    input!."action" = JStr "delete-vcn" ->
    truthy input!."resourceId" = false ->
    Refused input Server.storage_network "VCN ID is required for deletion".


(** ** The labels of the outer [switch]

    The [case] labels of [execute], per dispatcher. *)
Definition routed_actions (d : Server.Domain) : list string :=
  "list" :: "get" :: "create" ::
  match d with
  | Server.compute =>
      ["start"; "stop"; "reboot"; "terminate"; "attach-volume"; "detach-volume"]
  | Server.storage_network =>
      ["upload-object"; "download-object"; "delete-object"; "delete-bucket";
       "delete-vcn"; "update-security-list"]
  | Server.database_analytics =>
      ["start-database"; "stop-database"; "restart-database"; "start-autonomous-db";
       "stop-autonomous-db"; "scale-autonomous-db"; "restore-database";
       "clone-database"; "delete-backup"]
  | Server.monitoring_security =>
      ["enable-alarm"; "disable-alarm"; "update-alarm"; "delete-alarm";
       "add-security-rule"; "remove-security-rule"; "update-secret"; "rotate-secret";
       "add-user-to-group"; "remove-user-from-group"; "attach-policy"; "detach-policy"]
  end.


(** ** Generated display names

    The creation branches that name a resource after the clock when the
    payload gives no name: the SDK method, the member of the request that
    holds the details, and the prefix of the generated name. *)
Definition generated_name (d : Server.Domain) (resourceType : string)
  : option (string * string * string) :=
  match d with
  | Server.compute =>
      if String.eqb resourceType "instance"
      then Some ("launchInstance", "launchInstanceDetails", "instance-")
      else if String.eqb resourceType "volume"
      then Some ("createVolume", "createVolumeDetails", "volume-")
      else None
  | Server.storage_network =>
      if String.eqb resourceType "vcn"
      then Some ("createVcn", "createVcnDetails", "vcn-")
      else if String.eqb resourceType "subnet"
      then Some ("createSubnet", "createSubnetDetails", "subnet-")
      else if String.eqb resourceType "internet-gateway"
      then Some ("createInternetGateway", "createInternetGatewayDetails", "igw-")
      else None
  | _ => None
  end.


(** The two properties of a call that the list and get actions are
    checked for. *)
Definition reads_only : string -> string -> JVal -> Prop :=
  fun _ method _ => read_only method = true.

Definition defaults_of (c : OCIClientManager) (input : JVal)
  : string -> string -> JVal -> Prop :=
  fun _ _ request => defaulted c input request.

(** * Properties *)

(** Membership in a list that is written out. *)
Ltac in_list := repeat first [apply list_elem_of_here | apply list_elem_of_further].

(** ** The embedding at work *)

Example parse_strips_undeclared_keys :
  parse Compute.ComputeToolInputSchema
    (JObj [("resourceId", JStr "ocid1.instance"); ("action", JStr "get");
           ("resourceType", JStr "instance"); ("verbose", JBool true)])
  = Some (JObj [("action", JStr "get"); ("resourceType", JStr "instance");
                ("resourceId", JStr "ocid1.instance")]).
Proof. reflexivity. Qed.

Example parse_rejects_unknown_action :
  parse Compute.ComputeToolInputSchema
    (JObj [("action", JStr "resize"); ("resourceType", JStr "instance");
           ("resourceId", JStr "ocid1.instance")])
  = None.
Proof. reflexivity. Qed.

Example parse_rejects_short_password :
  parse DatabaseAnalytics.DatabaseAnalyticsToolInputSchema
    (JObj [("action", JStr "create"); ("resourceType", JStr "autonomous-database");
           ("data", JObj [("compartmentId", JStr "c1"); ("dbName", JStr "db1");
                          ("cpuCoreCount", JNum 2); ("dataStorageSizeInTBs", JNum 1);
                          ("adminPassword", JStr "short")])])
  = None.
Proof. reflexivity. Qed.

Example handleOCIError_not_found :
  handleOCIError not_found = "OCI API Error (404): NotFound".
Proof. reflexivity. Qed.

Example handleOCIError_code :
  handleOCIError
    {| err_mcp := None; err_isError := true; err_statusCode := JUndef;
       err_code := JStr "ENOTFOUND"; err_message := JStr "getaddrinfo";
       err_toString := "Error: getaddrinfo" |}
  = "OCI Error (ENOTFOUND): getaddrinfo".
Proof. reflexivity. Qed.

Example handleOCIError_plain :
  handleOCIError (new_Error "Unsupported action: resize")
  = "OCI Error: Unsupported action: resize".
Proof. reflexivity. Qed.

Example callTool_unknown_tool :
  (run (sample_world None not_found)
     (Server.callTool (fun _ => true) sample_client "oci-billing" (JObj [])) 0%nat []).1.1
  = inl (new_McpError MethodNotFound "Unknown tool: oci-billing").
Proof. reflexivity. Qed.

(** The three kinds of call all occur. *)
Example call_classes_inhabited :
  classify (fun _ => true) "oci-billing" (JObj []) = UnknownTool /\
  classify (fun _ => true) "oci-compute" (JObj [("action", JStr "list")])
  = InvalidArguments Server.compute /\
  classify (fun _ => true) "oci-compute"
    (JObj [("action", JStr "list"); ("resourceType", JStr "shapes")])
  = WellFormed Server.compute
      (JObj [("action", JStr "list"); ("resourceType", JStr "shapes")]).
Proof. by repeat split. Qed.

(** A string of one two-byte character has length 1, a string of one
    four-byte character length 2 (a surrogate pair); a required string
    counts code units, so both pass [min(1)]. *)
Example string_length_counts_code_units :
  let two_bytes := String (ascii_of_nat 195) (String (ascii_of_nat 169) EmptyString) in
  let four_bytes :=
    String (ascii_of_nat 240)
      (String (ascii_of_nat 159)
         (String (ascii_of_nat 152) (String (ascii_of_nat 128) EmptyString))) in
  string_length two_bytes = 1%nat /\ String.length two_bytes = 2%nat /\
  string_length four_bytes = 2%nat /\ String.length four_bytes = 4%nat /\
  string_length "ocid1.tenancy" = 13%nat /\
  parse (zstring_min 1) (JStr two_bytes) = Some (JStr two_bytes) /\
  parse (zstring_min 1) (JStr EmptyString) = None.
Proof. vm_compute. by repeat split. Qed.

Example getAllPages_follows_tokens :
  let '(res, _, new) :=
    run three_pages_world
      (getAllPages 10 (await SPage "computeClient" "listInstances")
         (JObj [("compartmentId", JStr "c1")]) default_maxItems) 0%nat [] in
  res = inr (Some [JNum 0; JNum 1; JNum 2]) /\
  map e_request new
  = [JObj [("compartmentId", JStr "c1")];
     JObj [("compartmentId", JStr "c1"); ("page", JStr "page-1")];
     JObj [("compartmentId", JStr "c1"); ("page", JStr "page-2")]].
Proof. vm_compute. by split. Qed.

Example getAllPages_stops_at_cap :
  let '(res, _, new) :=
    run three_pages_world
      (getAllPages 10 (await SPage "computeClient" "listInstances")
         (JObj [("compartmentId", JStr "c1")]) (Finite (inject_Z 2))) 0%nat [] in
  res = inr (Some [JNum 0; JNum 1]) /\ length new = 2%nat.
Proof. vm_compute. by split. Qed.

(** ** Running programs *)

Section RunFacts.

Context {W : Type} (w : World W).

Lemma run_bind {A B} (p : Prog A) (f : A -> Prog B) st tr :
  run w (bind p f) st tr =
  match run w p st tr with
  | (inr a, st', tr') => run w (f a) st' tr'
  | (inl e, st', tr') => (inl e, st', tr')
  end.
Proof.
  revert st tr. induction p as [a|e|sh c m req k IH|k IH]; intros st tr; simpl.
  - reflexivity.
  - reflexivity.
  - destruct (respond w sh c m req st) as [r st1]. apply IH.
  - destruct (now w st) as [t st1]. apply IH.
Qed.

Lemma run_try_catch {A} (p : Prog A) (h : JsError -> Prog A) st tr :
  run w (try_catch p h) st tr =
  match run w p st tr with
  | (inr a, st', tr') => (inr a, st', tr')
  | (inl e, st', tr') => run w (h e) st' tr'
  end.
Proof.
  revert st tr. induction p as [a|e|sh c m req k IH|k IH]; intros st tr; simpl.
  - reflexivity.
  - reflexivity.
  - destruct (respond w sh c m req st) as [r st1]. apply IH.
  - destruct (now w st) as [t st1]. apply IH.
Qed.

(** The trace only grows, and a run does not depend on the calls made
    before it. *)
Lemma run_frame {A} (p : Prog A) st tr :
  run w p st tr =
  (let '(r, st', new) := run w p st [] in (r, st', tr ++ new)).
Proof.
  revert st tr. induction p as [a|e|sh c m req k IH|k IH]; intros st tr; simpl.
  - by rewrite app_nil_r.
  - by rewrite app_nil_r.
  - destruct (respond w sh c m req st) as [r st1].
    rewrite IH. rewrite (IH r st1 [_]).
    destruct (run w (k r) st1 []) as [[r' st'] new].
    by rewrite <- app_assoc.
  - destruct (now w st) as [t st1]. apply IH.
Qed.

End RunFacts.

(** ** Programs that let every rejection through *)

Lemma Body_bind {A B} (Q : A -> Prop) (P : B -> Prop) (p : Prog A) (f : A -> Prog B) :
  Body Q p -> (forall a, Q a -> Body P (f a)) -> Body P (bind p f).
Proof.
  intros Hp Hf. induction p as [a|e|sh c m req k IH|k IH]; simpl in *.
  - by apply Hf.
  - exact I.
  - destruct Hp as [Hrej Hres]. split.
    + intros e. by rewrite Hrej.
    + intros x. by apply IH.
  - intros t. by apply IH.
Qed.

Lemma Body_weaken {A} (P Q : A -> Prop) (p : Prog A) :
  (forall a, P a -> Q a) -> Body P p -> Body Q p.
Proof.
  intros HPQ. induction p as [a|e|sh c m req k IH|k IH]; simpl.
  - apply HPQ.
  - done.
  - intros [Hrej Hres]. split; [done|]. intros x. by apply IH.
  - intros H t. by apply IH.
Qed.

Lemma Body_await sh c m req : Body (fun _ => True) (await sh c m req).
Proof. simpl. split; [reflexivity | done]. Qed.

Lemma Body_for_of {X} (xs : list X) (body : X -> Prog unit) :
  (forall x, Body (fun _ => True) (body x)) ->
  Body (fun _ => True) (for_of xs body).
Proof.
  intros Hb. induction xs as [|x xs IH]; simpl; [done|].
  eapply Body_bind; [apply Hb | intros _ _; exact IH].
Qed.

Lemma Body_run {W A} (w : World W) (P : A -> Prop) (p : Prog A) st res st' new :
  Body P p ->
  run w p st [] = (res, st', new) ->
  match res with
  | inr a => P a /\ Forall resolved new
  | inl e => thrown_by e new
  end.
Proof.
  revert st new. induction p as [a|e|sh c m req k IH|k IH]; intros st new HB Hrun;
    simpl in *.
  - inversion Hrun; subst. by split.
  - inversion Hrun; subst. by left.
  - destruct HB as [Hrej Hres].
    destruct (respond w sh c m req st) as [[err|x] st1] eqn:Hresp.
    + rewrite Hrej in Hrun. simpl in Hrun. inversion Hrun; subst.
      right. exists [], (entry_of (sh:=sh) c m req (inl err)). by repeat split.
    + rewrite run_frame in Hrun.
      destruct (run w (k (inr x)) st1 []) as [[r' st''] new'] eqn:Hk.
      inversion Hrun; subst.
      specialize (IH (inr x) st1 new' (Hres x) Hk).
      assert (Hok : resolved (entry_of (sh:=sh) c m req (inr x))) by reflexivity.
      destruct res as [e|a].
      * destruct IH as [Hall|(init & last & -> & Hinit & Hlast)].
        -- left. by constructor.
        -- right. exists (entry_of (sh:=sh) c m req (inr x) :: init), last.
           repeat split; [|done]. by constructor.
      * destruct IH as [HP Hall]. split; [done|]. by constructor.
  - destruct (now w st) as [t st1]. by eapply IH.
Qed.

(** ** The bodies of the four dispatchers *)

(** A value with a defined property is an object: reading it does not
    throw. *)
Lemma reading_prop {A} (v : JVal) (k k' : string) (p : Prog A) :
  v!.k' <> JUndef -> reading v k p = p.
Proof. by destruct v. Qed.

Ltac body_unfold :=
  cbv beta zeta delta
    [mbind mret Prog_bind Prog_ret await or_else date_now reading
     StorageNetwork.getNamespace];
  cbn [bind].

Ltac body_step :=
  lazymatch goal with
  | |- Body _ (if ?b then _ else _) => destruct b
  | |- Body _ (bind (if ?b then _ else _) _) => destruct b; cbn [bind]
  | |- Body _ (bind (for_of _ _) _) =>
      eapply Body_bind; [apply Body_for_of; intros ? | intros ? _; cbn [bind]]
  | |- Body _ (Call _ _ _ _ _) =>
      split; [intros ?; reflexivity | intros ?; cbn [bind]]
  | |- Body _ (DateNow _) => intros ?; cbn [bind]
  | |- Body _ (Throw _) => exact I
  end.

Lemma succeeded_intro fields :
  obj_get "success" fields = JBool true -> succeeded (JObj fields).
Proof. done. Qed.

Lemma counted_intro xs rest :
  counted (JObj (("success", JBool true) :: ("data", JArr xs)
                 :: ("count", js_length xs) :: rest)).
Proof. split; [reflexivity|]. exists xs. by split. Qed.

Lemma counted_objects objects rest :
  counted (JObj (("success", JBool true)
                 :: ("data", StorageNetwork.objects_value objects ||| JArr [])
                 :: ("count", StorageNetwork.objects_length objects ||| JNum 0)
                 :: rest)).
Proof.
  split; [reflexivity|]. destruct objects as [[|x xs]|].
  - exists []. by split.
  - exists (x :: xs). by split.
  - exists []. by split.
Qed.

Ltac body_done :=
  first [ exact I
        | apply counted_intro
        | apply counted_objects
        | apply succeeded_intro; reflexivity ].

Ltac body_auto := body_unfold; repeat body_step; body_done.

Section Bodies.

Variable c : OCIClientManager.
Variable input : JVal.

Lemma DatabaseAnalytics_listResources_body :
  Body counted (DatabaseAnalytics.listResources c input).
Proof. unfold DatabaseAnalytics.listResources. body_auto. Qed.

Lemma DatabaseAnalytics_getResource_body :
  Body succeeded (DatabaseAnalytics.getResource input).
Proof. unfold DatabaseAnalytics.getResource. body_auto. Qed.

Lemma DatabaseAnalytics_createResource_body :
  Body succeeded (DatabaseAnalytics.createResource input).
Proof. unfold DatabaseAnalytics.createResource. body_auto. Qed.

Lemma DatabaseAnalytics_manageResource_body :
  Body succeeded (DatabaseAnalytics.manageResource c input).
Proof. unfold DatabaseAnalytics.manageResource. body_auto. Qed.

Lemma Compute_listResources_body :
  Body counted (Compute.listResources c input).
Proof. unfold Compute.listResources. body_auto. Qed.

Lemma Compute_getResource_body :
  Body succeeded (Compute.getResource input).
Proof. unfold Compute.getResource. body_auto. Qed.

Lemma Compute_createResource_body :
  Body succeeded (Compute.createResource input).
Proof. unfold Compute.createResource. body_auto. Qed.

Lemma Compute_manageInstance_body :
  Body succeeded (Compute.manageInstance input).
Proof. unfold Compute.manageInstance. body_auto. Qed.

Lemma Compute_manageVolume_body :
  Body succeeded (Compute.manageVolume input).
Proof. unfold Compute.manageVolume. body_auto. Qed.

Lemma MonitoringSecurity_listResources_body :
  Body counted (MonitoringSecurity.listResources c input).
Proof. unfold MonitoringSecurity.listResources. body_auto. Qed.

Lemma MonitoringSecurity_getResource_body :
  Body succeeded (MonitoringSecurity.getResource input).
Proof. unfold MonitoringSecurity.getResource. body_auto. Qed.

Lemma MonitoringSecurity_createResource_body :
  Body succeeded (MonitoringSecurity.createResource input).
Proof. unfold MonitoringSecurity.createResource. body_auto. Qed.

Lemma MonitoringSecurity_manageResource_body :
  Body succeeded (MonitoringSecurity.manageResource input).
Proof. unfold MonitoringSecurity.manageResource. body_auto. Qed.

Lemma StorageNetwork_listResources_body :
  Body counted (StorageNetwork.listResources c input).
Proof. unfold StorageNetwork.listResources. body_auto. Qed.

Lemma StorageNetwork_getResource_body :
  Body succeeded (StorageNetwork.getResource input).
Proof. unfold StorageNetwork.getResource. body_auto. Qed.

Lemma StorageNetwork_createResource_body :
  Body succeeded (StorageNetwork.createResource input).
Proof. unfold StorageNetwork.createResource. body_auto. Qed.

Lemma StorageNetwork_manageObject_body :
  Body succeeded (StorageNetwork.manageObject input).
Proof. unfold StorageNetwork.manageObject. body_auto. Qed.

Lemma StorageNetwork_manageResource_body :
  Body succeeded (StorageNetwork.manageResource input).
Proof. unfold StorageNetwork.manageResource. body_auto. Qed.

End Bodies.

(** ** The [execute] methods *)

Lemma thrown_by_rejected e new entry e' :
  thrown_by e new -> entry ∈ new -> e_error entry = Some e' -> e' = e.
Proof.
  intros [Hall|(init & last & -> & Hinit & Hlast)] Hin Herr.
  - rewrite Forall_forall in Hall. specialize (Hall _ Hin).
    unfold resolved in Hall. congruence.
  - apply elem_of_app in Hin as [Hin|Hin].
    + rewrite Forall_forall in Hinit. specialize (Hinit _ Hin).
      unfold resolved in Hinit. congruence.
    + apply list_elem_of_singleton in Hin. subst. congruence.
Qed.

(** A guarded program always resolves: with a value of its body, every call
    having resolved, or with the failure envelope of what the body threw. *)
Lemma guarded_run {W} (w : World W) (P : JVal -> Prop) q st res st' new :
  guarded P q ->
  run w q st [] = (res, st', new) ->
  exists env, res = inr env /\
    ((P env /\ Forall resolved new) \/
     (exists e, env = failure (handleOCIError e) /\ thrown_by e new)).
Proof.
  intros (p & -> & HB) Hrun. rewrite run_try_catch in Hrun.
  destruct (run w p st []) as [[[e|env] st1] new1] eqn:Hp.
  - simpl in Hrun. inversion Hrun; subst.
    eexists; split; [reflexivity|]. right. exists e. split; [done|].
    exact (Body_run w P p st (inl e) st' new HB Hp).
  - inversion Hrun; subst. exists env. split; [done|]. left.
    exact (Body_run w P p st (inr env) st' new HB Hp).
Qed.

Lemma counted_succeeded env : counted env -> succeeded env.
Proof. by intros [? _]. Qed.

Create HintDb body.

#[local] Hint Resolve
  DatabaseAnalytics_getResource_body DatabaseAnalytics_createResource_body
  DatabaseAnalytics_manageResource_body
  Compute_getResource_body Compute_createResource_body
  Compute_manageInstance_body Compute_manageVolume_body
  MonitoringSecurity_getResource_body MonitoringSecurity_createResource_body
  MonitoringSecurity_manageResource_body
  StorageNetwork_getResource_body StorageNetwork_createResource_body
  StorageNetwork_manageObject_body StorageNetwork_manageResource_body
  DatabaseAnalytics_listResources_body Compute_listResources_body
  MonitoringSecurity_listResources_body StorageNetwork_listResources_body
  counted_succeeded : body.

Ltac guarded_auto :=
  eexists; split; [reflexivity|];
  unfold reading; cbv zeta;
  repeat lazymatch goal with
    | |- Body _ (if ?b then _ else _) => destruct b
    end;
  first [ exact I
        | solve [auto with body]
        | eapply Body_weaken; [apply counted_succeeded | solve [auto with body]] ].

Lemma execute_guarded c d input : guarded succeeded (Server.execute c d input).
Proof.
  destruct d; unfold Server.execute.
  - unfold Compute.execute. guarded_auto.
  - unfold StorageNetwork.execute. guarded_auto.
  - unfold DatabaseAnalytics.execute. guarded_auto.
  - unfold MonitoringSecurity.execute. guarded_auto.
Qed.

Lemma execute_list_guarded c d input :
  input!."action" = JStr "list" -> guarded counted (Server.execute c d input).
Proof.
  intros Hlist.
  assert (Hobj : input!."action" <> JUndef) by (by rewrite Hlist).
  destruct d; unfold Server.execute.
  - unfold Compute.execute. rewrite (reading_prop _ _ _ _ Hobj), Hlist.
    eexists; split; [reflexivity|]. apply Compute_listResources_body.
  - unfold StorageNetwork.execute. rewrite (reading_prop _ _ _ _ Hobj), Hlist.
    eexists; split; [reflexivity|]. apply StorageNetwork_listResources_body.
  - unfold DatabaseAnalytics.execute. rewrite (reading_prop _ _ _ _ Hobj), Hlist.
    eexists; split; [reflexivity|]. apply DatabaseAnalytics_listResources_body.
  - unfold MonitoringSecurity.execute. rewrite (reading_prop _ _ _ _ Hobj), Hlist.
    eexists; split; [reflexivity|]. apply MonitoringSecurity_listResources_body.
Qed.



(** C4: a list action that was dispatched successfully, by any of the four
    dispatchers, returns an envelope whose [count] is the length of its
    [data]. *)
Theorem list_count_is_length (c : OCIClientManager) (d : Server.Domain) (input : JVal)
    {W} (w : World W) (st : W) (env : JVal) (st' : W) (new : list Entry) :
  input!."action" = JStr "list" ->
  run w (Server.execute c d input) st [] = (inr env, st', new) ->
  succeeded env ->
  exists data, env!."data" = JArr data /\ env!."count" = JNum (Z.of_nat (length data)).
Proof.
  intros Hlist Hrun Hok.
  destruct (guarded_run w counted _ st _ st' new (execute_list_guarded c d input Hlist) Hrun)
    as (env' & Heq & [[[_ Hcount] _]|(e & -> & _)]).
  - by inversion Heq; subst.
  - inversion Heq; subst. unfold succeeded in Hok. discriminate.
Qed.

Lemma list_count_is_length_witness :
  let input := JObj [("action", JStr "list"); ("resourceType", JStr "instances")] in
  let env := JObj [("success", JBool true);
                   ("data", JArr [JStr "item-a"; JStr "item-b"]);
                   ("count", JNum 2);
                   ("message", JStr "Found 2 compute instances")] in
  input!."action" = JStr "list" /\
  run (sample_world None not_found)
      (Server.execute sample_client Server.compute input) 0%nat []
  = (inr env, 1%nat,
     [entry_of (sh:=SPage) "computeClient" "listInstances"
        (JObj [("compartmentId", JStr "ocid1.tenancy");
               ("availabilityDomain", JUndef);
               ("limit", JNum 50);
               ("displayName", JUndef);
               ("lifecycleState", JUndef)])
        (inr (sample_response SPage))]) /\
  succeeded env /\
  exists data, env!."data" = JArr data /\ env!."count" = JNum (Z.of_nat (length data)).
Proof.
  intros input env.
  assert (H1 : input!."action" = JStr "list") by reflexivity.
  assert (H2 : run (sample_world None not_found)
                 (Server.execute sample_client Server.compute input) 0%nat []
               = (inr env, 1%nat,
                  [entry_of (sh:=SPage) "computeClient" "listInstances"
                     (JObj [("compartmentId", JStr "ocid1.tenancy");
                            ("availabilityDomain", JUndef);
                            ("limit", JNum 50);
                            ("displayName", JUndef);
                            ("lifecycleState", JUndef)])
                     (inr (sample_response SPage))])) by (vm_compute; reflexivity).
  assert (H3 : succeeded env) by reflexivity.
  split; [exact H1|]. split; [exact H2|]. split; [exact H3|].
  exact (list_count_is_length sample_client Server.compute input
           (sample_world None not_found) 0%nat env 1%nat _ H1 H2 H3).
Defined.

(** ** The top-level server *)

Lemma tool_of_name_declared name :
  tool_of_name name = None <-> name ∉ Server.declared_tools.
Proof.
  unfold tool_of_name, Server.declared_tools.
  rewrite !not_elem_of_cons.
  destruct (String.eqb_spec name "oci-compute") as [->|H1];
    [split; [discriminate | intros [H _]; by destruct H]|].
  destruct (String.eqb_spec name "oci-storage-network") as [->|H2];
    [split; [discriminate | intros (_ & H & _); by destruct H]|].
  destruct (String.eqb_spec name "oci-database-analytics") as [->|H3];
    [split; [discriminate | intros (_ & _ & H & _); by destruct H]|].
  destruct (String.eqb_spec name "oci-monitoring-security") as [->|H4];
    [split; [discriminate | intros (_ & _ & _ & H & _); by destruct H]|].
  split; [|done]. intros _. repeat split; try done. apply not_elem_of_nil.
Qed.

Lemma failure_serialized (message : string) :
  JSON_stringify (failure message)
  = "{" +:+ newline
    +:+ "  " +:+ success_false +:+ "," +:+ newline
    +:+ "  " +:+ dquote +:+ "message" +:+ dquote +:+ ": " +:+ quote message +:+ newline
    +:+ "}"
  /\ mentions (JSON_stringify (failure message)) success_false = true.
Proof. split; reflexivity. Qed.

(** One domain handler: a failed parse aborts with "invalid params" before
    any call; otherwise the handler relays the envelope of [execute]. *)
Lemma handler_run {W} (w : World W) is_email c d args st :
  match parse (Server.input_schema is_email d) args with
  | None =>
      exists e, run w (handler is_email c d args) st [] = (inl e, st, [])
                /\ err_mcp e = Some InvalidParams
  | Some input =>
      exists env st' new,
        run w (Server.execute c d input) st [] = (inr env, st', new) /\
        run w (handler is_email c d args) st []
        = (inr (Server.text_content (JSON_stringify env)), st', new)
  end.
Proof.
  assert (Hgen : forall S exec pre,
    (forall input, guarded succeeded (exec input)) ->
    match parse S args with
    | None =>
        exists e,
          run w (try_catch
                   (bind (parse_or_throw S args)
                      (fun v => bind (exec v)
                         (fun result =>
                            Ret (Server.text_content (JSON_stringify result)))))
                   (fun error =>
                      Throw (new_McpError InvalidParams
                               (pre +:+ message_or_unknown error)))) st []
          = (inl e, st, [])
          /\ err_mcp e = Some InvalidParams
    | Some input =>
        exists env st' new,
          run w (exec input) st [] = (inr env, st', new) /\
          run w (try_catch
                   (bind (parse_or_throw S args)
                      (fun v => bind (exec v)
                         (fun result =>
                            Ret (Server.text_content (JSON_stringify result)))))
                   (fun error =>
                      Throw (new_McpError InvalidParams
                               (pre +:+ message_or_unknown error)))) st []
          = (inr (Server.text_content (JSON_stringify env)), st', new)
    end).
  { intros S exec pre Hexec. unfold parse_or_throw.
    destruct (parse S args) as [input|].
    - destruct (run w (exec input) st []) as [[res st'] new] eqn:Hrun.
      destruct (guarded_run w succeeded _ st res st' new (Hexec input) Hrun)
        as (env & -> & _).
      exists env, st', new. split; [done|].
      rewrite run_try_catch. cbn [bind]. rewrite run_bind, Hrun. reflexivity.
    - eexists. split; reflexivity. }
  destruct d.
  - apply (Hgen _ (Compute.execute c) _ (execute_guarded c Server.compute)).
  - apply (Hgen _ (StorageNetwork.execute c) _ (execute_guarded c Server.storage_network)).
  - apply (Hgen _ (DatabaseAnalytics.execute c) _
             (execute_guarded c Server.database_analytics)).
  - apply (Hgen _ (MonitoringSecurity.execute c) _
             (execute_guarded c Server.monitoring_security)).
Qed.

Lemma callTool_routes is_email c name args d :
  tool_of_name name = Some d ->
  Server.callTool is_email c name args =
  try_catch (handler is_email c d args)
    (fun error =>
       match err_mcp error with
       | Some _ => Throw error
       | None =>
           Throw (new_McpError InternalError
                    ("Tool execution failed: " +:+ message_or_unknown error))
       end).
Proof.
  unfold tool_of_name, Server.callTool.
  repeat (destruct (String.eqb name _));
    intros H; inversion H; subst; reflexivity.
Qed.

(** C1: an undeclared tool yields "method not found"; a declared tool whose
    arguments fail its input union yields "invalid params", both before any
    backend call; a well-formed call yields an RPC success, the payload
    [{ content: [{ type: 'text', text }] }] whose text is the serialized
    envelope of [execute]; whenever a backend call was rejected that
    envelope is the failure envelope of the classified error, and the text
    carries ["success": false].  The three outcomes exclude one another. *)
Theorem callTool_outcomes (is_email : string -> bool) (c : OCIClientManager)
    (name : string) (args : JVal) {W} (w : World W) (st : W) :
  let '(res, st', new) := run w (Server.callTool is_email c name args) st [] in
  (classify is_email name args = UnknownTool <-> name ∉ Server.declared_tools) /\
  match classify is_email name args with
  | UnknownTool =>
      rpc_error MethodNotFound res /\ new = []
  | InvalidArguments _ =>
      rpc_error InvalidParams res /\ new = []
  | WellFormed d input =>
      exists env text,
        run w (Server.execute c d input) st [] = (inr env, st', new) /\
        text = JSON_stringify env /\
        res = inr (JObj [("content",
                          JArr [JObj [("type", JStr "text"); ("text", JStr text)]])]) /\
        (exists b, env!."success" = JBool b) /\
        (forall entry e, entry ∈ new -> e_error entry = Some e ->
                         env = failure (handleOCIError e) /\
                         mentions text success_false = true) /\
        (env!."success" = JBool false -> mentions text success_false = true)
  end /\
  ~ (rpc_error MethodNotFound res /\ rpc_error InvalidParams res) /\
  (forall code payload, rpc_error code res -> res <> inr payload).
Proof.
  destruct (run w (Server.callTool is_email c name args) st []) as [[res st'] new] eqn:Hrun.
  split; [|split; [|split]].
  - rewrite <- tool_of_name_declared. unfold classify.
    destruct (tool_of_name name) as [d|]; [|done].
    destruct (parse _ args); split; discriminate.
  - unfold classify. destruct (tool_of_name name) as [d|] eqn:Htool.
    + rewrite (callTool_routes _ _ _ _ d Htool), run_try_catch in Hrun.
      pose proof (handler_run w is_email c d args st) as Hh.
      destruct (parse (Server.input_schema is_email d) args) as [input|].
      * destruct Hh as (env & st1 & new1 & Hexec & Hh). rewrite Hh in Hrun.
        inversion Hrun; subst. exists env, (JSON_stringify env).
        split; [done|]. split; [reflexivity|]. split; [reflexivity|].
        destruct (guarded_run w succeeded _ st _ st' new (execute_guarded c d input) Hexec)
          as (env' & Heq & [[Hok Hall]|(e & -> & Hthrown)]); inversion Heq; subst.
        -- split; [by exists true|]. split.
           ++ intros entry e Hin Herr.
              rewrite Forall_forall in Hall. specialize (Hall _ Hin).
              unfold resolved in Hall. congruence.
           ++ intros Hfalse. unfold succeeded in Hok. congruence.
        -- split; [by exists false|]. split.
           ++ intros entry e' Hin Herr.
              rewrite (thrown_by_rejected _ _ _ _ Hthrown Hin Herr).
              split; [reflexivity | apply failure_serialized].
           ++ intros _. apply failure_serialized.
      * destruct Hh as (e & Hh & Hcode). rewrite Hh in Hrun. simpl in Hrun.
        rewrite Hcode in Hrun. simpl in Hrun. inversion Hrun; subst.
        split; [by exists e|done].
    + unfold Server.callTool in Hrun. unfold tool_of_name in Htool.
      repeat (destruct (String.eqb name _); [discriminate|]).
      simpl in Hrun. inversion Hrun; subst. split; [|done].
      eexists. split; reflexivity.
  - intros [(e1 & -> & H1) (e2 & Heq & H2)]. inversion Heq; subst. congruence.
  - intros code payload (e & -> & _). discriminate.
Qed.

(** ** The error classifier *)

Lemma handleOCIError_cases (e : JsError) :
  (truthy (err_statusCode e) = true ->
   handleOCIError e =
   "OCI API Error (" +:+ to_string (err_statusCode e) +:+ "): " +:+ message_text e) /\
  (truthy (err_statusCode e) = false -> truthy (err_code e) = true ->
   handleOCIError e =
   "OCI Error (" +:+ to_string (err_code e) +:+ "): " +:+ message_text e) /\
  (truthy (err_statusCode e) = false -> truthy (err_code e) = false ->
   truthy (err_message e) = true ->
   handleOCIError e = "OCI Error: " +:+ to_string (err_message e)) /\
  (truthy (err_statusCode e) = false -> truthy (err_code e) = false ->
   truthy (err_message e) = false ->
   handleOCIError e = "OCI Error: " +:+ err_toString e).
Proof.
  unfold handleOCIError, message_text, js_or.
  repeat split; intros; repeat match goal with H : truthy _ = _ |- _ => rewrite H end;
    try reflexivity; by destruct (truthy (err_message e)).
Qed.

(** C3, as stated, fails: an error that carries status code 502 and an
    empty message is classified as [OCI API Error (502): Unknown error], not
    as [OCI API Error (502): ] followed by its message. *)
Lemma handleOCIError_not_as_stated :
  handleOCIError bad_gateway = "OCI API Error (502): Unknown error" /\
  classification_as_stated bad_gateway = "OCI API Error (502): " /\
  handleOCIError bad_gateway <> classification_as_stated bad_gateway.
Proof. repeat split. discriminate. Qed.

(** C3, amended: the classifier tests [statusCode], then [code], for
    truthiness; in both cases the message defaults to ['Unknown error'] when
    empty or absent; otherwise the result is [OCI Error: ] followed by the
    message or, failing that, the error's string form.  A backend rejection
    [{ statusCode: 404, message: 'NotFound' }] yields the envelope whose
    message is exactly [OCI API Error (404): NotFound]. *)
Theorem handleOCIError_classification :
  (forall e : JsError,
     (truthy (err_statusCode e) = true ->
      handleOCIError e =
      "OCI API Error (" +:+ to_string (err_statusCode e) +:+ "): " +:+ message_text e) /\
     (truthy (err_statusCode e) = false -> truthy (err_code e) = true ->
      handleOCIError e =
      "OCI Error (" +:+ to_string (err_code e) +:+ "): " +:+ message_text e) /\
     (truthy (err_statusCode e) = false -> truthy (err_code e) = false ->
      truthy (err_message e) = true ->
      handleOCIError e = "OCI Error: " +:+ to_string (err_message e)) /\
     (truthy (err_statusCode e) = false -> truthy (err_code e) = false ->
      truthy (err_message e) = false ->
      handleOCIError e = "OCI Error: " +:+ err_toString e)) /\
  (forall (c : OCIClientManager) (d : Server.Domain) (input : JVal)
          W (w : World W) (st : W) env st' new entry rejection,
     run w (Server.execute c d input) st [] = (inr env, st', new) ->
     entry ∈ new ->
     e_error entry = Some rejection ->
     err_statusCode rejection = JNum 404 ->
     err_message rejection = JStr "NotFound" ->
     env = failure "OCI API Error (404): NotFound").
Proof.
  split; [exact handleOCIError_cases|].
  intros c d input W w st env st' new entry rejection Hrun Hin Herr Hcode Hmsg.
  destruct (guarded_run w succeeded _ st _ st' new (execute_guarded c d input) Hrun)
    as (env' & Heq & [[_ Hall]|(e & -> & Hthrown)]); inversion Heq; subst.
  - rewrite Forall_forall in Hall. specialize (Hall _ Hin).
    unfold resolved in Hall. congruence.
  - rewrite <- (thrown_by_rejected _ _ _ _ Hthrown Hin Herr).
    unfold handleOCIError. rewrite Hcode, Hmsg. reflexivity.
Qed.

Lemma handleOCIError_classification_witness :
  let input := JObj [("action", JStr "get"); ("resourceType", JStr "instance");
                     ("resourceId", JStr "ocid1.instance")] in
  let entry := entry_of (sh:=SResource) "computeClient" "getInstance"
                 (JObj [("instanceId", JStr "ocid1.instance")]) (inl not_found) in
  let env := failure "OCI API Error (404): NotFound" in
  run (sample_world (Some 0%nat) not_found)
      (Server.execute sample_client Server.compute input) 0%nat []
  = (inr env, 1%nat, [entry]) /\
  entry ∈ [entry] /\
  e_error entry = Some not_found /\
  err_statusCode not_found = JNum 404 /\
  err_message not_found = JStr "NotFound" /\
  env = failure "OCI API Error (404): NotFound".
Proof.
  intros input entry env.
  assert (H1 : run (sample_world (Some 0%nat) not_found)
                 (Server.execute sample_client Server.compute input) 0%nat []
               = (inr env, 1%nat, [entry])) by (vm_compute; reflexivity).
  assert (H2 : entry ∈ [entry]) by (apply list_elem_of_singleton; reflexivity).
  assert (H3 : e_error entry = Some not_found) by reflexivity.
  assert (H4 : err_statusCode not_found = JNum 404) by reflexivity.
  assert (H5 : err_message not_found = JStr "NotFound") by reflexivity.
  split; [exact H1|]. split; [exact H2|]. split; [exact H3|].
  split; [exact H4|]. split; [exact H5|].
  exact (proj2 handleOCIError_classification sample_client Server.compute input
           nat (sample_world (Some 0%nat) not_found) 0%nat env 1%nat [entry] entry
           not_found H1 H2 H3 H4 H5).
Defined.

(** ** Preconditions checked before the backend is called *)

(** C7: listing [databases] with neither [dbSystemId] nor [dbHomeId] is
    rejected before any backend call, with a message that names both. *)
Theorem list_databases_requires_parent (c : OCIClientManager) (input : JVal)
    {W} (w : World W) (st : W) :
  input!."action" = JStr "list" ->
  input!."resourceType" = JStr "databases" ->
  input!."dbSystemId" = JUndef ->
  input!."dbHomeId" = JUndef ->
  exists message,
    run w (DatabaseAnalytics.execute c input) st [] = (inr (failure message), st, []) /\
    mentions message "dbSystemId" = true /\
    mentions message "dbHomeId" = true.
Proof.
  intros Hact Htype Hsys Hhome.
  exists "OCI Error: Either dbSystemId or dbHomeId is required for listing databases".
  split; [|split; reflexivity].
  unfold DatabaseAnalytics.execute, DatabaseAnalytics.listResources.
  rewrite (reading_prop input _ "action") by (by rewrite Hact).
  rewrite Hact, Htype, Hsys, Hhome. reflexivity.
Qed.

Lemma list_databases_requires_parent_witness :
  let input := JObj [("action", JStr "list"); ("resourceType", JStr "databases")] in
  input!."action" = JStr "list" /\
  input!."resourceType" = JStr "databases" /\
  input!."dbSystemId" = JUndef /\
  input!."dbHomeId" = JUndef /\
  exists message,
    run (sample_world None not_found) (DatabaseAnalytics.execute sample_client input)
        0%nat []
    = (inr (failure message), 0%nat, []) /\
    mentions message "dbSystemId" = true /\
    mentions message "dbHomeId" = true.
Proof.
  intros input.
  assert (H1 : input!."action" = JStr "list") by reflexivity.
  assert (H2 : input!."resourceType" = JStr "databases") by reflexivity.
  assert (H3 : input!."dbSystemId" = JUndef) by reflexivity.
  assert (H4 : input!."dbHomeId" = JUndef) by reflexivity.
  split; [exact H1|]. split; [exact H2|]. split; [exact H3|]. split; [exact H4|].
  exact (list_databases_requires_parent sample_client input
           (sample_world None not_found) 0%nat H1 H2 H3 H4).
Defined.

(** C8: [attach-volume] without [instanceId], or without [volumeId], is
    rejected as a precondition failure and the backend is never called. *)
Theorem attach_volume_requires_both (c : OCIClientManager) (input : JVal)
    {W} (w : World W) (st : W) :
  input!."action" = JStr "attach-volume" ->
  input!."instanceId" = JUndef \/ input!."volumeId" = JUndef ->
  run w (Compute.execute c input) st []
  = (inr (failure
            "OCI Error: Both instanceId and volumeId are required for volume attachment"),
     st, []).
Proof.
  intros Hact Hmissing.
  unfold Compute.execute, Compute.manageVolume.
  rewrite (reading_prop input _ "action") by (by rewrite Hact).
  rewrite Hact.
  destruct Hmissing as [H|H]; rewrite H.
  - reflexivity.
  - cbn. rewrite orb_true_r. reflexivity.
Qed.

Lemma attach_volume_requires_both_witness :
  let input := JObj [("action", JStr "attach-volume"); ("resourceType", JStr "volume");
                     ("resourceId", JStr "ocid1.volume");
                     ("volumeId", JStr "ocid1.volume")] in
  input!."action" = JStr "attach-volume" /\
  (input!."instanceId" = JUndef \/ input!."volumeId" = JUndef) /\
  run (sample_world None not_found) (Compute.execute sample_client input) 0%nat []
  = (inr (failure
            "OCI Error: Both instanceId and volumeId are required for volume attachment"),
     0%nat, []).
Proof.
  intros input.
  assert (H1 : input!."action" = JStr "attach-volume") by reflexivity.
  assert (H2 : input!."instanceId" = JUndef \/ input!."volumeId" = JUndef)
    by (left; reflexivity).
  split; [exact H1|]. split; [exact H2|].
  exact (attach_volume_requires_both sample_client input
           (sample_world None not_found) 0%nat H1 H2).
Defined.

(** C6: creating an autonomous database from a payload that supplies only
    [compartmentId], [dbName], [cpuCoreCount], [dataStorageSizeInTBs] and
    [adminPassword] sends the backend one request, in which [dbWorkload] is
    ["OLTP"], [isAutoScalingEnabled] and [isFreeTier] are [false] and
    [licenseModel] is ["LICENSE_INCLUDED"]. *)
Theorem create_autonomous_database_defaults (c : OCIClientManager) (input : JVal)
    (fields : JObject) {W} (w : World W) (st : W) :
  let data := JObj fields in
  input!."action" = JStr "create" ->
  input!."resourceType" = JStr "autonomous-database" ->
  input!."data" = data ->
  data!."displayName" = JUndef ->
  data!."dbVersion" = JUndef ->
  data!."dbWorkload" = JUndef ->
  data!."isAutoScalingEnabled" = JUndef ->
  data!."isFreeTier" = JUndef ->
  data!."licenseModel" = JUndef ->
  data!."subnetId" = JUndef ->
  data!."nsgIds" = JUndef ->
  let request := createAdbRequest_defaults data in
  let details := request!."createAutonomousDatabaseDetails" in
  (exists res st' new,
     run w (DatabaseAnalytics.execute c input) st [] = (res, st', new) /\
     map call_of new = [("databaseClient", "createAutonomousDatabase", request)]) /\
  details!."dbWorkload" = JStr "OLTP" /\
  details!."isAutoScalingEnabled" = JBool false /\
  details!."isFreeTier" = JBool false /\
  details!."licenseModel" = JStr "LICENSE_INCLUDED".
Proof.
  intros data Hact Htype Hdata H1 H2 H3 H4 H5 H6 H7 H8 request details.
  split; [|by repeat split].
  unfold DatabaseAnalytics.execute, DatabaseAnalytics.createResource.
  rewrite (reading_prop input _ "action") by (by rewrite Hact).
  rewrite Hact, Htype, Hdata. unfold reading. cbn [nullish data].
  rewrite H1, H2, H3, H4, H5, H6, H7, H8.
  cbn -[prop]. unfold request, createAdbRequest_defaults.
  destruct (respond w SResource _ _ _ st) as [[e|x] st1]; cbn -[prop];
    by eexists _, _, _.
Qed.

Lemma create_autonomous_database_defaults_witness :
  let fields := [("compartmentId", JStr "c1"); ("dbName", JStr "db1");
                 ("cpuCoreCount", JNum 2); ("dataStorageSizeInTBs", JNum 1);
                 ("adminPassword", JStr "longenough123")] in
  let input := JObj [("action", JStr "create");
                     ("resourceType", JStr "autonomous-database");
                     ("data", JObj fields)] in
  let request :=
    JObj [("createAutonomousDatabaseDetails",
           JObj [("compartmentId", JStr "c1");
                 ("dbName", JStr "db1");
                 ("cpuCoreCount", JNum 2);
                 ("dataStorageSizeInTBs", JNum 1);
                 ("adminPassword", JStr "longenough123");
                 ("displayName", JStr "db1");
                 ("dbVersion", JUndef);
                 ("dbWorkload", JStr "OLTP");
                 ("isAutoScalingEnabled", JBool false);
                 ("isFreeTier", JBool false);
                 ("licenseModel", JStr "LICENSE_INCLUDED");
                 ("subnetId", JUndef);
                 ("nsgIds", JUndef)])] in
  accepts DatabaseAnalytics.DatabaseAnalyticsToolInputSchema input /\
  exists res st' new,
    run (sample_world None not_found) (DatabaseAnalytics.execute sample_client input)
        0%nat [] = (res, st', new) /\
    map call_of new = [("databaseClient", "createAutonomousDatabase", request)].
Proof.
  intros fields input request.
  split; [eexists; vm_compute; reflexivity|].
  exact (proj1 (create_autonomous_database_defaults sample_client input fields
                  (sample_world None not_found) 0%nat
                  eq_refl eq_refl eq_refl eq_refl eq_refl eq_refl eq_refl eq_refl
                  eq_refl eq_refl eq_refl)).
Defined.

(** ** Missing credentials *)

Lemma parse_object_fields shape fields out :
  parse (z_object shape) (JObj fields) = Some out ->
  Forall (fun ks => is_Some (parse ks.2 (obj_get ks.1 fields))) shape.
Proof.
  simpl. intros H.
  assert (Hgo : forall o,
    (fix each (sh : list (string * Schema)) : option JObject :=
       match sh with
       | [] => Some []
       | (k, sk) :: rest =>
           match parse sk (obj_get k fields), each rest with
           | Some x, Some rest' =>
               Some (match x with
                     | JUndef => if obj_has k fields then (k, x) :: rest' else rest'
                     | _ => (k, x) :: rest'
                     end)
           | _, _ => None
           end
       end) shape = Some o ->
    Forall (fun ks => is_Some (parse ks.2 (obj_get ks.1 fields))) shape).
  { clear H out. induction shape as [|[k sk] rest IH]; intros o Ho.
    - constructor.
    - destruct (parse sk (obj_get k fields)) as [x|] eqn:Hk; [|discriminate].
      match type of Ho with
      | match ?r with _ => _ end = _ => destruct r as [rest'|] eqn:Hrest
      end; [|discriminate].
      constructor; [simpl; rewrite Hk; by eexists | by eapply IH]. }
  match type of H with
  | match ?r with _ => _ end = _ => destruct r as [o|] eqn:Ho
  end; [|discriminate].
  by eapply Hgo.
Qed.


(** The managers of a server that was constructed hold one client. *)
Lemma new_OCIMCPServer_shares_client instance env host server instance' :
  Server.new_OCIMCPServer instance env host = (inr server, instance') ->
  instance' = Some (Server.computeManager server) /\
  Server.storageNetworkManager server = Server.computeManager server /\
  Server.databaseAnalyticsManager server = Server.computeManager server /\
  Server.monitoringSecurityManager server = Server.computeManager server.
Proof.
  unfold Server.new_OCIMCPServer.
  assert (Hfirst : forall r i, getOCIClient instance env host JUndef = (r, i) ->
            match r with inr c => i = Some c | inl _ => True end).
  { intros r i. unfold getOCIClient. destruct instance as [c|].
    - by intros [= <- <-].
    - destruct (new_OCIClientManager env host JUndef); by intros [= <- <-]. }
  destruct (getOCIClient instance env host JUndef) as [[e|c1] i1] eqn:H1;
    [discriminate|].
  specialize (Hfirst _ _ eq_refl). cbn in Hfirst. subst i1.
  cbn [getOCIClient]. by intros [= <- <-].
Qed.




(** ** Creating a network security group with inline rules *)

Lemma add_rules_run {W} (w : World W) (id : JVal) (rules : list JVal) st res st' new :
  run w (for_of rules
           (fun rule =>
              await SVoid "virtualNetworkClient" "addNetworkSecurityGroupSecurityRules"
                (addRuleRequest id rule))) st [] = (res, st', new) ->
  exists k,
    (k <= length rules)%nat /\
    map call_of new = map (add_rule_call id) (take k rules) /\
    ((res = inr tt /\ k = length rules /\ Forall resolved new) \/
     (exists e init last,
        res = inl e /\ new = init ++ [last] /\ Forall resolved init
        /\ e_error last = Some e)).
Proof.
  revert st new. induction rules as [|r rs IH]; intros st new Hrun.
  - simpl in Hrun. inversion Hrun; subst. exists 0%nat.
    split; [done|]. split; [done|]. left.
    split; [done|]. split; [done|]. constructor.
  - cbn [for_of await bind run] in Hrun.
    destruct (respond w SVoid _ _ _ st) as [[e|u] st1] eqn:Hresp.
    + cbn [bind run] in Hrun. inversion Hrun; subst. exists 1%nat.
      split; [simpl; lia|]. split; [reflexivity|]. right.
      exists e, [], (entry_of (sh:=SVoid) "virtualNetworkClient"
                       "addNetworkSecurityGroupSecurityRules"
                       (addRuleRequest id r) (inl e)).
      split; [done|]. split; [done|]. split; [constructor|done].
    + cbn [bind] in Hrun. rewrite run_frame in Hrun.
      match type of Hrun with
      | context [run w ?p st1 []] =>
          destruct (run w p st1 []) as [[res' st''] new'] eqn:Hrest
      end.
      inversion Hrun; subst.
      destruct (IH _ _ Hrest) as (k & Hk & Hcalls & Hcase).
      exists (S k). split; [simpl; lia|].
      split; [simpl; by rewrite Hcalls|].
      assert (Hok : resolved (entry_of (sh:=SVoid) "virtualNetworkClient"
                                "addNetworkSecurityGroupSecurityRules"
                                (addRuleRequest id r) (inr u))) by reflexivity.
      destruct Hcase as [(-> & -> & Hall)|(e & init & last & -> & -> & Hinit & Hlast)].
      * left. split; [done|]. split; [done|]. by constructor.
      * right. exists e, (entry_of (sh:=SVoid) "virtualNetworkClient"
                            "addNetworkSecurityGroupSecurityRules"
                            (addRuleRequest id r) (inr u) :: init), last.
        split; [done|]. split; [done|]. split; [by constructor|done].
Qed.

(** C9: creating a network security group whose payload carries [n >= 1]
    inline rules performs the creation call and then one add-rule call per
    rule, in payload order.  The calls stop at the first add-rule call that
    is rejected, say the [k]-th: the creation and the [k-1] earlier add-rule
    calls have resolved, no further call (in particular no compensating one)
    is made, and the result is the failure envelope.  When no call is
    rejected all [n] rules are added and the result is the success
    envelope. *)
Theorem create_nsg_rules_not_transactional (c : OCIClientManager)
    (input data : JVal) (rules : list JVal) {W} (w : World W) (st : W)
    (nsg : JObject) (st1 : W) :
  input!."action" = JStr "create" ->
  input!."resourceType" = JStr "network-security-group" ->
  input!."data" = data ->
  data!."securityRules" = JArr rules ->
  rules <> [] ->
  respond w SResource "virtualNetworkClient" "createNetworkSecurityGroup"
    (createNsgRequest data) st = (inr nsg, st1) ->
  exists env st' new k,
    run w (MonitoringSecurity.execute c input) st [] = (inr env, st', new) /\
    (1 <= k <= length rules)%nat /\
    map call_of new
    = create_nsg_call data :: map (add_rule_call (obj_get "id" nsg)) (take k rules) /\
    ((Forall resolved new /\ k = length rules /\ succeeded env /\ env!."data" = JObj nsg) \/
     (exists init last e,
        new = init ++ [last] /\ Forall resolved init /\ e_error last = Some e
        /\ env = failure (handleOCIError e))).
Proof.
  intros Hact Htype Hdata Hrules Hne Hcreate.
  unfold MonitoringSecurity.execute, MonitoringSecurity.createResource.
  rewrite (reading_prop input _ "action") by (by rewrite Hact).
  rewrite Hact, Htype, Hdata. cbn -[prop for_of Z.ltb Z.of_nat reading].
  rewrite (reading_prop data _ "securityRules") by (by rewrite Hrules).
  rewrite Hrules.
  destruct rules as [|r rs]; [done|].
  unfold mbind, mret, Prog_bind, Prog_ret.
  cbn -[prop for_of Z.ltb Z.of_nat]. fold (createNsgRequest data). rewrite Hcreate.
  assert (Hpos : (0 <? Z.of_nat (S (length rs))) = true) by (apply Z.ltb_lt; lia).
  rewrite Hpos. cbn [bind].
  rewrite run_try_catch, run_bind, run_frame.
  change (fun rule : JVal =>
            await SVoid "virtualNetworkClient" "addNetworkSecurityGroupSecurityRules"
              (JObj [("networkSecurityGroupId", obj_get "id" nsg);
                     ("addNetworkSecurityGroupSecurityRulesDetails",
                      JObj [("securityRules", JArr [rule])])]))
    with (fun rule : JVal =>
            await SVoid "virtualNetworkClient" "addNetworkSecurityGroupSecurityRules"
              (addRuleRequest (obj_get "id" nsg) rule)).
  match goal with
  | |- context [run w ?p st1 []] =>
      destruct (run w p st1 []) as [[res st2] new] eqn:Hloop
  end.
  apply (add_rules_run w (obj_get "id" nsg)) in Hloop
    as (k & Hk & Hcalls & Hcase).
  assert (Hok : resolved (entry_of (sh:=SResource) "virtualNetworkClient"
                            "createNetworkSecurityGroup" (createNsgRequest data)
                            (inr nsg))) by reflexivity.
  destruct Hcase as [(-> & -> & Hall)|(e & init & last & -> & -> & Hinit & Hlast)].
  - eexists _, st2, _, (length (r :: rs)). split; [reflexivity|].
    split; [simpl; lia|]. split; [simpl map; by rewrite Hcalls|].
    left. split; [by constructor|]. split; [done|]. split; reflexivity.
  - eexists _, st2, _, k. split; [reflexivity|].
    assert (length (init ++ [last]) = length (take k (r :: rs))) as Hlen.
    { by rewrite <- (length_map call_of), Hcalls, length_map. }
    rewrite length_app, length_take in Hlen. simpl in Hlen, Hk.
    split; [simpl; lia|]. split; [simpl map; by rewrite Hcalls|].
    right. exists (entry_of (sh:=SResource) "virtualNetworkClient"
                     "createNetworkSecurityGroup" (createNsgRequest data)
                     (inr nsg) :: init), last, e.
    split; [done|]. split; [by constructor|]. split; [done|reflexivity].
Qed.

Lemma create_nsg_rules_not_transactional_witness :
  let w := sample_world (Some 2%nat) not_found in
  sample_nsg_input!."action" = JStr "create" /\
  sample_nsg_input!."resourceType" = JStr "network-security-group" /\
  sample_nsg_input!."data" = sample_nsg_data /\
  sample_nsg_data!."securityRules" = JArr [ingress "6"; ingress "17"; ingress "1"] /\
  [ingress "6"; ingress "17"; ingress "1"] <> [] /\
  respond w SResource "virtualNetworkClient" "createNetworkSecurityGroup"
    (createNsgRequest sample_nsg_data) 0%nat = (inr (sample_response SResource), 1%nat) /\
  exists env st' new k,
    run w (MonitoringSecurity.execute sample_client sample_nsg_input) 0%nat []
    = (inr env, st', new) /\
    (1 <= k <= 3)%nat /\
    map call_of new
    = create_nsg_call sample_nsg_data
      :: map (add_rule_call (JStr "ocid1.resource"))
           (take k [ingress "6"; ingress "17"; ingress "1"]) /\
    ((Forall resolved new /\ k = 3%nat /\ succeeded env
      /\ env!."data" = JObj (sample_response SResource)) \/
     (exists init last e,
        new = init ++ [last] /\ Forall resolved init /\ e_error last = Some e
        /\ env = failure (handleOCIError e))).
Proof.
  intros w.
  assert (H5 : [ingress "6"; ingress "17"; ingress "1"] <> []) by discriminate.
  assert (H6 : respond w SResource "virtualNetworkClient" "createNetworkSecurityGroup"
                 (createNsgRequest sample_nsg_data) 0%nat
               = (inr (sample_response SResource), 1%nat)) by reflexivity.
  split; [reflexivity|]. split; [reflexivity|]. split; [reflexivity|].
  split; [reflexivity|]. split; [exact H5|]. split; [exact H6|].
  exact (create_nsg_rules_not_transactional sample_client sample_nsg_input
           sample_nsg_data [ingress "6"; ingress "17"; ingress "1"] w 0%nat
           (sample_response SResource) 1%nat
           eq_refl eq_refl eq_refl eq_refl H5 H6).
Defined.

(** The sample payload against a backend that rejects its third call: the
    second add-rule call fails; the group and its first rule stay, the third
    rule is never sent. *)
Example nsg_second_rule_rejected :
  let '(res, _, new) :=
    run (sample_world (Some 2%nat) not_found)
        (MonitoringSecurity.execute sample_client sample_nsg_input) 0%nat [] in
  res = inr (failure "OCI API Error (404): NotFound") /\
  map call_of new
  = [create_nsg_call sample_nsg_data;
     add_rule_call (JStr "ocid1.resource") (ingress "6");
     add_rule_call (JStr "ocid1.resource") (ingress "17")] /\
  map e_error new = [None; None; Some not_found].
Proof. vm_compute. by repeat split. Qed.

(** Through the top-level server the inline rules do not reach the
    dispatcher: the creation payload union answers with its log-group
    member, which comes first and strips [vcnId] and [securityRules]. *)
Example server_parse_strips_inline_rules (is_email : string -> bool) :
  parse (MonitoringSecurity.MonitoringSecurityToolInputSchema is_email) sample_nsg_input
  = Some (JObj [("action", JStr "create");
                ("resourceType", JStr "network-security-group");
                ("data", JObj [("compartmentId", JStr "ocid1.compartment");
                               ("displayName", JStr "web")])]).
Proof. reflexivity. Qed.

(** ** Pagination *)

(** The cap test against a finite cap is a test against its ceiling. *)
Lemma length_ge_finite (q : Q) (n : nat) :
  length_ge n (Finite q) = (Qceiling q <=? Z.of_nat n).
Proof.
  unfold length_ge. destruct (Qceiling q <=? Z.of_nat n) eqn:H.
  - apply Qle_bool_iff. apply Z.leb_le in H.
    eapply Qle_trans; [apply Qle_ceiling|]. by rewrite <- Zle_Qle.
  - destruct (Qle_bool q (inject_Z (Z.of_nat n))) eqn:H'; [|done].
    apply Qle_bool_iff, Qceiling_resp_le in H'. rewrite Qceiling_Z in H'.
    apply Z.leb_gt in H. lia.
Qed.

Lemma below_ceiling (q : Q) (z : Z) : z < Qceiling q -> (inject_Z z < q)%Q.
Proof.
  intros H. apply Qnot_le_lt. intros Hle.
  apply Qceiling_resp_le in Hle. rewrite Qceiling_Z in Hle. lia.
Qed.

Lemma ceiling_positive (q : Q) : (0 < q)%Q -> 1 <= Qceiling q.
Proof.
  intros H. destruct (Z_lt_le_dec 0 (Qceiling q)) as [Hc|Hc]; [lia|].
  pose proof (Qle_ceiling q) as Hq.
  assert (Hz : (inject_Z (Qceiling q) <= inject_Z 0)%Q) by by rewrite <- Zle_Qle.
  exfalso. apply (Qlt_irrefl q).
  eapply Qle_lt_trans; [exact Hq|]. eapply Qle_lt_trans; [exact Hz|]. exact H.
Qed.

Lemma ceiling_not_positive (q : Q) : (q <= 0)%Q -> Qceiling q <= 0.
Proof. intros H. apply Qceiling_resp_le in H. exact H. Qed.

Section GetAllPages.

Context {W : Type} (w : World W) (client method : string).
Context (request : JVal) (q : Q).

Hypothesis Hpages : nonempty_pages w client method.

Lemma getAllPages_loop_run (fuel : nat) (allItems : list JVal) (nextPage : JVal) (st : W) :
  Z.of_nat (length allItems) < Z.max 1 (Qceiling q) ->
  Z.max 1 (Qceiling q) <= Z.of_nat (length allItems) + Z.of_nat fuel ->
  exists res st' new,
    run w (getAllPages_loop fuel (await SPage client method) request (Finite q)
             allItems nextPage) st [] = (res, st', new) /\
    res <> inr None /\
    1 <= Z.of_nat (length new) <= Z.max 1 (Qceiling q) - Z.of_nat (length allItems) /\
    (forall pre suf, new = pre ++ suf -> pre <> [] -> suf <> [] ->
       Z.of_nat (length (allItems ++ items_of (pages_of pre))) < Qceiling q) /\
    (forall result, res = inr (Some result) ->
       exists earlier last,
         pages_of new = earlier ++ [last] /\
         result = allItems ++ items_of (pages_of new) /\
         Z.of_nat (length (allItems ++ items_of earlier)) < Z.max 1 (Qceiling q)).
Proof using Hpages.
  revert allItems nextPage st.
  induction fuel as [|fuel IH]; intros allItems nextPage st Hlt Hfuel; [lia|].
  cbn [getAllPages_loop]. unfold mbind, Prog_bind, await. cbn [bind run].
  set (requestWithPage :=
         if truthy nextPage
         then JObj (obj_spread (fields_of request) [("page", nextPage)])
         else request).
  destruct (respond w SPage client method requestWithPage st) as [[e|page] st1] eqn:Hresp.
  - cbn [bind run]. eexists _, _, _. split; [reflexivity|].
    split; [discriminate|]. split; [simpl; lia|]. split; [|discriminate].
    intros [|x pre] suf Heq Hpre Hsuf; [done|].
    destruct pre; destruct suf; try done; discriminate.
  - pose proof (Hpages _ _ _ _ Hresp) as Hne.
    assert (Hgrow : (length allItems < length (allItems ++ items page))%nat).
    { rewrite length_app. destruct (items page); [done|simpl; lia]. }
    set (entry := entry_of (sh:=SPage) client method requestWithPage (inr page)).
    assert (Hdone :
      exists res st' new,
        (inr (Some (allItems ++ items page)) : JsError + option (list JVal), st1, [entry])
        = (res, st', new) /\
        res <> inr None /\
        1 <= Z.of_nat (length new) <= Z.max 1 (Qceiling q) - Z.of_nat (length allItems) /\
        (forall pre suf, new = pre ++ suf -> pre <> [] -> suf <> [] ->
           Z.of_nat (length (allItems ++ items_of (pages_of pre))) < Qceiling q) /\
        (forall result, res = inr (Some result) ->
           exists earlier last,
             pages_of new = earlier ++ [last] /\
             result = allItems ++ items_of (pages_of new) /\
             Z.of_nat (length (allItems ++ items_of earlier)) < Z.max 1 (Qceiling q))).
    { eexists _, _, _. split; [reflexivity|]. split; [discriminate|].
      split; [simpl; lia|]. split.
      - intros [|x pre] suf Heq Hpre Hsuf; [done|].
        destruct pre; destruct suf; try done; discriminate.
      - intros result Hres. inversion Hres; subst. exists [], page.
        split; [reflexivity|]. split.
        + unfold items_of. simpl. by rewrite app_nil_r.
        + unfold items_of. simpl. by rewrite app_nil_r. }
    cbn [bind]. rewrite length_ge_finite.
    destruct (Qceiling q <=? Z.of_nat (length (allItems ++ items page))) eqn:Hcap;
      [exact Hdone|].
    apply Z.leb_gt in Hcap.
    destruct (truthy (opcNextPage page)) eqn:Hnext; [|exact Hdone].
    clear Hdone. rewrite run_frame.
    assert (Hlt' : Z.of_nat (length (allItems ++ items page)) < Z.max 1 (Qceiling q))
      by lia.
    assert (Hfuel' : Z.max 1 (Qceiling q)
                     <= Z.of_nat (length (allItems ++ items page)) + Z.of_nat fuel) by lia.
    destruct (IH (allItems ++ items page) (opcNextPage page) st1 Hlt' Hfuel')
      as (res & st' & new & Hrun & Hres & Hcalls & Hprefix & Hbound).
    unfold await in Hrun. rewrite Hrun. exists res, st', ([entry] ++ new).
    split; [reflexivity|]. split; [exact Hres|].
    split; [simpl length; lia|]. split.
    + intros [|x pre] suf Heq Hpre Hsuf; [done|].
      simpl in Heq. inversion Heq; subst x.
      destruct pre as [|y pre].
      * unfold items_of. simpl. rewrite app_nil_r. lia.
      * specialize (Hprefix (y :: pre) suf H1 ltac:(done) Hsuf).
        change (pages_of (entry :: y :: pre)) with (page :: pages_of (y :: pre)).
        unfold items_of in *. simpl concat. simpl map. simpl concat.
        by rewrite app_assoc.
    + intros result Hresult.
      destruct (Hbound result Hresult) as (earlier & last & Hpg & -> & Hacc).
      exists (page :: earlier), last.
      change (pages_of ([entry] ++ new)) with (page :: pages_of new).
      split; [by rewrite Hpg|]. unfold items_of in *. simpl map. simpl concat.
      split; [by rewrite app_assoc|]. by rewrite app_assoc.
Qed.

End GetAllPages.

Lemma sample_world_nonempty_pages client method :
  nonempty_pages (sample_world None not_found) client method.
Proof.
  intros request st page st' H. simpl in H. inversion H; subst. discriminate.
Qed.

Lemma endless_pages_nonempty client method :
  nonempty_pages endless_pages_world client method.
Proof.
  intros request st page st' H. simpl in H. inversion H; subst. discriminate.
Qed.

Lemma empty_pages_never_end (client method : string) (request : JVal) (fuel : nat) :
  forall nextPage st tr,
    exists new,
      run empty_pages_world
        (getAllPages_loop fuel (await SPage client method) request default_maxItems
           [] nextPage) st tr = (inr None, st, tr ++ new) /\
      length new = fuel.
Proof.
  induction fuel as [|fuel IH]; intros nextPage st tr.
  - exists []. split; [simpl; by rewrite app_nil_r | done].
  - cbn [getAllPages_loop]. unfold mbind, Prog_bind, await. cbn [bind run].
    cbn [respond empty_pages_world items opcNextPage app length].
    change (length_ge 0 default_maxItems) with false.
    cbn [truthy negb String.eqb]. cbn [bind].
    match goal with
    | |- context [run _ _ st (tr ++ [?entry])] =>
        destruct (IH (JStr "next") st (tr ++ [entry])) as (new & Hrun & Hlen);
        exists (entry :: new)
    end.
    unfold await in Hrun. simpl in Hrun |- *. rewrite Hrun.
    split; [by rewrite <- app_assoc | simpl; lia].
Qed.

(** A cap that is [NaN] or [Infinity] is never reached: against pages that
    always carry a token the loop does not end, although every page holds
    an item. *)
Lemma uncapped_pages_never_end (client method : string) (request : JVal)
    (maxItems : JsNumber) (fuel : nat) :
  maxItems = NaN \/ maxItems = PlusInfinity ->
  forall allItems nextPage st tr,
    exists new,
      run endless_pages_world
        (getAllPages_loop fuel (await SPage client method) request maxItems
           allItems nextPage) st tr = (inr None, st, tr ++ new) /\
      length new = fuel.
Proof.
  intros Hcap.
  induction fuel as [|fuel IH]; intros allItems nextPage st tr.
  - exists []. split; [simpl; by rewrite app_nil_r | done].
  - cbn [getAllPages_loop]. unfold mbind, Prog_bind, await. cbn [bind run].
    cbn [respond endless_pages_world items opcNextPage].
    assert (Hge : forall n, length_ge n maxItems = false)
      by (intros n; by destruct Hcap as [-> | ->]).
    cbn [bind items opcNextPage]. rewrite Hge. cbn [truthy negb String.eqb].
    match goal with
    | |- context [run _ (getAllPages_loop _ _ _ _ ?items _) st (tr ++ [?entry])] =>
        destruct (IH items (JStr "next") st (tr ++ [entry])) as (new & Hrun & Hlen);
        exists (entry :: new)
    end.
    unfold await in Hrun. rewrite Hrun.
    split; [by rewrite <- app_assoc | simpl; lia].
Qed.

(** C10, as stated, fails for a cap that is not positive: with
    [maxItems = 0] the loop still performs its first call, although the
    accumulated count (0) has already reached the cap, and returns that
    page, which is not shorter than [0] plus itself.  It also fails for a
    cap that is not finite: with [maxItems] [NaN] or [Infinity] and pages of
    one item that always carry a token, the loop does not end. *)
Lemma getAllPages_bound_not_as_stated :
  (nonempty_pages (sample_world None not_found) "computeClient" "listInstances" /\
   exists page entry,
     e_page entry = Some page /\
     (forall fuel,
        run (sample_world None not_found)
          (getAllPages (S fuel) (await SPage "computeClient" "listInstances") (JObj [])
             (Finite 0%Q))
          0%nat [] = (inr (Some (items page)), 1%nat, [entry])) /\
     ~ (inject_Z (Z.of_nat (length (items page)))
        < 0 + inject_Z (Z.of_nat (length (items page))))%Q) /\
  (nonempty_pages endless_pages_world "computeClient" "listInstances" /\
   forall maxItems fuel,
     maxItems = NaN \/ maxItems = PlusInfinity ->
     exists new,
       run endless_pages_world
         (getAllPages fuel (await SPage "computeClient" "listInstances") (JObj [])
            maxItems) tt []
       = (inr None, tt, new) /\
       length new = fuel).
Proof.
  split.
  - split; [apply sample_world_nonempty_pages|].
    exists (sample_response SPage),
           (entry_of (sh:=SPage) "computeClient" "listInstances" (JObj [])
              (inr (sample_response SPage))).
    split; [reflexivity|]. split; [intros fuel; reflexivity|].
    vm_compute. intros H. discriminate H.
  - split; [apply endless_pages_nonempty|].
    intros maxItems fuel Hcap.
    destruct (uncapped_pages_never_end "computeClient" "listInstances" (JObj [])
                maxItems fuel Hcap [] JUndef tt [])
      as (new & Hrun & Hlen).
    by exists new.
Qed.

(** C10, amended: for a finite [maxItems], when every page the backend
    answers with holds at least one item, [getAllPages] terminates (within
    the ceiling of [maxItems] calls, and at least one); every call after the
    first is issued while the accumulated count is below [maxItems]; the
    returned list is the items of all fetched pages; it has fewer than
    [maxItems] plus the size of the last page items when [maxItems] is
    positive, and is the first page alone, fetched by the only call, when
    [maxItems] is zero or negative.  Against a backend that answers empty
    pages with a next-page token the loop does not end. *)
Theorem getAllPages_capped :
  (forall W (w : World W) (client method : string) (request : JVal) (maxItems : Q)
          (st : W) (fuel : nat),
     nonempty_pages w client method ->
     (Z.to_nat (Z.max 1 (Qceiling maxItems)) <= fuel)%nat ->
     exists res st' new,
       run w (getAllPages fuel (await SPage client method) request (Finite maxItems)) st []
       = (res, st', new) /\
       res <> inr None /\
       (1 <= length new <= Z.to_nat (Z.max 1 (Qceiling maxItems)))%nat /\
       (forall pre suf, new = pre ++ suf -> pre <> [] -> suf <> [] ->
          (inject_Z (Z.of_nat (length (items_of (pages_of pre)))) < maxItems)%Q) /\
       (forall result, res = inr (Some result) ->
          exists earlier last,
            pages_of new = earlier ++ [last] /\
            result = items_of (pages_of new) /\
            ((0 < maxItems)%Q ->
             (inject_Z (Z.of_nat (length result))
              < maxItems + inject_Z (Z.of_nat (length (items last))))%Q) /\
            ((maxItems <= 0)%Q -> new <> [] /\ length new = 1%nat /\ earlier = []))) /\
  (forall (client method : string) (request : JVal) (fuel : nat),
     exists new,
       run empty_pages_world
         (getAllPages fuel (await SPage client method) request default_maxItems) tt []
       = (inr None, tt, new) /\
       length new = fuel).
Proof.
  split.
  - intros W w client method request maxItems st fuel Hpages Hfuel.
    destruct (getAllPages_loop_run w client method request maxItems Hpages
                fuel [] JUndef st)
      as (res & st' & new & Hrun & Hres & Hcalls & Hprefix & Hbound);
      [simpl; lia | simpl; lia |].
    exists res, st', new. split; [exact Hrun|]. split; [exact Hres|].
    split; [simpl in Hcalls; lia|]. split.
    { intros pre suf Heq Hpre Hsuf. apply below_ceiling.
      exact (Hprefix pre suf Heq Hpre Hsuf). }
    intros result Hresult.
    destruct (Hbound result Hresult) as (earlier & last & Hpg & -> & Hacc).
    exists earlier, last. split; [exact Hpg|]. split; [reflexivity|].
    simpl app in *. split.
    + intros Hpos. pose proof (ceiling_positive maxItems Hpos) as Hc.
      assert (Hacc' : Z.of_nat (length (items_of earlier)) < Qceiling maxItems) by lia.
      apply below_ceiling in Hacc'.
      rewrite Hpg. unfold items_of in *.
      rewrite map_app, concat_app, length_app. simpl. rewrite app_nil_r.
      rewrite Nat2Z.inj_add, inject_Z_plus.
      by apply Qplus_lt_l.
    + intros Hneg. pose proof (ceiling_not_positive maxItems Hneg) as Hc.
      simpl in Hcalls.
      assert (Hone : length new = 1%nat) by lia.
      split; [by destruct new|]. split; [exact Hone|].
      assert (Hlen : (length (pages_of new) <= length new)%nat).
      { unfold pages_of, omap. clear. induction new as [|x l IH]; [done|].
        simpl. destruct (e_page x); simpl; lia. }
      rewrite Hpg, length_app in Hlen. simpl in Hlen.
      destruct earlier; [done|]. simpl in Hlen. lia.
  - intros client method request fuel.
    destruct (empty_pages_never_end client method request fuel JUndef tt [])
      as (new & Hrun & Hlen).
    by exists new.
Qed.

Lemma getAllPages_capped_witness :
  nonempty_pages (sample_world None not_found) "computeClient" "listInstances" /\
  (Z.to_nat (Z.max 1 (Qceiling (inject_Z 1000))) <= 1000)%nat /\
  exists res st' new,
    run (sample_world None not_found)
      (getAllPages 1000 (await SPage "computeClient" "listInstances") (JObj [])
         default_maxItems) 0%nat []
    = (res, st', new) /\
    res <> inr None /\
    (1 <= length new <= Z.to_nat (Z.max 1 (Qceiling (inject_Z 1000))))%nat /\
    (forall pre suf, new = pre ++ suf -> pre <> [] -> suf <> [] ->
       (inject_Z (Z.of_nat (length (items_of (pages_of pre)))) < inject_Z 1000)%Q) /\
    (forall result, res = inr (Some result) ->
       exists earlier last,
         pages_of new = earlier ++ [last] /\
         result = items_of (pages_of new) /\
         ((0 < inject_Z 1000)%Q ->
          (inject_Z (Z.of_nat (length result))
           < inject_Z 1000 + inject_Z (Z.of_nat (length (items last))))%Q) /\
         ((inject_Z 1000 <= 0)%Q -> new <> [] /\ length new = 1%nat /\ earlier = [])).
Proof.
  assert (H1 : nonempty_pages (sample_world None not_found) "computeClient" "listInstances")
    by apply sample_world_nonempty_pages.
  assert (H2 : (Z.to_nat (Z.max 1 (Qceiling (inject_Z 1000))) <= 1000)%nat)
    by (vm_compute; lia).
  split; [exact H1|]. split; [exact H2|].
  exact (proj1 getAllPages_capped nat (sample_world None not_found)
           "computeClient" "listInstances" (JObj []) (inject_Z 1000) 0%nat
           1000%nat H1 H2).
Defined.

(** A cap between two integers, against pages of one item: the second call
    is still made, since one item has not reached a cap of one and a half. *)
Example getAllPages_fractional_cap :
  let '(res, _, new) :=
    run three_pages_world
      (getAllPages 10 (await SPage "computeClient" "listInstances")
         (JObj [("compartmentId", JStr "c1")]) (Finite (3 # 2))) 0%nat [] in
  res = inr (Some [JNum 0; JNum 1]) /\ length new = 2%nat.
Proof. vm_compute. by split. Qed.

(** * Further properties *)

(** ** Validation: what [z.object] and [z.union] keep *)

Lemma parse_object_shape shape fields :
  parse (z_object shape) (JObj fields) = JObj <$> parse_shape shape fields.
Proof.
  simpl.
  assert (Hgo :
    (fix each (sh : list (string * Schema)) : option JObject :=
       match sh with
       | [] => Some []
       | (k, sk) :: rest =>
           match parse sk (obj_get k fields), each rest with
           | Some x, Some rest' =>
               Some (match x with
                     | JUndef => if obj_has k fields then (k, x) :: rest' else rest'
                     | _ => (k, x) :: rest'
                     end)
           | _, _ => None
           end
       end) shape = parse_shape shape fields).
  { induction shape as [|[k sk] rest IH]; [reflexivity|].
    cbn [parse_shape]. rewrite <- IH. reflexivity. }
  rewrite Hgo. by destruct (parse_shape shape fields).
Qed.

Lemma parse_object_inv shape v out :
  parse (z_object shape) v = Some out ->
  exists fields o,
    v = JObj fields /\ out = JObj o /\ parse_shape shape fields = Some o.
Proof.
  destruct v as [| | | | |xs|fields]; try discriminate.
  rewrite parse_object_shape.
  destruct (parse_shape shape fields) as [o|] eqn:Ho; [|discriminate].
  intros H. inversion H; subst. by exists fields, o.
Qed.

Lemma parse_shape_cons k sk rest fields out :
  parse_shape ((k, sk) :: rest) fields = Some out ->
  exists x out',
    parse sk (obj_get k fields) = Some x /\
    parse_shape rest fields = Some out' /\
    (out = (k, x) :: out' \/ (x = JUndef /\ out = out')).
Proof.
  cbn [parse_shape].
  destruct (parse sk (obj_get k fields)) as [x|]; [|discriminate].
  destruct (parse_shape rest fields) as [out'|]; [|discriminate].
  intros H. exists x, out'. split; [done|]. split; [done|].
  destruct x; try (left; congruence).
  destruct (obj_has k fields); [left; congruence | right; split; congruence].
Qed.

(** A key the shape does not declare is stripped. *)
Lemma parse_shape_undeclared shape fields out k :
  parse_shape shape fields = Some out ->
  declares shape k = false ->
  obj_get k out = JUndef.
Proof.
  revert out. induction shape as [|[k0 s0] rest IH]; intros out Hout Hk.
  - by inversion Hout.
  - apply parse_shape_cons in Hout as (x & out' & _ & Hrest & Hcase).
    unfold declares in Hk. cbn [map existsb fst] in Hk.
    apply orb_false_iff in Hk as [Hne Hk].
    specialize (IH out' Hrest Hk).
    destruct Hcase as [->|[_ ->]]; [|done].
    cbn [obj_get]. rewrite String.eqb_sym, Hne. exact IH.
Qed.

(** A declared key holds the parsed value of the member of that name. *)
Lemma parse_shape_declared shape fields out k sk :
  NoDup shape.*1 ->
  parse_shape shape fields = Some out ->
  (k, sk) ∈ shape ->
  parse sk (obj_get k fields) = Some (obj_get k out).
Proof.
  revert out. induction shape as [|[k0 s0] rest IH]; intros out Hnd Hout Hin.
  - by apply elem_of_nil in Hin.
  - apply parse_shape_cons in Hout as (x & out' & Hx & Hrest & Hcase).
    cbn [fmap list_fmap fst] in Hnd. apply NoDup_cons in Hnd as [Hfresh Hnd].
    assert (Habsent : declares rest k0 = false).
    { unfold declares. apply not_true_is_false. intros Hex.
      apply existsb_exists in Hex as (k' & Hin' & Heq).
      apply String.eqb_eq in Heq. subst k'. apply Hfresh.
      by apply list_elem_of_In. }
    apply elem_of_cons in Hin as [Heq|Hin].
    + inversion Heq; subst k0 s0. rewrite Hx. f_equal.
      destruct Hcase as [->|[-> ->]].
      * cbn [obj_get]. by rewrite String.eqb_refl.
      * symmetry. by eapply parse_shape_undeclared.
    + assert (Hne : String.eqb k0 k = false).
      { apply String.eqb_neq. intros ->. apply Hfresh.
        apply list_elem_of_fmap. by exists (k, sk). }
      rewrite (IH out' Hnd Hrest Hin). f_equal.
      destruct Hcase as [->|[_ ->]]; [|done].
      cbn [obj_get]. by rewrite Hne.
Qed.

(** An object whose declared members all pass is accepted. *)
Lemma parse_shape_complete shape fields :
  Forall (fun ks => is_Some (parse ks.2 (obj_get ks.1 fields))) shape ->
  is_Some (parse_shape shape fields).
Proof.
  induction 1 as [|[k sk] rest [x Hx] _ [out' IH]]; [by eexists|].
  cbn [parse_shape fst snd] in *. rewrite Hx, IH. by eexists.
Qed.

Lemma parse_object_complete shape fields :
  Forall (fun ks => is_Some (parse ks.2 (obj_get ks.1 fields))) shape ->
  is_Some (parse (z_object shape) (JObj fields)).
Proof.
  intros H. rewrite parse_object_shape.
  destruct (parse_shape_complete shape fields H) as [o ->]. by eexists.
Qed.

Lemma parse_union_cons o os v :
  parse (z_union (o :: os)) v =
  match parse o v with
  | Some x => Some x
  | None => parse (z_union os) v
  end.
Proof. reflexivity. Qed.

Lemma string_length_pos c s : Nat.leb 1 (string_length (String c s)) = true.
Proof.
  unfold string_length. cbn [utf16_units].
  by repeat match goal with |- context [Nat.ltb ?a ?b] => destruct (Nat.ltb a b) end.
Qed.

Lemma parse_nonempty_string v :
  is_Some (parse (zstring_min 1) v) <-> nonempty_string v.
Proof.
  unfold nonempty_string. split.
  - intros [x Hx]. destruct v as [| | | |s| |]; try discriminate.
    exists s. split; [done|]. by destruct s.
  - intros (s & -> & Hs). destruct s as [|c s]; [done|].
    cbn [parse zstring_min]. rewrite string_length_pos. by eexists.
Qed.

Lemma parse_optional_string v :
  is_Some (parse (z_optional zstring) v) <-> optional_string v.
Proof.
  unfold optional_string. split.
  - intros [x Hx]. destruct v as [| | | |s| |]; try discriminate;
      [by left | right; by exists s].
  - intros [->|[s ->]]; by eexists.
Qed.

Lemma nonempty_optional_string v : nonempty_string v -> optional_string v.
Proof. intros (s & -> & _). right. by exists s. Qed.

Lemma parse_literal_inv l v x :
  parse (z_literal l) v = Some x -> v = JStr l /\ x = JStr l.
Proof.
  cbn [parse]. destruct v as [| | | |s| |]; try discriminate.
  cbn [is_str]. destruct (String.eqb_spec s l) as [->|]; [|discriminate].
  intros H. by inversion H.
Qed.

Lemma parse_enum_inv options v x :
  parse (z_enum options) v = Some x ->
  exists s, v = JStr s /\ x = JStr s /\ string_in s options = true.
Proof.
  cbn [parse]. destruct v as [| | | |s| |]; try discriminate.
  destruct (string_in s options) eqn:Hs; [|discriminate].
  intros H. inversion H; subst. by exists s.
Qed.

(** The first member of a shape is kept under its key, unless it is
    [undefined]. *)
Lemma parse_head_kept k sk rest args input :
  parse (z_object ((k, sk) :: rest)) args = Some input ->
  exists x, parse sk args!.k = Some x /\ (x <> JUndef -> input!.k = x).
Proof.
  intros H. apply parse_object_inv in H as (fields & o & -> & -> & Ho).
  apply parse_shape_cons in Ho as (x & out' & Hx & _ & Hcase).
  exists x. split; [done|]. intros Hdef.
  destruct Hcase as [->|[-> _]]; [|done].
  cbn [prop obj_get]. by rewrite String.eqb_refl.
Qed.

(** The four tool input unions have the same build: three members led by
    a literal [action] and one led by an enumeration of verbs.  The member
    that accepted is told by the [action] of the parsed input. *)
Lemma tool_union_inv l g c ms m args input :
  parse (z_union [z_object (("action", z_literal "list") :: l);
                  z_object (("action", z_literal "get") :: g);
                  z_object (("action", z_literal "create") :: c);
                  z_object (("action", z_enum ms) :: m)]) args = Some input ->
  (input!."action" = JStr "list" /\
   parse (z_object (("action", z_literal "list") :: l)) args = Some input) \/
  (input!."action" = JStr "get" /\
   parse (z_object (("action", z_literal "get") :: g)) args = Some input) \/
  (input!."action" = JStr "create" /\
   parse (z_object (("action", z_literal "create") :: c)) args = Some input) \/
  (exists verb, input!."action" = JStr verb /\ string_in verb ms = true /\
   parse (z_object (("action", z_enum ms) :: m)) args = Some input).
Proof.
  rewrite !parse_union_cons.
  destruct (parse (z_object (("action", z_literal "list") :: l)) args) as [x|] eqn:HL.
  { intros H; inversion H; subst. left. split; [|done].
    destruct (parse_head_kept _ _ _ _ _ HL) as (y & Hy & Hkept).
    apply parse_literal_inv in Hy as [_ ->]. by apply Hkept. }
  destruct (parse (z_object (("action", z_literal "get") :: g)) args) as [x|] eqn:HG.
  { intros H; inversion H; subst. right; left. split; [|done].
    destruct (parse_head_kept _ _ _ _ _ HG) as (y & Hy & Hkept).
    apply parse_literal_inv in Hy as [_ ->]. by apply Hkept. }
  destruct (parse (z_object (("action", z_literal "create") :: c)) args) as [x|] eqn:HC.
  { intros H; inversion H; subst. right; right; left. split; [|done].
    destruct (parse_head_kept _ _ _ _ _ HC) as (y & Hy & Hkept).
    apply parse_literal_inv in Hy as [_ ->]. by apply Hkept. }
  destruct (parse (z_object (("action", z_enum ms) :: m)) args) as [x|] eqn:HM;
    [|discriminate].
  intros H; inversion H; subst. right; right; right.
  destruct (parse_head_kept _ _ _ _ _ HM) as (y & Hy & Hkept).
  apply parse_enum_inv in Hy as (verb & _ & -> & Hverb).
  exists verb. split; [by apply Hkept|]. by split.
Qed.

(** ** The backend calls of a program *)

Lemma Calls_bind {A B} Q (p : Prog A) (f : A -> Prog B) :
  Calls Q p -> (forall a, Calls Q (f a)) -> Calls Q (bind p f).
Proof.
  intros Hp Hf. induction p as [a|e|sh c m req k IH|k IH]; simpl in *.
  - apply Hf.
  - exact I.
  - destruct Hp as [HQ Hk]. split; [done|]. intros r. by apply IH.
  - intros t. by apply IH.
Qed.

Lemma Calls_try_catch {A} Q (p : Prog A) (h : JsError -> Prog A) :
  Calls Q p -> (forall e, Calls Q (h e)) -> Calls Q (try_catch p h).
Proof.
  intros Hp Hh. induction p as [a|e|sh c m req k IH|k IH]; simpl in *.
  - exact I.
  - apply Hh.
  - destruct Hp as [HQ Hk]. split; [done|]. intros r. by apply IH.
  - intros t. by apply IH.
Qed.

Lemma Calls_for_of {X} Q (xs : list X) (body : X -> Prog unit) :
  (forall x, Calls Q (body x)) -> Calls Q (for_of xs body).
Proof.
  intros Hb. induction xs as [|x xs IH]; simpl; [done|].
  apply Calls_bind; [apply Hb | intros _; exact IH].
Qed.

Lemma Calls_run {W A} (w : World W) Q (p : Prog A) st res st' new :
  Calls Q p ->
  run w p st [] = (res, st', new) ->
  Forall (fun e => Q (e_client e) (e_method e) (e_request e)) new.
Proof.
  revert st new. induction p as [a|e|sh c m req k IH|k IH]; intros st new Hp Hrun;
    simpl in *.
  - inversion Hrun; subst. constructor.
  - inversion Hrun; subst. constructor.
  - destruct Hp as [HQ Hk].
    destruct (respond w sh c m req st) as [r st1].
    rewrite run_frame in Hrun.
    destruct (run w (k r) st1 []) as [[r' st''] new'] eqn:Hkr.
    inversion Hrun; subst. constructor; [exact HQ|]. by eapply IH.
  - destruct (now w st) as [t st1]. by eapply IH.
Qed.

Lemma AtMost_mono {A} (n m : nat) (p : Prog A) :
  (n <= m)%nat -> AtMost n p -> AtMost m p.
Proof.
  revert n m. induction p as [a|e|sh c m' req k IH|k IH]; intros n m Hle Hp;
    simpl in *; try done.
  - destruct n as [|n]; [done|]. destruct m as [|m]; [lia|].
    intros r. apply (IH r n m); [lia | apply Hp].
  - intros t. by apply (IH t n m).
Qed.

Lemma AtMost_bind {A B} (n m : nat) (p : Prog A) (f : A -> Prog B) :
  AtMost n p -> (forall a, AtMost m (f a)) -> AtMost (n + m) (bind p f).
Proof.
  revert n. induction p as [a|e|sh c m' req k IH|k IH]; intros n Hp Hf; simpl in *.
  - apply (AtMost_mono m); [lia | apply Hf].
  - exact I.
  - destruct n as [|n]; [done|]. intros r. by apply IH.
  - intros t. by apply IH.
Qed.

Lemma AtMost_try_catch {A} (n : nat) (p : Prog A) (h : JsError -> Prog A) :
  AtMost n p -> (forall e, AtMost 0 (h e)) -> AtMost n (try_catch p h).
Proof.
  revert n. induction p as [a|e|sh c m' req k IH|k IH]; intros n Hp Hh; simpl in *.
  - exact I.
  - apply (AtMost_mono 0); [lia | apply Hh].
  - destruct n as [|n]; [done|]. intros r. by apply IH.
  - intros t. by apply IH.
Qed.

Lemma AtMost_for_of {X} (xs : list X) (body : X -> Prog unit) :
  (forall x, AtMost 1 (body x)) -> AtMost (length xs) (for_of xs body).
Proof.
  intros Hb. induction xs as [|x xs IH]; simpl; [done|].
  apply (AtMost_bind 1 (length xs)); [apply Hb | intros _; exact IH].
Qed.

Lemma AtMost_run {W A} (w : World W) (n : nat) (p : Prog A) st res st' new :
  AtMost n p ->
  run w p st [] = (res, st', new) ->
  (length new <= n)%nat.
Proof.
  revert n st new. induction p as [a|e|sh c m req k IH|k IH];
    intros n st new Hp Hrun; simpl in *.
  - inversion Hrun; subst. simpl. lia.
  - inversion Hrun; subst. simpl. lia.
  - destruct n as [|n]; [done|].
    destruct (respond w sh c m req st) as [r st1].
    rewrite run_frame in Hrun.
    destruct (run w (k r) st1 []) as [[r' st''] new'] eqn:Hkr.
    inversion Hrun; subst. simpl.
    specialize (IH r n st1 new' (Hp r) Hkr). lia.
  - destruct (now w st) as [t st1]. by eapply IH.
Qed.

(** ** RPC errors of the two servers *)

(** X1: whatever the tool name, the arguments and the backend, the
    four-tool server never answers a tool call with the RPC error "internal
    error"; and whenever it answers with an RPC error, no backend call was
    made and the backend is unchanged. *)
Theorem callTool_never_internal_error (is_email : string -> bool)
    (c : OCIClientManager) (name : string) (args : JVal) {W} (w : World W) (st : W) :
  let '(res, st', new) := run w (Server.callTool is_email c name args) st [] in
  ~ rpc_error InternalError res /\
  forall code, rpc_error code res -> new = [] /\ st' = st.
Proof.
  destruct (run w (Server.callTool is_email c name args) st []) as [[res st'] new] eqn:Hrun.
  destruct (tool_of_name name) as [d|] eqn:Htool.
  - rewrite (callTool_routes _ _ _ _ d Htool), run_try_catch in Hrun.
    pose proof (handler_run w is_email c d args st) as Hh.
    destruct (parse (Server.input_schema is_email d) args) as [input|].
    + destruct Hh as (env & st1 & new1 & _ & Hh). rewrite Hh in Hrun.
      inversion Hrun; subst.
      split; [intros (e & Heq & _); discriminate|].
      intros code (e & Heq & _). discriminate.
    + destruct Hh as (e & Hh & Hcode). rewrite Hh in Hrun. simpl in Hrun.
      rewrite Hcode in Hrun. simpl in Hrun. inversion Hrun; subst.
      split; [|done].
      intros (e' & Heq & Hbad). inversion Heq; subst. congruence.
  - unfold Server.callTool in Hrun. unfold tool_of_name in Htool.
    repeat (destruct (String.eqb name _); [discriminate|]).
    simpl in Hrun. inversion Hrun; subst.
    split; [|done].
    intros (e' & Heq & Hbad). inversion Heq; subst. discriminate.
Qed.

(** X2: the single-tool server never calls the backend.  An unknown tool
    name yields "method not found"; omitted arguments ([undefined] or
    [null]) yield "internal error", not "invalid params"; a falsy
    [service], [action] or [resourceType] yields "invalid params"; every
    other call is answered with a text payload,
    [{ content: [{ type: 'text', text }] }]. *)
Theorem simple_callTool_outcomes (env : gmap string string) (name : string)
    (args : JVal) {W} (w : World W) (st : W) :
  let '(res, st', new) := run w (SimpleServer.callTool env name args) st [] in
  new = [] /\ st' = st /\
  if negb (String.eqb name "oci-manage") then rpc_error MethodNotFound res
  else if nullish args then rpc_error InternalError res
  else if negb (truthy args!."service") || negb (truthy args!."action")
          || negb (truthy args!."resourceType")
       then rpc_error InvalidParams res
  else exists text,
         res = inr (JObj [("content",
                           JArr [JObj [("type", JStr "text"); ("text", JStr text)]])]).
Proof.
  unfold SimpleServer.callTool, SimpleServer.handleOCIManage, reading.
  destruct (String.eqb name "oci-manage"); cbn [negb].
  - destruct (nullish args).
    + cbn [try_catch run err_mcp new_TypeError new_McpError].
      repeat split. eexists. by split.
    + destruct (negb (truthy args!."service") || negb (truthy args!."action")
                || negb (truthy args!."resourceType")).
      * cbn [try_catch run err_mcp new_McpError].
        repeat split. eexists. by split.
      * cbv zeta. unfold mret, Prog_ret.
        match goal with |- context [if ?b then _ else _] => destruct b end;
          cbn [try_catch run]; repeat split; by eexists.
  - cbn [try_catch run err_mcp new_McpError]. repeat split. eexists. by split.
Qed.

(** X3: with the five required variables set to non-empty values, a call
    naming a service, an action and a resource type is answered with a text
    payload that serializes the placeholder envelope: [success] and
    [credentials_configured] are true,
    no backend call is made, and the echoed compartment is never empty: it
    is the argument of the call, else [OCI_COMPARTMENT_ID], else the
    tenancy. *)
Theorem simple_placeholder_response (env : gmap string string) (args : JVal)
    {W} (w : World W) (st : W) :
  truthy args!."service" = true ->
  truthy args!."action" = true ->
  truthy args!."resourceType" = true ->
  Forall (fun var => truthy (env_get env var) = true) SimpleServer.requiredEnvVars ->
  exists response,
    run w (SimpleServer.callTool env "oci-manage" args) st []
    = (inr (JObj [("content",
                   JArr [JObj [("type", JStr "text");
                               ("text", JStr (JSON_stringify response))]])]),
       st, []) /\
    succeeded response /\
    response!."credentials_configured" = JBool true /\
    truthy response!."compartmentId" = true /\
    response!."compartmentId"
    = args!."compartmentId" ||| env_get env "OCI_COMPARTMENT_ID"
      ||| env_get env "OCI_TENANCY_ID".
Proof.
  intros Hs Ha Hr Henv.
  unfold SimpleServer.requiredEnvVars in Henv. rewrite !Forall_cons in Henv.
  destruct Henv as (H1 & H2 & H3 & H4 & H5 & _).
  assert (Hobj : args!."service" <> JUndef) by (intros E; by rewrite E in Hs).
  unfold SimpleServer.callTool, SimpleServer.handleOCIManage.
  cbn [String.eqb Ascii.eqb Bool.eqb].
  rewrite (reading_prop _ _ _ _ Hobj), Hs, Ha, Hr.
  cbn [negb orb]. unfold SimpleServer.requiredEnvVars.
  cbn [List.filter]. rewrite H1, H2, H3, H4, H5. cbn [negb List.filter length].
  cbn [Z.of_nat Z.ltb Z.compare try_catch run].
  eexists. split; [reflexivity|]. split; [reflexivity|]. split; [reflexivity|].
  split; [|reflexivity].
  cbn [prop obj_get String.eqb Ascii.eqb Bool.eqb].
  unfold js_or.
  destruct (truthy args!."compartmentId") eqn:E1; [by rewrite E1|].
  destruct (truthy (env_get env "OCI_COMPARTMENT_ID")) eqn:E2; [by rewrite E2|done].
Qed.

Lemma simple_placeholder_response_witness :
  exists response,
    run (sample_world None not_found)
      (SimpleServer.callTool sample_env "oci-manage"
         (JObj [("service", JStr "compute"); ("action", JStr "list");
                ("resourceType", JStr "instances")])) 0%nat []
    = (inr (JObj [("content",
                   JArr [JObj [("type", JStr "text");
                               ("text", JStr (JSON_stringify response))]])]),
       0%nat, []) /\
    response!."compartmentId" = JStr "ocid1.tenancy".
Proof.
  pose (args := JObj [("service", JStr "compute"); ("action", JStr "list");
                      ("resourceType", JStr "instances")]).
  assert (H1 : truthy args!."service" = true) by reflexivity.
  assert (H2 : truthy args!."action" = true) by reflexivity.
  assert (H3 : truthy args!."resourceType" = true) by reflexivity.
  assert (H4 : Forall (fun var => truthy (env_get sample_env var) = true)
                 SimpleServer.requiredEnvVars)
    by (repeat constructor).
  destruct (simple_placeholder_response sample_env args (sample_world None not_found)
              0%nat H1 H2 H3 H4) as (response & Hrun & _ & _ & _ & Hc).
  exists response. split; [exact Hrun|]. rewrite Hc. reflexivity.
Defined.

(** ** The connection test *)

(** X4: [testConnection] never throws: it performs exactly one call,
    [listCompartments] on the tenancy, and answers [true] exactly when that
    call resolved. *)
Theorem testConnection_never_throws (c : OCIClientManager) {W} (w : World W) (st : W) :
  exists b st' entry,
    run w (testConnection c) st [] = (inr b, st', [entry]) /\
    call_of entry
    = ("identityClient", "listCompartments", JObj [("compartmentId", getTenancyId c)]) /\
    (b = true <-> resolved entry).
Proof.
  unfold testConnection. cbn.
  destruct (respond w SVoid "identityClient" "listCompartments" _ st) as [[e|x] st1];
    cbn; eexists _, _, _; (split; [reflexivity|]); (split; [reflexivity|]);
    unfold resolved; cbn; split; congruence.
Qed.

(** ** Declared but not implemented *)

Ltac accepted_by_computation :=
  match goal with
  | |- accepts ?S ?v =>
      unfold accepts; destruct (parse S v) eqn:Hparse;
      [by eexists | vm_compute in Hparse; discriminate Hparse]
  end.

(** X5: the management verbs listed by [unimplemented_actions] pass the
    input union of their tool, yet [execute] has no branch for them: every
    input with such a verb is answered with the failure envelope
    "Unsupported management action", without any backend call. *)
Theorem unimplemented_actions_fail (is_email : string -> bool) (c : OCIClientManager)
    (d : Server.Domain) (verb : string) :
  verb ∈ unimplemented_actions d ->
  (exists resourceType,
     accepts (Server.input_schema is_email d) (sample_call verb resourceType)) /\
  forall input W (w : World W) (st : W),
    input!."action" = JStr verb ->
    run w (Server.execute c d input) st []
    = (inr (failure ("OCI Error: Unsupported management action: " +:+ verb)), st, []).
Proof.
  intros Hverb.
  destruct d; unfold unimplemented_actions in Hverb;
    repeat (apply elem_of_cons in Hverb as [->|Hverb]);
    try (by apply elem_of_nil in Hverb).
  all: split;
    [ first [ exists "security-list"; accepted_by_computation
            | exists "database"; accepted_by_computation
            | exists "alarm"; accepted_by_computation ]
    | intros input W w st Hact;
      assert (Hobj : input!."action" <> JUndef) by (by rewrite Hact);
      unfold Server.execute, StorageNetwork.execute, DatabaseAnalytics.execute,
        MonitoringSecurity.execute, StorageNetwork.manageResource,
        DatabaseAnalytics.manageResource, MonitoringSecurity.manageResource;
      rewrite (reading_prop _ _ _ _ Hobj); cbv zeta; rewrite !Hact; reflexivity ].
Qed.

Lemma unimplemented_actions_fail_witness :
  "restore-database" ∈ unimplemented_actions Server.database_analytics /\
  run (sample_world None not_found)
    (Server.execute sample_client Server.database_analytics
       (sample_call "restore-database" "database")) 0%nat []
  = (inr (failure "OCI Error: Unsupported management action: restore-database"),
     0%nat, []).
Proof.
  assert (H1 : "restore-database" ∈ unimplemented_actions Server.database_analytics)
    by (unfold unimplemented_actions; in_list).
  split; [exact H1|].
  exact (proj2 (unimplemented_actions_fail (fun _ => true) sample_client
                  Server.database_analytics "restore-database" H1)
           (sample_call "restore-database" "database") nat
           (sample_world None not_found) 0%nat eq_refl).
Defined.

(** X6: the resource types listed by [unsupported_types] pass the schema
    of their action, yet the [switch] of that action has no [case] for
    them: every such input is answered with the failure envelope
    "Unsupported resource type", without any backend call. *)
Theorem unsupported_types_fail (is_email : string -> bool) (c : OCIClientManager)
    (d : Server.Domain) (action resourceType : string) :
  resourceType ∈ unsupported_types d action ->
  accepts (Server.input_schema is_email d) (sample_call action resourceType) /\
  forall input W (w : World W) (st : W),
    input!."action" = JStr action ->
    input!."resourceType" = JStr resourceType ->
    run w (Server.execute c d input) st []
    = (inr (failure ("OCI Error: Unsupported resource type: " +:+ resourceType)),
       st, []).
Proof.
  intros Htype.
  destruct d; unfold unsupported_types in Htype;
    repeat match type of Htype with
      | context [String.eqb action ?l] => destruct (String.eqb_spec action l) as [->|_]
      end;
    repeat (apply elem_of_cons in Htype as [->|Htype]);
    try (by apply elem_of_nil in Htype).
  all: split;
    [ accepted_by_computation
    | intros input W w st Hact Htype;
      assert (Hobj : input!."action" <> JUndef) by (by rewrite Hact);
      unfold Server.execute, StorageNetwork.execute, DatabaseAnalytics.execute,
        MonitoringSecurity.execute,
        StorageNetwork.listResources, StorageNetwork.getResource,
        StorageNetwork.createResource,
        DatabaseAnalytics.listResources, DatabaseAnalytics.getResource,
        DatabaseAnalytics.createResource,
        MonitoringSecurity.listResources, MonitoringSecurity.getResource,
        MonitoringSecurity.createResource;
      rewrite (reading_prop _ _ _ _ Hobj); cbv zeta; rewrite !Hact, !Htype;
      reflexivity ].
Qed.

Lemma unsupported_types_fail_witness :
  "load-balancer" ∈ unsupported_types Server.storage_network "get" /\
  run (sample_world None not_found)
    (Server.execute sample_client Server.storage_network
       (sample_call "get" "load-balancer")) 0%nat []
  = (inr (failure "OCI Error: Unsupported resource type: load-balancer"), 0%nat, []).
Proof.
  assert (H1 : "load-balancer" ∈ unsupported_types Server.storage_network "get")
    by (cbn; in_list).
  split; [exact H1|].
  exact (proj2 (unsupported_types_fail (fun _ => true) sample_client
                  Server.storage_network "get" "load-balancer" H1)
           (sample_call "get" "load-balancer") nat
           (sample_world None not_found) 0%nat eq_refl eq_refl).
Defined.

(** ** How many calls, and which ones *)

Ltac atmost_step :=
  lazymatch goal with
  | |- AtMost _ (if ?b then _ else _) => destruct b
  | |- AtMost _ (bind (if ?b then _ else _) _) => destruct b; cbn [bind]
  | |- AtMost (S _) (Call _ _ _ _ _) => intros [?|?]; cbn [bind]
  | |- AtMost _ (DateNow _) => intros ?; cbn [bind]
  | |- AtMost _ (Throw _) => exact I
  | |- AtMost _ (Ret _) => exact I
  end.

Ltac atmost_auto := body_unfold; repeat atmost_step.

Ltac atmost_execute :=
  apply AtMost_try_catch; [|intros ?; exact I];
  unfold reading; cbv zeta;
  repeat lazymatch goal with
    | |- AtMost _ (if ?b then _ else _) => destruct b
    end;
  try exact I.

Lemma Compute_execute_calls c input : AtMost 1 (Compute.execute c input).
Proof.
  unfold Compute.execute. atmost_execute.
  - unfold Compute.listResources. atmost_auto.
  - unfold Compute.getResource. atmost_auto.
  - unfold Compute.createResource. atmost_auto.
  - unfold Compute.manageInstance. atmost_auto.
  - unfold Compute.manageVolume. atmost_auto.
Qed.

Lemma DatabaseAnalytics_execute_calls c input :
  AtMost 1 (DatabaseAnalytics.execute c input).
Proof.
  unfold DatabaseAnalytics.execute. atmost_execute.
  - unfold DatabaseAnalytics.listResources. atmost_auto.
  - unfold DatabaseAnalytics.getResource. atmost_auto.
  - unfold DatabaseAnalytics.createResource. atmost_auto.
  - unfold DatabaseAnalytics.manageResource. atmost_auto.
Qed.

Lemma StorageNetwork_execute_calls c input :
  AtMost 2 (StorageNetwork.execute c input).
Proof.
  unfold StorageNetwork.execute. atmost_execute.
  - unfold StorageNetwork.listResources. atmost_auto.
  - unfold StorageNetwork.getResource. atmost_auto.
  - unfold StorageNetwork.createResource. atmost_auto.
  - unfold StorageNetwork.manageObject. atmost_auto.
  - unfold StorageNetwork.manageResource. atmost_auto.
Qed.

Lemma MonitoringSecurity_execute_calls c input :
  AtMost (S (length (elements input!."data"!."securityRules")))
    (MonitoringSecurity.execute c input).
Proof.
  unfold MonitoringSecurity.execute. atmost_execute.
  - unfold MonitoringSecurity.listResources. atmost_auto.
  - unfold MonitoringSecurity.getResource. atmost_auto.
  - unfold MonitoringSecurity.createResource. atmost_auto.
    + rewrite <- (Nat.add_0_r (length _)).
      apply AtMost_bind; [|intros ?; exact I].
      apply AtMost_for_of. intros rule. unfold await. intros [?|?]; exact I.
  - unfold MonitoringSecurity.manageResource. atmost_auto.
Qed.

(** X7: one [execute] performs at most one backend call in the compute and
    the database dispatcher, at most two in the storage dispatcher (the
    namespace lookup and the operation), and at most one more than the
    number of inline security rules in the monitoring dispatcher: no call
    is ever repeated or retried. *)
Theorem execute_call_bound (c : OCIClientManager) (d : Server.Domain) (input : JVal)
    {W} (w : World W) (st : W) :
  (length (calls_of (run w (Server.execute c d input) st [])) <= call_bound d input)%nat.
Proof.
  destruct (run w (Server.execute c d input) st []) as [[res st'] new] eqn:Hrun.
  unfold calls_of. cbn [snd].
  destruct d; cbn [Server.execute call_bound] in *.
  - exact (AtMost_run w _ _ _ _ _ _ (Compute_execute_calls c input) Hrun).
  - exact (AtMost_run w _ _ _ _ _ _ (StorageNetwork_execute_calls c input) Hrun).
  - exact (AtMost_run w _ _ _ _ _ _ (DatabaseAnalytics_execute_calls c input) Hrun).
  - exact (AtMost_run w _ _ _ _ _ _ (MonitoringSecurity_execute_calls c input) Hrun).
Qed.

Ltac calls_step side :=
  lazymatch goal with
  | |- Calls _ (if ?b then _ else _) => destruct b
  | |- Calls _ (bind (if ?b then _ else _) _) => destruct b; cbn [bind]
  | |- Calls _ (Call _ _ _ (if ?b then _ else _) _) => destruct b
  | |- Calls _ (Call _ _ _ _ _) => split; [side | intros [?|?]; cbn [bind]]
  | |- Calls _ (DateNow _) => intros ?; cbn [bind]
  | |- Calls _ (Throw _) => exact I
  | |- Calls _ (Ret _) => exact I
  end.

Ltac calls_auto side := body_unfold; repeat calls_step side.

Section ListAndGet.

Variable c : OCIClientManager.
Variable input : JVal.

Ltac reads_side := reflexivity.

Ltac defaults_side :=
  split; intros Hhas; first [reflexivity | discriminate Hhas].

Lemma Compute_list_reads : Calls reads_only (Compute.listResources c input).
Proof. unfold Compute.listResources. calls_auto reads_side. Qed.

Lemma Compute_get_reads : Calls reads_only (Compute.getResource input).
Proof. unfold Compute.getResource. calls_auto reads_side. Qed.

Lemma StorageNetwork_list_reads : Calls reads_only (StorageNetwork.listResources c input).
Proof. unfold StorageNetwork.listResources. calls_auto reads_side. Qed.

Lemma StorageNetwork_get_reads : Calls reads_only (StorageNetwork.getResource input).
Proof. unfold StorageNetwork.getResource. calls_auto reads_side. Qed.

Lemma DatabaseAnalytics_list_reads : Calls reads_only (DatabaseAnalytics.listResources c input).
Proof. unfold DatabaseAnalytics.listResources. calls_auto reads_side. Qed.

Lemma DatabaseAnalytics_get_reads : Calls reads_only (DatabaseAnalytics.getResource input).
Proof. unfold DatabaseAnalytics.getResource. calls_auto reads_side. Qed.

Lemma MonitoringSecurity_list_reads :
  Calls reads_only (MonitoringSecurity.listResources c input).
Proof. unfold MonitoringSecurity.listResources. calls_auto reads_side. Qed.

Lemma MonitoringSecurity_get_reads : Calls reads_only (MonitoringSecurity.getResource input).
Proof. unfold MonitoringSecurity.getResource. calls_auto reads_side. Qed.

Lemma Compute_list_defaults : Calls (defaults_of c input) (Compute.listResources c input).
Proof. unfold Compute.listResources. calls_auto defaults_side. Qed.

Lemma StorageNetwork_list_defaults :
  Calls (defaults_of c input) (StorageNetwork.listResources c input).
Proof. unfold StorageNetwork.listResources. calls_auto defaults_side. Qed.

Lemma DatabaseAnalytics_list_defaults :
  Calls (defaults_of c input) (DatabaseAnalytics.listResources c input).
Proof. unfold DatabaseAnalytics.listResources. calls_auto defaults_side. Qed.

Lemma MonitoringSecurity_list_defaults :
  Calls (defaults_of c input) (MonitoringSecurity.listResources c input).
Proof. unfold MonitoringSecurity.listResources. calls_auto defaults_side. Qed.

(** The program [execute] runs for a [list] or a [get] action. *)
Lemma execute_list_get_calls Q d :
  (input!."action" = JStr "list" /\
   Calls Q (Compute.listResources c input) /\
   Calls Q (StorageNetwork.listResources c input) /\
   Calls Q (DatabaseAnalytics.listResources c input) /\
   Calls Q (MonitoringSecurity.listResources c input)) \/
  (input!."action" = JStr "get" /\
   Calls Q (Compute.getResource input) /\
   Calls Q (StorageNetwork.getResource input) /\
   Calls Q (DatabaseAnalytics.getResource input) /\
   Calls Q (MonitoringSecurity.getResource input)) ->
  Calls Q (Server.execute c d input).
Proof.
  intros [(Hact & H1 & H2 & H3 & H4)|(Hact & H1 & H2 & H3 & H4)];
    assert (Hobj : input!."action" <> JUndef) by (by rewrite Hact);
    destruct d; unfold Server.execute, Compute.execute, StorageNetwork.execute,
      DatabaseAnalytics.execute, MonitoringSecurity.execute;
    rewrite (reading_prop _ _ _ _ Hobj), Hact;
    (apply Calls_try_catch; [assumption | intros ?; exact I]).
Qed.

End ListAndGet.

(** X8: the [list] and [get] actions only read: every backend call they
    perform, in any of the four dispatchers, is a [list...], [get...] or
    [summarize...] method of the SDK. *)
Theorem list_and_get_only_read (c : OCIClientManager) (d : Server.Domain)
    (input : JVal) {W} (w : World W) (st : W) :
  input!."action" = JStr "list" \/ input!."action" = JStr "get" ->
  Forall (fun entry => read_only (e_method entry) = true)
    (calls_of (run w (Server.execute c d input) st [])).
Proof.
  intros Hact.
  destruct (run w (Server.execute c d input) st []) as [[res st'] new] eqn:Hrun.
  unfold calls_of. cbn [snd].
  refine (Calls_run w reads_only _ _ _ _ _ _ Hrun).
  apply execute_list_get_calls. destruct Hact as [Hact|Hact]; [left|right].
  - split; [done|].
    split; [apply Compute_list_reads|]. split; [apply StorageNetwork_list_reads|].
    split; [apply DatabaseAnalytics_list_reads | apply MonitoringSecurity_list_reads].
  - split; [done|].
    split; [apply Compute_get_reads|]. split; [apply StorageNetwork_get_reads|].
    split; [apply DatabaseAnalytics_get_reads | apply MonitoringSecurity_get_reads].
Qed.

Lemma list_and_get_only_read_witness :
  Forall (fun entry => read_only (e_method entry) = true)
    (calls_of (run (sample_world None not_found)
                 (Server.execute sample_client Server.storage_network
                    (JObj [("action", JStr "get"); ("resourceType", JStr "bucket");
                           ("resourceId", JStr "logs")])) 0%nat [])).
Proof.
  apply (list_and_get_only_read sample_client Server.storage_network
           (JObj [("action", JStr "get"); ("resourceType", JStr "bucket");
                  ("resourceId", JStr "logs")])).
  right. reflexivity.
Defined.

(** X9: every request of a [list] action carries, wherever it carries a
    compartment, the compartment of the input or else the default one of
    the client, and wherever it carries a page size, the [limit] of the
    input or else 50. *)
Theorem list_requests_defaulted (c : OCIClientManager) (d : Server.Domain)
    (input : JVal) {W} (w : World W) (st : W) :
  input!."action" = JStr "list" ->
  Forall (fun entry => defaulted c input (e_request entry))
    (calls_of (run w (Server.execute c d input) st [])).
Proof.
  intros Hact.
  destruct (run w (Server.execute c d input) st []) as [[res st'] new] eqn:Hrun.
  unfold calls_of. cbn [snd].
  refine (Calls_run w (defaults_of c input) _ _ _ _ _ _ Hrun).
  apply execute_list_get_calls. left. split; [done|].
  split; [apply Compute_list_defaults|]. split; [apply StorageNetwork_list_defaults|].
  split; [apply DatabaseAnalytics_list_defaults | apply MonitoringSecurity_list_defaults].
Qed.

Lemma list_requests_defaulted_witness :
  map e_request
    (calls_of (run (sample_world None not_found)
                 (Server.execute sample_client Server.database_analytics
                    (JObj [("action", JStr "list");
                           ("resourceType", JStr "backups")])) 0%nat []))
  = [JObj [("compartmentId", JStr "ocid1.tenancy"); ("limit", JNum 50);
           ("lifecycleState", JUndef)]] /\
  Forall (fun entry =>
            defaulted sample_client
              (JObj [("action", JStr "list"); ("resourceType", JStr "backups")])
              (e_request entry))
    (calls_of (run (sample_world None not_found)
                 (Server.execute sample_client Server.database_analytics
                    (JObj [("action", JStr "list");
                           ("resourceType", JStr "backups")])) 0%nat [])).
Proof.
  split; [reflexivity|].
  apply (list_requests_defaulted sample_client Server.database_analytics
           (JObj [("action", JStr "list"); ("resourceType", JStr "backups")])).
  reflexivity.
Defined.

(** ** Runs, step by step *)

(** One step of a run recorded in [H]: a test is decided, a call is
    settled, a clock read is answered, a finished run is inverted. *)
Ltac run_step H :=
  cbn [bind try_catch run app] in H;
  lazymatch type of H with
  | run _ (if ?b then _ else _) _ _ = _ => destruct b eqn:?
  | run _ (try_catch (if ?b then _ else _) _) _ _ = _ => destruct b eqn:?
  | run _ (bind (if ?b then _ else _) _) _ _ = _ => destruct b eqn:?
  | run _ (try_catch (bind (if ?b then _ else _) _) _) _ _ = _ => destruct b eqn:?
  | (let '(_, _) := respond ?w ?sh ?c ?m ?req ?st in _) = _ =>
      destruct (respond w sh c m req st) as [[?|?] ?] eqn:?
  | (let '(_, _) := now ?w ?st in _) = _ =>
      destruct (now w st) as [? ?] eqn:?
  | (_, _, _) = _ => inversion H; subst; clear H
  end.

Ltac run_inv H :=
  cbv beta zeta delta
    [mbind mret Prog_bind Prog_ret await or_else date_now reading
     StorageNetwork.getNamespace] in H;
  repeat run_step H.

(** A dispatcher that resolved with a success envelope returned it from
    its body. *)
Lemma run_guarded_success {W} (w : World W) (p : Prog JVal) st env st' new :
  run w (try_catch p (fun error =>
                        mret (JObj [("success", JBool false);
                                    ("message", JStr (handleOCIError error))]))) st []
  = (inr env, st', new) ->
  succeeded env ->
  run w p st [] = (inr env, st', new).
Proof.
  rewrite run_try_catch.
  destruct (run w p st []) as [[[e|env0] st0] new0]; [|done].
  cbn [run mret Prog_ret]. intros H Hok. inversion H; subst. discriminate Hok.
Qed.

(** X10: a [get] action that succeeds relays the resource of its last
    backend call unchanged as the [data] of the envelope (an object of the
    object store apart, whose envelope holds a selection of the response). *)
Theorem get_relays_resource (c : OCIClientManager) (d : Server.Domain) (input : JVal)
    {W} (w : World W) (st : W) (env : JVal) (st' : W) (new : list Entry) :
  input!."action" = JStr "get" ->
  input!."resourceType" <> JStr "object" ->
  run w (Server.execute c d input) st [] = (inr env, st', new) ->
  succeeded env ->
  exists entry resource,
    last new = Some entry /\
    e_resource entry = Some resource /\
    env!."data" = JObj resource.
Proof.
  intros Hact Hnot Hrun Hok.
  assert (Hobj : input!."action" <> JUndef) by (by rewrite Hact).
  destruct d; unfold Server.execute, Compute.execute, StorageNetwork.execute,
    DatabaseAnalytics.execute, MonitoringSecurity.execute in Hrun;
    rewrite (reading_prop _ _ _ _ Hobj), Hact in Hrun;
    apply run_guarded_success in Hrun; [|exact Hok| |exact Hok| |exact Hok| |exact Hok];
    cbn [is_str String.eqb Ascii.eqb Bool.eqb] in Hrun.
  - unfold Compute.getResource in Hrun. run_inv Hrun; by eexists _, _.
  - unfold StorageNetwork.getResource in Hrun.
    destruct (is_str input!."resourceType" "object") eqn:Hty.
    { destruct input!."resourceType" as [| | | |s| |]; try discriminate.
      apply String.eqb_eq in Hty. by subst. }
    run_inv Hrun; try discriminate; by eexists _, _.
  - unfold DatabaseAnalytics.getResource in Hrun. run_inv Hrun; by eexists _, _.
  - unfold MonitoringSecurity.getResource in Hrun. run_inv Hrun; by eexists _, _.
Qed.

Lemma get_relays_resource_witness :
  exists entry resource,
    last [entry_of (sh:=SResource) "computeClient" "getInstance"
            (JObj [("instanceId", JStr "ocid1.instance")])
            (inr (sample_response SResource))] = Some entry /\
    e_resource entry = Some resource /\
    resource = sample_response SResource.
Proof.
  pose (input := JObj [("action", JStr "get"); ("resourceType", JStr "instance");
                       ("resourceId", JStr "ocid1.instance")]).
  pose (env := JObj [("success", JBool true);
                     ("data", JObj (sample_response SResource));
                     ("message", JStr "Retrieved instance details for ocid1.instance")]).
  assert (H1 : input!."action" = JStr "get") by reflexivity.
  assert (H2 : input!."resourceType" <> JStr "object") by discriminate.
  assert (H3 : run (sample_world None not_found)
                 (Server.execute sample_client Server.compute input) 0%nat []
               = (inr env, 1%nat,
                  [entry_of (sh:=SResource) "computeClient" "getInstance"
                     (JObj [("instanceId", JStr "ocid1.instance")])
                     (inr (sample_response SResource))])) by reflexivity.
  assert (H4 : succeeded env) by reflexivity.
  destruct (get_relays_resource sample_client Server.compute input
              (sample_world None not_found) 0%nat env 1%nat _ H1 H2 H3 H4)
    as (entry & resource & Hlast & Hres & Hdata).
  exists entry, resource. split; [exact Hlast|]. split; [exact Hres|].
  inversion Hdata. reflexivity.
Defined.

(** ** The object actions of the storage dispatcher *)

(** X11: an object action without [namespaceName] looks the namespace up
    before it checks anything else: an upload or a deletion without bucket
    name, and the verb [download-object], which has no branch, each cost one
    [getNamespace] call before the dispatcher refuses them; they never
    succeed. *)
Theorem object_actions_look_up_namespace_first (c : OCIClientManager) (input : JVal)
    (verb : string) {W} (w : World W) (st : W) :
  verb ∈ ["upload-object"; "download-object"; "delete-object"] ->
  input!."action" = JStr verb ->
  truthy input!."namespaceName" = false ->
  verb = "download-object" \/ truthy input!."bucketName" = false ->
  exists message st' entry,
    run w (StorageNetwork.execute c input) st [] = (inr (failure message), st', [entry]) /\
    call_of entry = namespace_call /\
    (resolved entry ->
     message = "OCI Error: Unsupported object action: download-object" \/
     message = "OCI Error: Bucket name, object name, and content are required for upload" \/
     message = "OCI Error: Bucket name and object name are required for deletion").
Proof.
  intros Hverb Hact Hns Hrefused.
  assert (Hobj : input!."action" <> JUndef) by (by rewrite Hact).
  unfold StorageNetwork.execute, StorageNetwork.manageObject.
  rewrite (reading_prop _ _ _ _ Hobj).
  unfold or_else, StorageNetwork.getNamespace, mbind, mret, Prog_bind, Prog_ret, await.
  cbv zeta. rewrite Hns, !Hact.
  rewrite !elem_of_cons, elem_of_nil in Hverb.
  destruct Hverb as [->|[->|[->|[]]]];
    cbn [is_str is_any existsb orb String.eqb Ascii.eqb Bool.eqb bind try_catch run];
    destruct (respond w SValue "objectStorageClient" "getNamespace" (JObj []) st)
      as [[e|ns] st1];
    cbn [bind try_catch run app].
  all: try (destruct Hrefused as [Hd|Hb]; [discriminate Hd | rewrite Hb]).
  all: cbn [negb orb try_catch run];
    eexists _, _, _; (split; [reflexivity|]); (split; [reflexivity|]);
    unfold resolved; cbn [e_error entry_of e_settled].
  all: first [ discriminate | intros _; tauto | idtac ].
  all: intros _; first [ left; reflexivity | right; left; reflexivity | right; right; reflexivity ].
Qed.

Lemma object_actions_look_up_namespace_first_witness :
  exists message st' entry,
    run (sample_world None not_found)
      (StorageNetwork.execute sample_client
         (JObj [("action", JStr "upload-object"); ("resourceType", JStr "object");
                ("objectName", JStr "report.csv")])) 0%nat []
    = (inr (failure message), st', [entry]) /\
    call_of entry = namespace_call.
Proof.
  pose (input := JObj [("action", JStr "upload-object"); ("resourceType", JStr "object");
                       ("objectName", JStr "report.csv")]).
  assert (H1 : "upload-object" ∈ ["upload-object"; "download-object"; "delete-object"])
    by in_list.
  assert (H2 : input!."action" = JStr "upload-object") by reflexivity.
  assert (H3 : truthy input!."namespaceName" = false) by reflexivity.
  assert (H4 : "upload-object" = "download-object"
               \/ truthy input!."bucketName" = false) by (right; reflexivity).
  destruct (object_actions_look_up_namespace_first sample_client input "upload-object"
              (sample_world None not_found) 0%nat H1 H2 H3 H4)
    as (message & st' & entry & Hrun & Hcall & _).
  exists message, st', entry. split; [exact Hrun | exact Hcall].
Defined.

(** ** The instance actions of the compute dispatcher *)

(** X12: the instance actions do not look at [resourceType]: two inputs
    with the same verb and the same [resourceId] run the same program, so
    [terminate] on a [volume] terminates the instance of that identifier. *)
Theorem instance_actions_ignore_resourceType (c : OCIClientManager)
    (input input' : JVal) (verb : string) :
  verb ∈ ["start"; "stop"; "reboot"; "terminate"] ->
  input!."action" = JStr verb ->
  input'!."action" = JStr verb ->
  input!."resourceId" = input'!."resourceId" ->
  Compute.execute c input = Compute.execute c input'.
Proof.
  intros Hverb Hact Hact' Hid.
  assert (Hobj : input!."action" <> JUndef) by (by rewrite Hact).
  assert (Hobj' : input'!."action" <> JUndef) by (by rewrite Hact').
  unfold Compute.execute, Compute.manageInstance.
  rewrite (reading_prop _ _ _ _ Hobj), (reading_prop _ _ _ _ Hobj').
  cbv zeta. rewrite !Hact, !Hact', Hid.
  rewrite !elem_of_cons, elem_of_nil in Hverb.
  destruct Hverb as [->|[->|[->|[->|[]]]]]; reflexivity.
Qed.

Lemma instance_actions_ignore_resourceType_witness :
  map call_of
    (calls_of (run (sample_world None not_found)
                 (Compute.execute sample_client
                    (JObj [("action", JStr "terminate"); ("resourceType", JStr "volume");
                           ("resourceId", JStr "ocid1.instance")])) 0%nat []))
  = [("computeClient", "terminateInstance",
      JObj [("instanceId", JStr "ocid1.instance")])].
Proof.
  assert (H1 : "terminate" ∈ ["start"; "stop"; "reboot"; "terminate"])
    by in_list.
  rewrite (instance_actions_ignore_resourceType sample_client
             (JObj [("action", JStr "terminate"); ("resourceType", JStr "volume");
                    ("resourceId", JStr "ocid1.instance")])
             (JObj [("action", JStr "terminate"); ("resourceType", JStr "instance");
                    ("resourceId", JStr "ocid1.instance")])
             "terminate" H1 eq_refl eq_refl eq_refl).
  reflexivity.
Defined.

(** ** Creation payloads: which member of the union is kept *)

Lemma tool_union_create l g c ms m args input :
  parse (z_union [z_object (("action", z_literal "list") :: l);
                  z_object (("action", z_literal "get") :: g);
                  z_object (("action", z_literal "create") :: c);
                  z_object (("action", z_enum ms) :: m)]) args = Some input ->
  input!."action" = JStr "create" ->
  string_in "create" ms = false ->
  parse (z_object (("action", z_literal "create") :: c)) args = Some input.
Proof.
  intros H Hact Hverbs.
  apply tool_union_inv in H as [[H _]|[[H _]|[[_ H]|(verb & H & Hin & _)]]];
    congruence.
Qed.

Ltac distinct_keys :=
  cbn [fmap list_fmap fst];
  repeat (apply NoDup_cons; split;
          [rewrite ?not_elem_of_cons; repeat split;
           first [discriminate | apply not_elem_of_nil]|]);
  apply NoDup_nil_2.

(** The [data] of a validated creation input is what the union of payload
    schemas made of the [data] of the arguments; the resource type is
    kept. *)
Lemma create_member_data rts members args input :
  parse (z_object [("action", z_literal "create"); ("resourceType", z_enum rts);
                   ("data", z_union members)]) args = Some input ->
  parse (z_union members) args!."data" = Some input!."data".
Proof.
  intros H. apply parse_object_inv in H as (fields & o & -> & -> & Ho).
  cbn [prop].
  eapply parse_shape_declared; [|exact Ho|].
  - distinct_keys.
  - in_list.
Qed.

(** What an accepted member object tells about the payload. *)
Lemma parse_member_fields shape v out k sk :
  parse (z_object shape) v = Some out ->
  (k, sk) ∈ shape ->
  is_Some (parse sk v!.k).
Proof.
  intros H Hin. apply parse_object_inv in H as (fields & o & -> & -> & Ho).
  assert (HF : Forall (fun ks => is_Some (parse ks.2 (obj_get ks.1 fields))) shape).
  { apply (parse_object_fields shape fields (JObj o)).
    rewrite parse_object_shape, Ho. reflexivity. }
  rewrite Forall_forall in HF. exact (HF (k, sk) Hin).
Qed.

Lemma parse_member_stripped shape v out k :
  parse (z_object shape) v = Some out ->
  declares shape k = false ->
  out!.k = JUndef.
Proof.
  intros H Hk. apply parse_object_inv in H as (fields & o & -> & -> & Ho).
  cbn [prop]. by eapply parse_shape_undeclared.
Qed.

Lemma parse_member_object shape v out :
  parse (z_object shape) v = Some out -> nullish out = false.
Proof.
  intros H. by apply parse_object_inv in H as (fields & o & -> & -> & Ho).
Qed.

Lemma parse_member_accepts shape v :
  (exists fields, v = JObj fields) ->
  Forall (fun ks => is_Some (parse ks.2 v!.(ks.1))) shape ->
  is_Some (parse (z_object shape) v).
Proof.
  intros [fields ->] HF. by apply parse_object_complete.
Qed.

(** The successive members of a payload union, tried in order. *)
Lemma parse_union_nil v : parse (z_union []) v = None.
Proof. reflexivity. Qed.

Ltac union_cases H :=
  rewrite ?parse_union_cons, ?parse_union_nil in H;
  repeat match goal with
    | H' : match parse ?m ?v with _ => _ end = _ |- _ =>
        let d := fresh "d" in
        destruct (parse m v) as [d|] eqn:?;
        [inversion H'; subst d; clear H'|]
    end;
  try discriminate.

Ltac member_field H :=
  eapply (parse_member_fields _ _ _ _ _ H); in_list.

Ltac member_is_object H :=
  let f := fresh "fields" in
  let o := fresh "o" in
  let E := fresh "E" in
  destruct (parse_object_inv _ _ _ H) as (f & o & E & _ & _); by exists f.

(** The last member of the monitoring creation union (policies, users,
    groups) is shadowed by the notification topic member: no validated
    creation input carries [statements], [email] or [members]. *)
Lemma monitoring_create_identity_stripped is_email args input :
  parse (MonitoringSecurity.MonitoringSecurityToolInputSchema is_email) args = Some input ->
  input!."action" = JStr "create" ->
  nullish input!."data" = false /\
  input!."data"!."statements" = JUndef /\
  input!."data"!."email" = JUndef /\
  input!."data"!."members" = JUndef.
Proof.
  intros H Hact.
  pose proof (tool_union_create _ _ _ _ _ _ _ H Hact eq_refl) as HC.
  apply create_member_data in HC. union_cases HC.
  1-5: match goal with
       | Hm : parse (z_object _) _ = Some _ |- _ =>
           split; [exact (parse_member_object _ _ _ Hm)|];
           repeat split; by apply (parse_member_stripped _ _ _ _ Hm)
       end.
  exfalso.
  match goal with
  | Hpolicy : parse (z_object _) _ = Some _,
    Htopic : parse (z_object [("compartmentId", _); ("name", _); ("description", _)]) _
             = None |- _ =>
      assert (Hacc : is_Some
                (parse (z_object [("compartmentId", zstring_min 1); ("name", zstring_min 1);
                                  ("description", z_optional zstring)])
                   args!."data"));
      [ apply parse_member_accepts; [member_is_object Hpolicy|];
        repeat constructor; cbn [fst snd];
        [ member_field Hpolicy
        | member_field Hpolicy
        | apply parse_optional_string, nonempty_optional_string, parse_nonempty_string;
          member_field Hpolicy ]
      | rewrite Htopic in Hacc; by destruct Hacc ]
  end.
Qed.

(** The network security group member of that union comes after the log
    group member, which asks for less: a payload whose [description] is
    absent or a string never reaches it, and loses [vcnId] and
    [securityRules]. *)
Lemma monitoring_create_nsg_stripped is_email args input :
  parse (MonitoringSecurity.MonitoringSecurityToolInputSchema is_email) args = Some input ->
  input!."action" = JStr "create" ->
  optional_string args!."data"!."description" ->
  nullish input!."data" = false /\
  input!."data"!."vcnId" = JUndef /\
  input!."data"!."securityRules" = JUndef.
Proof.
  intros H Hact Hdesc.
  pose proof (tool_union_create _ _ _ _ _ _ _ H Hact eq_refl) as HC.
  apply create_member_data in HC. union_cases HC.
  1-3, 5-6: match goal with
       | Hm : parse (z_object _) _ = Some _ |- _ =>
           split; [exact (parse_member_object _ _ _ Hm)|];
           repeat split; by apply (parse_member_stripped _ _ _ _ Hm)
       end.
  exfalso.
  match goal with
  | Hnsg : parse (z_object _) _ = Some _,
    Hlog : parse (z_object [("compartmentId", _); ("displayName", _); ("description", _)]) _
           = None |- _ =>
      assert (Hacc : is_Some
                (parse (z_object [("compartmentId", zstring_min 1);
                                  ("displayName", zstring_min 1);
                                  ("description", z_optional zstring)])
                   args!."data"));
      [ apply parse_member_accepts; [member_is_object Hnsg|];
        repeat constructor; cbn [fst snd];
        [ member_field Hnsg
        | member_field Hnsg
        | by apply parse_optional_string ]
      | rewrite Hlog in Hacc; by destruct Hacc ]
  end.
Qed.

(** A validated call of a declared tool answers with the serialized
    envelope of [execute], after the calls of [execute]. *)
Lemma callTool_validated {W} (w : World W) is_email c d args input st :
  parse (Server.input_schema is_email d) args = Some input ->
  exists env st' new,
    run w (Server.execute c d input) st [] = (inr env, st', new) /\
    run w (Server.callTool is_email c (Server.tool_name d) args) st []
    = (inr (Server.text_content (JSON_stringify env)), st', new).
Proof.
  intros Hparse.
  pose proof (handler_run w is_email c d args st) as Hh. rewrite Hparse in Hh.
  destruct Hh as (env & st' & new & Hexec & Hh).
  exists env, st', new. split; [exact Hexec|].
  rewrite (callTool_routes is_email c _ args d) by (by destruct d).
  rewrite run_try_catch, Hh. reflexivity.
Qed.

(** X13: through the server, a policy is always created without statements
    and a user without e-mail address: whatever the arguments, a validated
    creation call of the monitoring tool sends [statements: []] to
    [createPolicy] and [email: undefined] to [createUser], in one backend
    call. *)
Theorem create_policy_statements_dropped (is_email : string -> bool)
    (c : OCIClientManager) (args input : JVal) (resourceType : string)
    {W} (w : World W) (st : W) :
  parse (MonitoringSecurity.MonitoringSecurityToolInputSchema is_email) args = Some input ->
  input!."action" = JStr "create" ->
  input!."resourceType" = JStr resourceType ->
  resourceType ∈ ["policy"; "user"] ->
  exists payload st' entry,
    run w (Server.callTool is_email c "oci-monitoring-security" args) st []
    = (inr payload, st', [entry]) /\
    call_of entry
    = if String.eqb resourceType "policy"
      then ("identityClient", "createPolicy",
            JObj [("createPolicyDetails",
                   JObj [("compartmentId", input!."data"!."compartmentId");
                         ("name", input!."data"!."name");
                         ("description", input!."data"!."description");
                         ("statements", JArr [])])])
      else ("identityClient", "createUser",
            JObj [("createUserDetails",
                   JObj [("compartmentId", input!."data"!."compartmentId");
                         ("name", input!."data"!."name");
                         ("description", input!."data"!."description");
                         ("email", JUndef)])]).
Proof.
  intros Hparse Hact Hty Hrt.
  destruct (monitoring_create_identity_stripped _ _ _ Hparse Hact)
    as (Hobj & Hst & Hemail & _).
  destruct (callTool_validated w is_email c Server.monitoring_security args input st Hparse)
    as (env & st' & new & Hexec & Hcall).
  exists (Server.text_content (JSON_stringify env)), st'.
  cbn [Server.tool_name] in Hcall. rewrite Hcall. clear Hcall.
  assert (Hdef : input!."action" <> JUndef) by (by rewrite Hact).
  unfold Server.execute, MonitoringSecurity.execute, MonitoringSecurity.createResource
    in Hexec.
  rewrite (reading_prop _ _ _ _ Hdef) in Hexec. cbv zeta in Hexec.
  rewrite Hact, !Hty in Hexec. unfold reading in Hexec.
  rewrite Hobj, Hst, Hemail in Hexec.
  rewrite !elem_of_cons, elem_of_nil in Hrt.
  destruct Hrt as [->|[->|[]]];
    cbn [is_str String.eqb Ascii.eqb Bool.eqb] in Hexec;
    run_inv Hexec; by eexists.
Qed.

Lemma create_policy_statements_dropped_witness :
  exists payload st' entry,
    run (sample_world None not_found)
      (Server.callTool (fun _ => true) sample_client "oci-monitoring-security"
         sample_policy_args) 0%nat []
    = (inr payload, st', [entry]) /\
    (e_request entry)!."createPolicyDetails"!."statements" = JArr [].
Proof.
  pose (input := JObj [("action", JStr "create");
                       ("resourceType", JStr "policy");
                       ("data",
                        JObj [("compartmentId", JStr "ocid1.compartment");
                              ("name", JStr "admins");
                              ("description", JStr "administrators")])]).
  assert (H1 : parse (MonitoringSecurity.MonitoringSecurityToolInputSchema (fun _ => true))
                 sample_policy_args = Some input) by reflexivity.
  assert (H2 : input!."action" = JStr "create") by reflexivity.
  assert (H3 : input!."resourceType" = JStr "policy") by reflexivity.
  assert (H4 : "policy" ∈ ["policy"; "user"]) by in_list.
  destruct (create_policy_statements_dropped (fun _ => true) sample_client
              sample_policy_args input "policy" (sample_world None not_found) 0%nat
              H1 H2 H3 H4) as (payload & st' & entry & Hrun & Hcall).
  exists payload, st', entry. split; [exact Hrun|].
  destruct entry as [sh cl m req settled]. cbn in Hcall. inversion Hcall. reflexivity.
Defined.

(** X14: through the server, a network security group whose [description]
    is absent or a string is created outside any VCN and without its inline
    rules: the validated payload is the one of a log group, the one backend
    call is [createNetworkSecurityGroup] with [vcnId: undefined], and no
    rule is ever added. *)
Theorem create_nsg_rules_dropped (is_email : string -> bool) (c : OCIClientManager)
    (args input : JVal) {W} (w : World W) (st : W) :
  parse (MonitoringSecurity.MonitoringSecurityToolInputSchema is_email) args = Some input ->
  input!."action" = JStr "create" ->
  input!."resourceType" = JStr "network-security-group" ->
  optional_string args!."data"!."description" ->
  exists payload st' entry,
    run w (Server.callTool is_email c "oci-monitoring-security" args) st []
    = (inr payload, st', [entry]) /\
    call_of entry
    = ("virtualNetworkClient", "createNetworkSecurityGroup",
       JObj [("createNetworkSecurityGroupDetails",
              JObj [("compartmentId", input!."data"!."compartmentId");
                    ("vcnId", JUndef);
                    ("displayName", input!."data"!."displayName")])]).
Proof.
  intros Hparse Hact Hty Hdesc.
  destruct (monitoring_create_nsg_stripped _ _ _ Hparse Hact Hdesc)
    as (Hobj & Hvcn & Hrules).
  destruct (callTool_validated w is_email c Server.monitoring_security args input st Hparse)
    as (env & st' & new & Hexec & Hcall).
  exists (Server.text_content (JSON_stringify env)), st'.
  cbn [Server.tool_name] in Hcall. rewrite Hcall. clear Hcall.
  assert (Hdef : input!."action" <> JUndef) by (by rewrite Hact).
  unfold Server.execute, MonitoringSecurity.execute, MonitoringSecurity.createResource
    in Hexec.
  rewrite (reading_prop _ _ _ _ Hdef) in Hexec. cbv zeta in Hexec.
  rewrite Hact, !Hty in Hexec. unfold reading in Hexec.
  rewrite Hobj, Hvcn, Hrules in Hexec.
  cbn [is_str String.eqb Ascii.eqb Bool.eqb truthy andb] in Hexec.
  run_inv Hexec; by eexists.
Qed.

Lemma create_nsg_rules_dropped_witness :
  exists payload st' entry,
    run (sample_world None not_found)
      (Server.callTool (fun _ => true) sample_client "oci-monitoring-security"
         sample_nsg_input) 0%nat []
    = (inr payload, st', [entry]) /\
    (e_request entry)!."createNetworkSecurityGroupDetails"!."vcnId" = JUndef.
Proof.
  pose (input := JObj [("action", JStr "create");
                       ("resourceType", JStr "network-security-group");
                       ("data",
                        JObj [("compartmentId", JStr "ocid1.compartment");
                              ("displayName", JStr "web")])]).
  assert (H1 : parse (MonitoringSecurity.MonitoringSecurityToolInputSchema (fun _ => true))
                 sample_nsg_input = Some input) by reflexivity.
  assert (H2 : input!."action" = JStr "create") by reflexivity.
  assert (H3 : input!."resourceType" = JStr "network-security-group") by reflexivity.
  assert (H4 : optional_string sample_nsg_input!."data"!."description")
    by (left; reflexivity).
  destruct (create_nsg_rules_dropped (fun _ => true) sample_client
              sample_nsg_input input (sample_world None not_found) 0%nat
              H1 H2 H3 H4) as (payload & st' & entry & Hrun & Hcall).
  exists payload, st', entry. split; [exact Hrun|].
  destruct entry as [sh cl m req settled]. cbn in Hcall. inversion Hcall. reflexivity.
Defined.

(** The subnet member of the storage creation union comes after the VCN
    member, which asks for less, and the gateway member declares no CIDR
    block: a payload whose [dnsLabel] is absent or a string never keeps both
    [vcnId] and [cidrBlock]. *)
Lemma storage_create_subnet_stripped args input :
  parse StorageNetwork.StorageNetworkToolInputSchema args = Some input ->
  input!."action" = JStr "create" ->
  optional_string args!."data"!."dnsLabel" ->
  nullish input!."data" = false /\
  (input!."data"!."vcnId" = JUndef \/ input!."data"!."cidrBlock" = JUndef).
Proof.
  intros H Hact Hdns.
  pose proof (tool_union_create _ _ _ _ _ _ _ H Hact eq_refl) as HC.
  apply create_member_data in HC. union_cases HC.
  1-2: match goal with
       | Hm : parse _ _ = Some _ |- _ =>
           split; [exact (parse_member_object _ _ _ Hm)|];
           left; by apply (parse_member_stripped _ _ _ _ Hm)
       end.
  2: match goal with
     | Hm : parse _ _ = Some _ |- _ =>
         split; [exact (parse_member_object _ _ _ Hm)|];
         right; by apply (parse_member_stripped _ _ _ _ Hm)
     end.
  exfalso.
  match goal with
  | Hsubnet : parse (z_object _) _ = Some _,
    Hvcn : parse (z_object [("compartmentId", _); ("cidrBlock", _); ("displayName", _);
                            ("dnsLabel", _)]) _ = None |- _ =>
      assert (Hacc : is_Some
                (parse (z_object [("compartmentId", zstring_min 1);
                                  ("cidrBlock", zstring_min 1);
                                  ("displayName", z_optional zstring);
                                  ("dnsLabel", z_optional zstring)])
                   args!."data"));
      [ apply parse_member_accepts; [member_is_object Hsubnet|];
        repeat constructor; cbn [fst snd];
        [ member_field Hsubnet
        | member_field Hsubnet
        | member_field Hsubnet
        | by apply parse_optional_string ]
      | rewrite Hvcn in Hacc; by destruct Hacc ]
  end.
Qed.

(** X15: through the server, a subnet whose [dnsLabel] is absent or a
    string is never created inside its VCN: the one [createSubnet] request
    lacks [vcnId] (the payload was validated as a VCN) or lacks [cidrBlock]
    (it was validated as a gateway). *)
Theorem create_subnet_vcn_dropped (is_email : string -> bool) (c : OCIClientManager)
    (args input : JVal) {W} (w : World W) (st : W) :
  parse StorageNetwork.StorageNetworkToolInputSchema args = Some input ->
  input!."action" = JStr "create" ->
  input!."resourceType" = JStr "subnet" ->
  optional_string args!."data"!."dnsLabel" ->
  exists payload st' entry,
    run w (Server.callTool is_email c "oci-storage-network" args) st []
    = (inr payload, st', [entry]) /\
    e_method entry = "createSubnet" /\
    ((e_request entry)!."createSubnetDetails"!."vcnId" = JUndef \/
     (e_request entry)!."createSubnetDetails"!."cidrBlock" = JUndef).
Proof.
  intros Hparse Hact Hty Hdns.
  destruct (storage_create_subnet_stripped _ _ Hparse Hact Hdns) as (Hobj & Hlost).
  destruct (callTool_validated w is_email c Server.storage_network args input st
              Hparse) as (env & st' & new & Hexec & Hcall).
  exists (Server.text_content (JSON_stringify env)), st'.
  cbn [Server.tool_name] in Hcall. rewrite Hcall. clear Hcall.
  assert (Hdef : input!."action" <> JUndef) by (by rewrite Hact).
  unfold Server.execute, StorageNetwork.execute, StorageNetwork.createResource in Hexec.
  rewrite (reading_prop _ _ _ _ Hdef) in Hexec. cbv zeta in Hexec.
  rewrite Hact, !Hty in Hexec. unfold reading in Hexec. rewrite Hobj in Hexec.
  cbn [is_str String.eqb Ascii.eqb Bool.eqb] in Hexec.
  run_inv Hexec; eexists; (split; [reflexivity|]); (split; [reflexivity|]); exact Hlost.
Qed.

Lemma create_subnet_vcn_dropped_witness :
  exists payload st' entry,
    run (sample_world None not_found)
      (Server.callTool (fun _ => true) sample_client "oci-storage-network"
         sample_subnet_args) 0%nat []
    = (inr payload, st', [entry]) /\
    e_method entry = "createSubnet" /\
    (e_request entry)!."createSubnetDetails"!."cidrBlock" = JStr "10.0.1.0/24" /\
    (e_request entry)!."createSubnetDetails"!."vcnId" = JUndef.
Proof.
  pose (input := JObj [("action", JStr "create");
                       ("resourceType", JStr "subnet");
                       ("data",
                        JObj [("compartmentId", JStr "ocid1.compartment");
                              ("cidrBlock", JStr "10.0.1.0/24");
                              ("displayName", JStr "web")])]).
  assert (H1 : parse StorageNetwork.StorageNetworkToolInputSchema sample_subnet_args
               = Some input) by reflexivity.
  assert (H2 : input!."action" = JStr "create") by reflexivity.
  assert (H3 : input!."resourceType" = JStr "subnet") by reflexivity.
  assert (H4 : optional_string sample_subnet_args!."data"!."dnsLabel")
    by (left; reflexivity).
  destruct (create_subnet_vcn_dropped (fun _ => true) sample_client sample_subnet_args input
              (sample_world None not_found) 0%nat H1 H2 H3 H4)
    as (payload & st' & entry & Hrun & Hm & Hlost).
  exists payload, st', entry. split; [exact Hrun|]. split; [exact Hm|].
  assert (Hrun' := Hrun). vm_compute in Hrun'. inversion Hrun'. subst entry.
  split; reflexivity.
Defined.

(** ** The requests of a paginated listing *)

Section PagingTrace.

Context {W : Type} (w : World W) (client method : string).
Context (request : JVal) (maxItems : JsNumber).

Lemma getAllPages_loop_trace (fuel : nat) (allItems : list JVal) (nextPage : JVal)
    (st : W) res st' new :
  run w (getAllPages_loop fuel (await SPage client method) request maxItems
           allItems nextPage) st [] = (res, st', new) ->
  (forall entry, head new = Some entry ->
     e_request entry = if truthy nextPage then with_page request nextPage else request) /\
  (forall i e1 e2, new !! i = Some e1 -> new !! S i = Some e2 ->
     exists page,
       e_page e1 = Some page /\ truthy (opcNextPage page) = true /\
       e_request e2 = with_page request (opcNextPage page)) /\
  (forall e, res = inl e <-> exists entry, last new = Some entry /\ e_error entry = Some e).
Proof.
  revert allItems nextPage st res st' new.
  induction fuel as [|fuel IH]; intros allItems nextPage st res st' new Hrun.
  { cbn in Hrun. inversion Hrun; subst. split; [done|]. split; [done|].
    intros e. split; [done|]. by intros (entry & Hlast & _). }
  cbn [getAllPages_loop] in Hrun. unfold mbind, Prog_bind, await in Hrun.
  cbn [bind run] in Hrun. fold (with_page request nextPage) in Hrun.
  set (requestWithPage :=
         if truthy nextPage then with_page request nextPage else request) in *.
  destruct (respond w SPage client method requestWithPage st) as [[err|page] st1].
  - cbn [bind run app] in Hrun. inversion Hrun; subst.
    split; [by intros entry [= <-]|]. split; [done|].
    intros e. split.
    + intros [= ->]. by eexists.
    + by intros (entry & [= <-] & [= ->]).
  - set (entry := entry_of (sh:=SPage) client method requestWithPage (inr page)) in *.
    assert (Hdone : forall r : list JVal,
      (forall e0, head [entry] = Some e0 -> e_request e0 = requestWithPage) /\
      (forall i e1 e2, [entry] !! i = Some e1 -> [entry] !! S i = Some e2 ->
         exists page0,
           e_page e1 = Some page0 /\ truthy (opcNextPage page0) = true /\
           e_request e2 = with_page request (opcNextPage page0)) /\
      (forall e, (inr (Some r) : JsError + option (list JVal)) = inl e <->
         exists e0, last [entry] = Some e0 /\ e_error e0 = Some e)).
    { intros r. split; [by intros e0 [= <-]|]. split; [done|].
      intros e. split; [done|]. by intros (e0 & [= <-] & Herr). }
    cbn [bind] in Hrun.
    destruct (length_ge (length (allItems ++ items page)) maxItems);
      [cbn [run app] in Hrun; inversion Hrun; subst; apply Hdone|].
    destruct (truthy (opcNextPage page)) eqn:Hnext;
      [|cbn [run app] in Hrun; inversion Hrun; subst; apply Hdone].
    clear Hdone. rewrite run_frame in Hrun.
    destruct (run w (getAllPages_loop fuel
                       (fun request0 =>
                          Call SPage client method request0
                            (fun r => match r with
                                      | inl e => Throw e
                                      | inr x => Ret x
                                      end))
                       request maxItems (allItems ++ items page) (opcNextPage page))
                st1 []) as [[r s] new'] eqn:Hrec.
    inversion Hrun; subst. clear Hrun.
    destruct (IH _ _ _ _ _ _ Hrec) as (Hhead & Hpairs & Hiff).
    rewrite Hnext in Hhead. cbn [app].
    split; [by intros e0 [= <-]|]. split.
    + intros [|i] e1 e2 H1 H2.
      * cbn in H1. inversion H1; subst e1. exists page.
        split; [reflexivity|]. split; [exact Hnext|].
        apply Hhead. by rewrite head_lookup.
      * exact (Hpairs i e1 e2 H1 H2).
    + intros e. rewrite Hiff. destruct new' as [|e0 new'].
      * split; [by intros (e0 & Hlast & _)|]. by intros (e0 & [= <-] & Herr).
      * by rewrite last_cons_cons.
Qed.

End PagingTrace.

(** X16: [getAllPages] threads the page tokens: the first request is the
    caller's, and every later request is the caller's with [page] set to
    the token of the page before, a token that is not empty. *)
Theorem getAllPages_threads_tokens {W} (w : World W) (client method : string)
    (request : JVal) (maxItems : JsNumber) (fuel : nat) (st : W) :
  let new :=
    calls_of (run w (getAllPages fuel (await SPage client method) request maxItems)
                st []) in
  (forall entry, head new = Some entry -> e_request entry = request) /\
  (forall i e1 e2, new !! i = Some e1 -> new !! S i = Some e2 ->
     exists page,
       e_page e1 = Some page /\ truthy (opcNextPage page) = true /\
       e_request e2 = with_page request (opcNextPage page)).
Proof.
  unfold getAllPages, calls_of.
  destruct (run w (getAllPages_loop fuel (await SPage client method) request maxItems
                     [] JUndef) st []) as [[res st'] new] eqn:Hrun.
  cbn [snd].
  destruct (getAllPages_loop_trace w client method request maxItems fuel [] JUndef
              st res st' new Hrun) as (Hhead & Hpairs & _).
  split; [exact Hhead | exact Hpairs].
Qed.

(** X17: a listing fails exactly when its last call was rejected, and with
    that rejection as is: the pages fetched before are not returned. *)
Theorem getAllPages_rejection_propagates {W} (w : World W) (client method : string)
    (request : JVal) (maxItems : JsNumber) (fuel : nat) (st : W) (e : JsError) :
  let r := run w (getAllPages fuel (await SPage client method) request maxItems) st [] in
  outcome_of r = inl e <->
  exists entry, last (calls_of r) = Some entry /\ e_error entry = Some e.
Proof.
  unfold getAllPages, calls_of, outcome_of.
  destruct (run w (getAllPages_loop fuel (await SPage client method) request maxItems
                     [] JUndef) st []) as [[res st'] new] eqn:Hrun.
  cbn [fst snd].
  destruct (getAllPages_loop_trace w client method request maxItems fuel [] JUndef
              st res st' new Hrun) as (_ & _ & Hiff).
  apply Hiff.
Qed.

(** ** Constructing the client *)

Lemma obj_get_absent k (fields : JObject) :
  k ∉ fields.*1 -> obj_get k fields = JUndef.
Proof.
  induction fields as [|[k' v] rest IH]; [done|].
  cbn [fmap list_fmap fst obj_get]. rewrite not_elem_of_cons. intros [Hne Hrest].
  destruct (String.eqb_spec k' k) as [->|_]; [done|]. by apply IH.
Qed.

(** Dropping the members that are [undefined] does not change what a
    property read returns. *)
Lemma obj_get_filter_defined k (fields : JObject) :
  NoDup fields.*1 ->
  obj_get k (List.filter (fun kv => negb (is_undefined kv.2)) fields) = obj_get k fields.
Proof.
  induction fields as [|[k' v] rest IH]; [done|].
  cbn [fmap list_fmap fst]. rewrite NoDup_cons. intros [Hfresh Hnd].
  cbn [List.filter snd obj_get].
  destruct (is_undefined v) eqn:Hv; cbn [negb obj_get]; rewrite (IH Hnd); [|done].
  destruct (String.eqb_spec k' k) as [->|_]; [|done].
  destruct v; try discriminate. by apply obj_get_absent.
Qed.

Lemma env_config_get env k :
  obj_get k (env_config env)
  = obj_get k [("tenancyId", env_get env "OCI_TENANCY_ID");
               ("userId", env_get env "OCI_USER_ID");
               ("keyFingerprint", env_get env "OCI_KEY_FINGERPRINT");
               ("privateKeyPath", env_get env "OCI_PRIVATE_KEY_PATH");
               ("region", env_get env "OCI_REGION");
               ("compartmentId", env_get env "OCI_COMPARTMENT_ID")].
Proof. unfold env_config. apply obj_get_filter_defined. distinct_keys. Qed.

Lemma truthy_env_nonempty env var :
  truthy (env_get env var) = true <-> nonempty_string (env_get env var).
Proof.
  unfold nonempty_string, env_get. destruct (env !! var) as [s|]; cbn [truthy].
  - split.
    + intros Hs. exists s. split; [done|]. intros ->. discriminate Hs.
    + intros (s' & [= <-] & Hne). destruct s; [done|reflexivity].
  - split; [discriminate|]. by intros (s & ? & _).
Qed.

Lemma env_optional_string env var : optional_string (env_get env var).
Proof.
  unfold optional_string, env_get. destruct (env !! var) as [s|]; [right|left]; eauto.
Qed.

Lemma parse_string_same n refine v x : parse (z_string n refine) v = Some x -> x = v.
Proof.
  cbn [parse]. destruct v; try discriminate.
  match goal with |- context [if ?b then _ else _] => destruct b end;
    [by intros [= <-] | discriminate].
Qed.

(** The environment passes [OCIAuthConfigSchema] exactly when the five
    required variables are set to non-empty values; the validated
    configuration then holds the values of the environment. *)
Lemma parse_env_config env :
  match parse OCIAuthConfigSchema (JObj (env_config env)) with
  | Some cfg =>
      configured env /\
      cfg!."tenancyId" = env_get env "OCI_TENANCY_ID" /\
      cfg!."userId" = env_get env "OCI_USER_ID" /\
      cfg!."keyFingerprint" = env_get env "OCI_KEY_FINGERPRINT" /\
      cfg!."privateKeyPath" = env_get env "OCI_PRIVATE_KEY_PATH" /\
      cfg!."region" = env_get env "OCI_REGION" /\
      cfg!."compartmentId" = env_get env "OCI_COMPARTMENT_ID"
  | None => ~ configured env
  end.
Proof.
  destruct (parse OCIAuthConfigSchema (JObj (env_config env))) as [cfg|] eqn:Hparse.
  - pose proof (parse_object_fields _ _ _ Hparse) as HF.
    rewrite !Forall_cons in HF. cbn [fst snd] in HF. rewrite !env_config_get in HF.
    cbn [obj_get String.eqb Ascii.eqb Bool.eqb] in HF.
    destruct HF as (H1 & H2 & H3 & H4 & H5 & _).
    split.
    { unfold configured, SimpleServer.requiredEnvVars. rewrite !Forall_cons.
      rewrite !truthy_env_nonempty, <- !parse_nonempty_string. by repeat split. }
    apply parse_object_inv in Hparse as (fields & o & [= <-] & -> & Ho).
    cbn [prop].
    assert (Hkey : forall k sk x,
              (k, sk) ∈ [("tenancyId", zstring_min 1); ("userId", zstring_min 1);
                         ("keyFingerprint", zstring_min 1);
                         ("privateKeyPath", zstring_min 1); ("region", zstring_min 1);
                         ("compartmentId", z_optional zstring)] ->
              obj_get k [("tenancyId", env_get env "OCI_TENANCY_ID");
                         ("userId", env_get env "OCI_USER_ID");
                         ("keyFingerprint", env_get env "OCI_KEY_FINGERPRINT");
                         ("privateKeyPath", env_get env "OCI_PRIVATE_KEY_PATH");
                         ("region", env_get env "OCI_REGION");
                         ("compartmentId", env_get env "OCI_COMPARTMENT_ID")] = x ->
              (forall y, parse sk x = Some y -> y = x) ->
              obj_get k o = x).
    { intros k sk x Hin Hx Hsame. apply Hsame. rewrite <- Hx, <- env_config_get.
      eapply parse_shape_declared; [|exact Ho|exact Hin]. distinct_keys. }
    repeat split.
    + apply (Hkey _ (zstring_min 1)); [in_list | reflexivity|].
      intros y. apply parse_string_same.
    + apply (Hkey _ (zstring_min 1)); [in_list | reflexivity|].
      intros y. apply parse_string_same.
    + apply (Hkey _ (zstring_min 1)); [in_list | reflexivity|].
      intros y. apply parse_string_same.
    + apply (Hkey _ (zstring_min 1)); [in_list | reflexivity|].
      intros y. apply parse_string_same.
    + apply (Hkey _ (zstring_min 1)); [in_list | reflexivity|].
      intros y. apply parse_string_same.
    + apply (Hkey _ (z_optional zstring)); [in_list | reflexivity|].
      intros y. destruct (env_optional_string env "OCI_COMPARTMENT_ID") as [->|[s ->]];
        cbn; by intros [= <-].
  - intros Hconf. unfold configured, SimpleServer.requiredEnvVars in Hconf.
    rewrite !Forall_cons in Hconf. rewrite !truthy_env_nonempty in Hconf.
    rewrite <- !parse_nonempty_string in Hconf.
    destruct Hconf as (H1 & H2 & H3 & H4 & H5 & _).
    assert (Hacc : is_Some (parse OCIAuthConfigSchema (JObj (env_config env)))).
    { apply parse_object_complete. repeat constructor; cbn [fst snd];
        rewrite env_config_get; cbn [obj_get String.eqb Ascii.eqb Bool.eqb]; try done.
      apply parse_optional_string, env_optional_string. }
    rewrite Hparse in Hacc. by destruct Hacc.
Qed.

(** The clients are all constructed exactly when no constructor throws. *)
Lemma construct_clients_none host p classes :
  construct_clients host p classes = None
  <-> Forall (fun class => new_client host class p = None) classes.
Proof.
  induction classes as [|class rest IH]; cbn [construct_clients].
  - split; [constructor | done].
  - rewrite Forall_cons. destruct (new_client host class p) as [error|].
    + split; [discriminate | by intros [? _]].
    + rewrite IH. split; [by split | by intros [_ ?]].
Qed.

(** What [initializeAuthConfig] does without a configuration argument. *)
Lemma initializeAuthConfig_env env host :
  initializeAuthConfig env host JUndef =
  match parse OCIAuthConfigSchema (JObj (env_config env)) with
  | None => inl (new_Error ("Invalid OCI configuration: " +:+ message_or_unknown ZodError))
  | Some cfg =>
      match readFileSync host (to_string cfg!."privateKeyPath") with
      | inl error =>
          inl (new_Error ("Failed to create OCI authentication provider: "
                          +:+ message_or_unknown error))
      | inr key =>
          let p := {| provider_tenancyId := cfg!."tenancyId";
                      provider_userId := cfg!."userId";
                      provider_keyFingerprint := cfg!."keyFingerprint";
                      provider_privateKey := key;
                      provider_region := cfg!."region" |} in
          match new_provider host p with
          | Some error =>
              inl (new_Error ("Failed to create OCI authentication provider: "
                              +:+ message_or_unknown error))
          | None => inr {| authConfig := cfg; provider := p |}
          end
      end
  end.
Proof. reflexivity. Qed.

(** X18: without a configuration argument, the client manager is
    constructed exactly when the five required variables are set to
    non-empty values, the key file can be read, and the SDK constructs the
    provider and the ten clients on it; otherwise the constructor throws.
    The manager then holds the tenancy and the region of the environment,
    its default compartment is [OCI_COMPARTMENT_ID], or the tenancy when
    that is unset or empty, and its provider was built from the values of
    the environment and the content of the key file. *)
Theorem new_OCIClientManager_succeeds_iff (env : gmap string string) (host : Host) :
  ((exists manager, new_OCIClientManager env host JUndef = inr manager) <->
   configured env /\
   exists key,
     readFileSync host (to_string (env_get env "OCI_PRIVATE_KEY_PATH")) = inr key /\
     sdk_accepts host (provider_of env key)) /\
  forall manager,
    new_OCIClientManager env host JUndef = inr manager ->
    getTenancyId manager = env_get env "OCI_TENANCY_ID" /\
    getRegion manager = env_get env "OCI_REGION" /\
    getDefaultCompartmentId manager
    = env_get env "OCI_COMPARTMENT_ID" ||| env_get env "OCI_TENANCY_ID" /\
    readFileSync host (to_string (env_get env "OCI_PRIVATE_KEY_PATH"))
    = inr (privateKey manager) /\
    provider manager = provider_of env (privateKey manager).
Proof.
  unfold new_OCIClientManager. rewrite initializeAuthConfig_env.
  pose proof (parse_env_config env) as Hcfg.
  destruct (parse OCIAuthConfigSchema (JObj (env_config env))) as [cfg|].
  - destruct Hcfg as (Hconf & Hten & Huser & Hfp & Hpath & Hreg & Hcomp).
    rewrite Hpath, Hten, Huser, Hfp, Hreg. fold (provider_of env).
    destruct (readFileSync host (to_string (env_get env "OCI_PRIVATE_KEY_PATH")))
      as [error|key].
    { split.
      - split; [by intros [manager Hm]|]. by intros (_ & key & Hkey & _).
      - intros manager Hm. discriminate Hm. }
    cbv zeta. fold (provider_of env key). unfold sdk_accepts.
    destruct (new_provider host (provider_of env key)) as [error|] eqn:Hprov.
    { split.
      - split; [by intros [manager Hm]|].
        intros (_ & key' & [= <-] & Hp & _). rewrite Hprov in Hp. discriminate Hp.
      - intros manager Hm. discriminate Hm. }
    unfold initializeClients. cbn [provider].
    destruct (construct_clients host (provider_of env key) client_classes)
      as [error|] eqn:Hclients.
    { split.
      - split; [by intros [manager Hm]|].
        intros (_ & key' & [= <-] & _ & Hc).
        apply construct_clients_none in Hc. rewrite Hclients in Hc. discriminate Hc.
      - intros manager Hm. discriminate Hm. }
    split.
    + split; [|intros _; by eexists].
      intros _. split; [exact Hconf|]. exists key. split; [reflexivity|].
      split; [exact Hprov|]. by apply construct_clients_none.
    + intros manager [= <-].
      unfold getTenancyId, getRegion, getDefaultCompartmentId, privateKey.
      cbn [authConfig provider provider_privateKey provider_of].
      by rewrite Hten, Hreg, Hcomp.
  - split.
    + split; [by intros [manager Hm]|]. by intros (Hconf & _).
    + intros manager Hm. discriminate Hm.
Qed.

(** On a configured host the client is constructed once: the singleton
    answers later calls, and is constructed anew after a reset. *)
Example getOCIClient_after_reset :
  exists manager,
    getOCIClient None sample_env sample_host JUndef = (inr manager, Some manager) /\
    getOCIClient (Some manager) region_only sample_host JUndef
    = (inr manager, Some manager) /\
    getOCIClient (resetOCIClient (Some manager)) sample_env sample_host JUndef
    = (inr manager, Some manager) /\
    getRegion manager = JStr "us-ashburn-1" /\
    getDefaultCompartmentId manager = JStr "ocid1.tenancy".
Proof.
  exists {| authConfig :=
              JObj [("tenancyId", JStr "ocid1.tenancy"); ("userId", JStr "ocid1.user");
                    ("keyFingerprint", JStr "aa:bb"); ("privateKeyPath", JStr "/key.pem");
                    ("region", JStr "us-ashburn-1")];
            provider := provider_of sample_env "PRIVATE KEY" |}.
  repeat split; vm_compute; reflexivity.
Qed.

(** A configured host whose key file can be read, but holds a key the SDK
    refuses: the constructor throws, and so does every [getOCIClient()]. *)
Example unusable_key_rejected :
  configured sample_env /\
  readFileSync unusable_key_host (to_string (env_get sample_env "OCI_PRIVATE_KEY_PATH"))
  = inr "PRIVATE KEY" /\
  getOCIClient None sample_env unusable_key_host JUndef
  = (inl (new_Error "Failed to create OCI authentication provider: Invalid private key"),
     None).
Proof.
  split; [|split; vm_compute; reflexivity].
  unfold configured, SimpleServer.requiredEnvVars.
  repeat constructor; vm_compute; reflexivity.
Qed.

(** ** Page sizes outside the declared range *)

Lemma Z_in_1_100 n : Z_in n (Some 1) (Some 100) = true <-> 1 <= n <= 100.
Proof. unfold Z_in. rewrite andb_true_iff, !Z.leb_le. tauto. Qed.

(** X19: a [list] call whose [limit] is a number outside 1..100 is refused
    by every tool with the RPC error "invalid params", before any backend
    call. *)
Theorem list_limit_out_of_range (is_email : string -> bool) (c : OCIClientManager)
    (d : Server.Domain) (args : JVal) (n : Z) {W} (w : World W) (st : W) :
  args!."action" = JStr "list" ->
  args!."limit" = JNum n ->
  n < 1 \/ 100 < n ->
  exists e,
    run w (Server.callTool is_email c (Server.tool_name d) args) st [] = (inl e, st, []) /\
    err_mcp e = Some InvalidParams.
Proof.
  intros Hact Hlimit Hrange.
  assert (Hnone : parse (Server.input_schema is_email d) args = None).
  { destruct (parse (Server.input_schema is_email d) args) as [input|] eqn:Hparse;
      [exfalso|reflexivity].
    destruct d; cbn [Server.input_schema] in Hparse;
      apply tool_union_inv in Hparse
        as [[_ H]|[[_ H]|[[_ H]|(verb & _ & _ & H)]]].
    all: try (assert (Hl : is_Some (parse (z_optional (z_number (Some 1) (Some 100)))
                                      args!."limit")) by member_field H;
              rewrite Hlimit in Hl; destruct Hl as [x Hx]; cbn [parse] in Hx;
              destruct (Z_in n (Some 1) (Some 100)) eqn:Hin; [|discriminate Hx];
              apply Z_in_1_100 in Hin; lia).
    all: try (assert (Ha : is_Some (parse (z_literal "get") args!."action"))
                by member_field H;
              rewrite Hact in Ha; by destruct Ha).
    all: try (assert (Ha : is_Some (parse (z_literal "create") args!."action"))
                by member_field H;
              rewrite Hact in Ha; by destruct Ha).
    all: match type of H with
         | parse (z_object (("action", ?s) :: _)) _ = _ =>
             assert (Ha : is_Some (parse s args!."action")) by member_field H;
             rewrite Hact in Ha; by destruct Ha
         end. }
  pose proof (handler_run w is_email c d args st) as Hh. rewrite Hnone in Hh.
  destruct Hh as (e & Hh & Hcode). exists e. split; [|exact Hcode].
  rewrite (callTool_routes is_email c _ args d) by (by destruct d).
  rewrite run_try_catch, Hh. cbn [run]. by rewrite Hcode.
Qed.

Lemma list_limit_out_of_range_witness :
  exists e,
    run (sample_world None not_found)
      (Server.callTool (fun _ => true) sample_client "oci-compute"
         (JObj [("action", JStr "list"); ("resourceType", JStr "instances");
                ("limit", JNum 500)])) 0%nat []
    = (inl e, 0%nat, []) /\
    err_mcp e = Some InvalidParams.
Proof.
  pose (args := JObj [("action", JStr "list"); ("resourceType", JStr "instances");
                      ("limit", JNum 500)]).
  assert (H1 : args!."action" = JStr "list") by reflexivity.
  assert (H2 : args!."limit" = JNum 500) by reflexivity.
  assert (H3 : 500 < 1 \/ 100 < 500) by lia.
  exact (list_limit_out_of_range (fun _ => true) sample_client Server.compute args 500
           (sample_world None not_found) 0%nat H1 H2 H3).
Defined.

(** ** The compute tool implements what it declares *)

Lemma parse_member_kept shape args input k sk :
  NoDup shape.*1 ->
  parse (z_object shape) args = Some input ->
  (k, sk) ∈ shape ->
  parse sk args!.k = Some input!.k.
Proof.
  intros Hnd H Hin. apply parse_object_inv in H as (fields & o & -> & -> & Ho).
  cbn [prop]. by eapply parse_shape_declared.
Qed.

(** The resource type kept by a member of a tool union is one of the
    enumeration. *)
Lemma parse_resourceType_kept action rts rest args input :
  NoDup (("action", action) :: ("resourceType", z_enum rts) :: rest).*1 ->
  parse (z_object (("action", action) :: ("resourceType", z_enum rts) :: rest)) args
  = Some input ->
  exists rt, input!."resourceType" = JStr rt /\ string_in rt rts = true.
Proof.
  intros Hnd H.
  assert (Hin : ("resourceType", z_enum rts)
                ∈ ("action", action) :: ("resourceType", z_enum rts) :: rest)
    by in_list.
  pose proof (parse_member_kept _ _ _ _ _ Hnd H Hin) as Hrt.
  apply parse_enum_inv in Hrt as (rt & _ & Hkept & Hrts). by exists rt.
Qed.

Ltac enum_cases H :=
  unfold string_in in H; cbn [existsb] in H;
  rewrite ?orb_true_iff, ?orb_false_r in H;
  repeat match type of H with
    | _ \/ _ => destruct H as [H|H]
    end;
  try discriminate H;
  apply String.eqb_eq in H; subst.

(** X20: the compute tool has a branch for every input its union accepts:
    a validated input reaches the backend, unless it is an [attach-volume]
    without both identifiers. *)
Theorem compute_validated_reaches_backend (c : OCIClientManager) (args input : JVal)
    {W} (w : World W) (st : W) :
  parse Compute.ComputeToolInputSchema args = Some input ->
  calls_of (run w (Compute.execute c input) st []) <> [] \/
  (input!."action" = JStr "attach-volume" /\
   (truthy input!."instanceId" && truthy input!."volumeId" = false)).
Proof.
  intros Hparse.
  destruct (run w (Compute.execute c input) st []) as [[res st'] new] eqn:Hrun.
  unfold calls_of. cbn [snd].
  unfold Compute.execute in Hrun.
  apply tool_union_inv in Hparse
    as [[Hact H]|[[Hact H]|[[Hact H]|(verb & Hact & Hverb & H)]]];
    assert (Hdef : input!."action" <> JUndef) by (by rewrite Hact);
    rewrite (reading_prop _ _ _ _ Hdef), Hact in Hrun.
  - apply parse_resourceType_kept in H as (rt & Hrt & Hrts); [|distinct_keys].
    unfold Compute.listResources in Hrun. cbv zeta in Hrun. rewrite Hrt in Hrun.
    enum_cases Hrts; cbn [is_str String.eqb Ascii.eqb Bool.eqb] in Hrun;
      run_inv Hrun; by left.
  - apply parse_resourceType_kept in H as (rt & Hrt & Hrts); [|distinct_keys].
    unfold Compute.getResource in Hrun. cbv zeta in Hrun. rewrite Hrt in Hrun.
    enum_cases Hrts; cbn [is_str String.eqb Ascii.eqb Bool.eqb] in Hrun;
      run_inv Hrun; by left.
  - pose proof (create_member_data _ _ _ _ H) as Hdata.
    assert (Hobj : nullish input!."data" = false).
    { union_cases Hdata;
        match goal with
        | Hm : parse _ _ = Some _ |- _ => exact (parse_member_object _ _ _ Hm)
        end. }
    apply parse_resourceType_kept in H as (rt & Hrt & Hrts); [|distinct_keys].
    unfold Compute.createResource in Hrun. cbv zeta in Hrun.
    unfold reading in Hrun. rewrite Hrt, Hobj in Hrun.
    enum_cases Hrts; cbn [is_str String.eqb Ascii.eqb Bool.eqb] in Hrun;
      run_inv Hrun; by left.
  - unfold Compute.manageInstance, Compute.manageVolume in Hrun.
    cbv zeta in Hrun. rewrite !Hact in Hrun.
    enum_cases Hverb;
      cbn [is_str is_any existsb orb String.eqb Ascii.eqb Bool.eqb] in Hrun;
      run_inv Hrun; try (by left).
    right. split; [done|].
    match goal with
    | Hpre : negb _ || negb _ = true |- _ =>
        apply orb_true_iff in Hpre as [Hpre|Hpre];
        apply negb_true_iff in Hpre; rewrite Hpre; [done | by rewrite andb_false_r]
    end.
Qed.

Lemma compute_validated_reaches_backend_witness :
  calls_of (run (sample_world None not_found)
              (Compute.execute sample_client
                 (JObj [("action", JStr "get"); ("resourceType", JStr "image");
                        ("resourceId", JStr "ocid1.image")])) 0%nat []) <> [].
Proof.
  pose (input := JObj [("action", JStr "get"); ("resourceType", JStr "image");
                       ("resourceId", JStr "ocid1.image")]).
  assert (H1 : parse Compute.ComputeToolInputSchema input = Some input) by reflexivity.
  destruct (compute_validated_reaches_backend sample_client input input
              (sample_world None not_found) 0%nat H1) as [H|[H _]];
    [exact H | discriminate H].
Defined.

(** ** Requests refused before any backend call *)

Lemma negb_orb_false a b : a && b = false -> negb a || negb b = true.
Proof. by destruct a, b. Qed.

Lemma negb_orb3_false a b c : a && b && c = false -> negb a || negb b || negb c = true.
Proof. by destruct a, b, c. Qed.

(** X21: each of the checks listed by [Refused] runs before any backend
    call: the input is answered with the failure envelope of the check's
    message, no call is made and the backend is unchanged. *)
Theorem refused_before_any_call (c : OCIClientManager) (d : Server.Domain)
    (input : JVal) (message : string) {W} (w : World W) (st : W) :
  Refused input d message ->
  run w (Server.execute c d input) st []
  = (inr (failure ("OCI Error: " +:+ message)), st, []).
Proof.
  intros Href.
  destruct Href;
    match goal with
    | Hact : input!."action" = JStr _ |- _ =>
        assert (Hdef : input!."action" <> JUndef) by (by rewrite Hact)
    end;
    unfold Server.execute, DatabaseAnalytics.execute, MonitoringSecurity.execute,
      StorageNetwork.execute,
      DatabaseAnalytics.listResources, DatabaseAnalytics.manageResource,
      MonitoringSecurity.listResources, MonitoringSecurity.manageResource,
      StorageNetwork.listResources, StorageNetwork.getResource,
      StorageNetwork.manageResource;
    rewrite (reading_prop _ _ _ _ Hdef); cbv zeta;
    repeat match goal with
      | H : input!._ = JStr _ |- _ => rewrite !H; clear H
      | H : truthy _ = false |- _ => rewrite !H; clear H
      | H : is_str _ _ = false |- _ => rewrite !H; clear H
      | H : _ && _ && _ = false |- _ => rewrite (negb_orb3_false _ _ _ H); clear H
      | H : _ && _ = false |- _ => rewrite (negb_orb_false _ _ H); clear H
      end;
    reflexivity.
Qed.

Lemma refused_before_any_call_witness :
  run (sample_world None not_found)
    (Server.execute sample_client Server.database_analytics
       (JObj [("action", JStr "scale-autonomous-db");
              ("resourceType", JStr "autonomous-database");
              ("resourceId", JStr "ocid1.adb");
              ("cpuCoreCount", JNum 0)])) 0%nat []
  = (inr (failure
            "OCI Error: Either cpuCoreCount or dataStorageSizeInTBs is required for scaling"),
     0%nat, []).
Proof.
  apply (refused_before_any_call sample_client Server.database_analytics
           (JObj [("action", JStr "scale-autonomous-db");
                  ("resourceType", JStr "autonomous-database");
                  ("resourceId", JStr "ocid1.adb");
                  ("cpuCoreCount", JNum 0)])).
  apply refused_scale; reflexivity.
Defined.

(** ** The outer [switch] and the input unions agree *)

Lemma string_in_elem_of a l : string_in a l = true <-> a ∈ l.
Proof.
  unfold string_in. rewrite existsb_exists. split.
  - intros (x & Hin & Heq). apply String.eqb_eq in Heq. subst x.
    by apply list_elem_of_In.
  - intros Hin. exists a. split; [by apply list_elem_of_In | apply String.eqb_refl].
Qed.

Lemma string_in_cons a x l : string_in a (x :: l) = String.eqb a x || string_in a l.
Proof. reflexivity. Qed.

Lemma string_in_nil a : string_in a [] = false.
Proof. reflexivity. Qed.

(** X22: the [action] of a validated input is always one of the [case]
    labels of [execute], so the [default] branch of the outer [switch] is
    never taken through the server; an input with any other action string
    is answered with the failure envelope "Unsupported action", without any
    backend call. *)
Theorem validated_action_routed (is_email : string -> bool) (c : OCIClientManager)
    (d : Server.Domain) :
  (forall args input,
     parse (Server.input_schema is_email d) args = Some input ->
     exists action, input!."action" = JStr action /\ action ∈ routed_actions d) /\
  (forall input action W (w : World W) (st : W),
     input!."action" = JStr action ->
     action ∉ routed_actions d ->
     run w (Server.execute c d input) st []
     = (inr (failure ("OCI Error: Unsupported action: " +:+ action)), st, [])).
Proof.
  split.
  - intros args input Hparse.
    destruct d; cbn [Server.input_schema] in Hparse;
      apply tool_union_inv in Hparse
        as [[Hact _]|[[Hact _]|[[Hact _]|(verb & Hact & Hverb & _)]]];
      (eexists; split; [exact Hact|]); apply string_in_elem_of;
      first [ reflexivity
            | unfold routed_actions; do 3 rewrite string_in_cons;
              rewrite Hverb; by rewrite !orb_true_r ].
  - intros input action W w st Hact Hnot.
    assert (Hdef : input!."action" <> JUndef) by (by rewrite Hact).
    assert (Hout : string_in action (routed_actions d) = false).
    { apply not_true_is_false. by rewrite string_in_elem_of. }
    destruct d;
      unfold routed_actions in Hout;
      rewrite !string_in_cons, string_in_nil, !orb_false_iff in Hout;
      repeat match type of Hout with
        | _ /\ _ => let E := fresh "E" in destruct Hout as [E Hout]
        end;
      unfold Server.execute, Compute.execute, StorageNetwork.execute,
        DatabaseAnalytics.execute, MonitoringSecurity.execute;
      rewrite (reading_prop _ _ _ _ Hdef); cbv zeta; rewrite !Hact;
      cbn [is_str is_any existsb to_string];
      repeat match goal with
        | E : String.eqb action _ = false |- _ => rewrite E; clear E
        end;
      reflexivity.
Qed.

(** ** The e-mail check of the monitoring tool *)

(** A payload the policy, user and group member accepts is accepted by the
    notification topic member, which is tried before it. *)
Lemma identity_member_shadowed is_email v out :
  parse (z_object [("compartmentId", zstring_min 1); ("name", zstring_min 1);
                   ("description", zstring_min 1);
                   ("statements", z_optional (zarray zstring));
                   ("email", z_optional (z_string 0 (Some is_email)));
                   ("members", z_optional (zarray zstring))]) v = Some out ->
  is_Some (parse (z_object [("compartmentId", zstring_min 1); ("name", zstring_min 1);
                            ("description", z_optional zstring)]) v).
Proof.
  intros Hidentity.
  apply parse_member_accepts; [member_is_object Hidentity|].
  repeat constructor; cbn [fst snd];
    [ member_field Hidentity
    | member_field Hidentity
    | apply parse_optional_string, nonempty_optional_string, parse_nonempty_string;
      member_field Hidentity ].
Qed.

(** X23: the e-mail check of the monitoring input union is dead: the only
    member that declares [email] is never reached by a payload it would
    accept, so validation does not depend on what counts as an e-mail
    address. *)
Theorem email_check_never_decides (is_email is_email' : string -> bool) (args : JVal) :
  parse (MonitoringSecurity.MonitoringSecurityToolInputSchema is_email) args
  = parse (MonitoringSecurity.MonitoringSecurityToolInputSchema is_email') args.
Proof.
  unfold MonitoringSecurity.MonitoringSecurityToolInputSchema.
  rewrite !parse_union_cons.
  destruct (parse MonitoringSecurity.MonitoringSecurityListInputSchema args); [done|].
  destruct (parse MonitoringSecurity.MonitoringSecurityGetInputSchema args); [done|].
  enough (Hcreate :
    parse (MonitoringSecurity.MonitoringSecurityCreateInputSchema is_email) args
    = parse (MonitoringSecurity.MonitoringSecurityCreateInputSchema is_email') args)
    by (by rewrite Hcreate).
  unfold MonitoringSecurity.MonitoringSecurityCreateInputSchema.
  destruct args as [| | | | | |fields]; try reflexivity.
  rewrite !parse_object_shape. cbn [parse_shape].
  rewrite !parse_union_cons, !parse_union_nil.
  set (v := obj_get "data" fields).
  repeat match goal with
    | |- context [parse (z_object ?shape) v] =>
        lazymatch shape with
        | context [is_email] => fail
        | context [is_email'] => fail
        | _ => destruct (parse (z_object shape) v) eqn:?
        end
    end;
    try reflexivity.
  match goal with
  | Htopic : parse (z_object [("compartmentId", _); ("name", _); ("description", _)]) v
             = None |- _ =>
      repeat match goal with
        | |- context [parse (z_object ?shape) v] =>
            let H := fresh "H" in
            destruct (parse (z_object shape) v) eqn:H;
            [apply identity_member_shadowed in H; rewrite Htopic in H; by destruct H|]
        end
  end.
  reflexivity.
Qed.

(** ** Generated display names *)

(** X24: a creation of an instance, a volume, a VCN, a subnet or an
    internet gateway performs one backend call, whose [displayName] is the
    one of the payload when that is not empty, and otherwise the prefix of
    the resource followed by the clock value read before the call. *)
Theorem generated_display_name (c : OCIClientManager) (d : Server.Domain)
    (input : JVal) (resourceType method details prefix : string)
    {W} (w : World W) (st : W) :
  generated_name d resourceType = Some (method, details, prefix) ->
  input!."action" = JStr "create" ->
  input!."resourceType" = JStr resourceType ->
  nullish input!."data" = false ->
  exists res st' entry,
    run w (Server.execute c d input) st [] = (res, st', [entry]) /\
    e_method entry = method /\
    (e_request entry)!.details!."displayName"
    = if truthy input!."data"!."displayName"
      then input!."data"!."displayName"
      else JStr (prefix +:+ string_of_Z (now w st).1).
Proof.
  intros Hgen Hact Hty Hobj.
  assert (Hdef : input!."action" <> JUndef) by (by rewrite Hact).
  destruct (run w (Server.execute c d input) st []) as [[res st'] new] eqn:Hrun.
  exists res, st'.
  destruct d; unfold generated_name in Hgen;
    repeat match type of Hgen with
      | context [String.eqb resourceType ?l] =>
          destruct (String.eqb_spec resourceType l) as [->|_]
      end;
    try discriminate Hgen; inversion Hgen; subst; clear Hgen;
    unfold Server.execute, Compute.execute, StorageNetwork.execute,
      Compute.createResource, StorageNetwork.createResource in Hrun;
    rewrite (reading_prop _ _ _ _ Hdef) in Hrun; cbv zeta in Hrun;
    rewrite Hact, !Hty in Hrun; unfold reading in Hrun; rewrite Hobj in Hrun;
    cbn [is_str String.eqb Ascii.eqb Bool.eqb] in Hrun;
    run_inv Hrun;
    eexists; (split; [reflexivity|]); (split; [reflexivity|]);
    cbn [e_request entry_of prop obj_get String.eqb Ascii.eqb Bool.eqb];
    repeat match goal with
      | H : truthy _ = _ |- _ => rewrite H
      | H : now _ _ = _ |- _ => rewrite H
      end;
    reflexivity.
Qed.

Lemma generated_display_name_witness :
  exists res st' entry,
    run (sample_world None not_found)
      (Server.execute sample_client Server.storage_network
         (JObj [("action", JStr "create"); ("resourceType", JStr "vcn");
                ("data", JObj [("compartmentId", JStr "ocid1.compartment");
                               ("cidrBlock", JStr "10.0.0.0/16")])])) 0%nat []
    = (res, st', [entry]) /\
    e_method entry = "createVcn" /\
    (e_request entry)!."createVcnDetails"!."displayName" = JStr "vcn-1700000000000".
Proof.
  pose (input := JObj [("action", JStr "create"); ("resourceType", JStr "vcn");
                       ("data", JObj [("compartmentId", JStr "ocid1.compartment");
                                      ("cidrBlock", JStr "10.0.0.0/16")])]).
  assert (H1 : generated_name Server.storage_network "vcn"
               = Some ("createVcn", "createVcnDetails", "vcn-")) by reflexivity.
  assert (H2 : input!."action" = JStr "create") by reflexivity.
  assert (H3 : input!."resourceType" = JStr "vcn") by reflexivity.
  assert (H4 : nullish input!."data" = false) by reflexivity.
  destruct (generated_display_name sample_client Server.storage_network input
              "vcn" "createVcn" "createVcnDetails" "vcn-"
              (sample_world None not_found) 0%nat H1 H2 H3 H4)
    as (res & st' & entry & Hrun & Hm & Hname).
  exists res, st', entry. split; [exact Hrun|]. split; [exact Hm|].
  rewrite Hname. reflexivity.
Defined.
